(** * Active-fire pipeline: feed URLs, record normalisation, combination,
      memoisation and the geospatial filter

    A shallow embedding of [services/firms_nominatim_service.py].  Python
    strings are Rocq strings whose characters stand for code points below
    256; a pandas [DataFrame] is a list of column labels with a list of
    positional rows; floats are exact rationals; exceptions are an
    explicit result type; the requests a computation sends are a list it
    passes along; the cache is a list of entries in order of use.

    What the service calls in pandas, geopandas, shapely and functools is
    written out next to the function that calls it, as those libraries
    document it (pandas 2 and shapely 2): [to_datetime] with a format,
    [rank], [drop_duplicates], [sort_values], [lru_cache], [within].  What
    comes from outside the process (the responses to requests, the parsing
    of delimited text, the date, the transformation between coordinate
    reference systems) is a field of the record [World]; so is what the
    libraries do where this model does not follow them (the order a sort
    that is not stable leaves equal keys in, the concatenation of frames
    that repeat a label, the conversion of a text to a float, [within]
    for geometries other than a point and an area). *)

From Stdlib Require Import List String Ascii ZArith QArith Bool Lia Lqa.
From Stdlib Require Import Sorting.Sorted Sorting.Permutation DecimalString.
Import ListNotations.
Local Open Scope string_scope.
Local Open Scope Z_scope.

(** ** Exceptions and results *)

(** The exception classes the service raises or lets escape.  The
    failures of a request ([HTTPError], [ConnectionError] and the other
    classes of the requests library) are all of the class [OSError]. *)
Inductive exn :=
| ValueError (msg : string)
| KeyError (msg : string)
| AttributeError (msg : string)
| OSError (msg : string)
| InvalidIndexError (msg : string).

(** The message of an exception, as the f-strings that wrap an inner
    exception print it (a [KeyError] is never wrapped). *)
Definition exn_str (e : exn) : string :=
  match e with
  | ValueError m => m
  | KeyError m => m
  | AttributeError m => m
  | OSError m => m
  | InvalidIndexError m => m
  end.

Inductive result (A : Type) :=
| Ok (a : A)
| Raise (e : exn).
Arguments Ok {A} a.
Arguments Raise {A} e.

Definition bind {A B : Type} (r : result A) (k : A -> result B) : result B :=
  match r with
  | Ok a => k a
  | Raise e => Raise e
  end.

Notation "x <- r ;; k" := (bind r (fun x => k))
  (at level 61, r at next level, right associativity).

(** ** Python string primitives *)

Definition chars (s : string) : list ascii := list_ascii_of_string s.
Definition text (l : list ascii) : string := string_of_list_ascii l.

Definition code (c : ascii) : Z := Z.of_nat (nat_of_ascii c).

(** [str.lower] on one code point below 256: the ASCII capitals and the
    Latin-1 capitals (all of 192..222 but the multiplication sign 215)
    move up by 32. *)
Definition lower_char (c : ascii) : ascii :=
  let n := code c in
  if ((65 <=? n) && (n <=? 90)) || ((192 <=? n) && (n <=? 222) && negb (n =? 215))
  then ascii_of_nat (Z.to_nat (n + 32))
  else c.

Definition lower (s : string) : string := text (map lower_char (chars s)).

(** [c in s] for a one-character [c]. *)
Definition char_in (c : ascii) (s : string) : bool :=
  existsb (Ascii.eqb c) (chars s).

Definition len (s : string) : Z := Z.of_nat (String.length s).

(** ** Feed URL builder *)

Definition FIRMS_API_URL : string := "https://firms.modaps.eosdis.nasa.gov".

Definition empty_key_msg : string :=
  "FIRMS key is required and cannot be empty.".
Definition invalid_key_msg : string :=
  "Invalid FIRMS key. Key should be a 32-character hexadecimal string.".

Definition firms_url (firms_key product : string) : string :=
  FIRMS_API_URL ++ "/api/area/csv/" ++ firms_key ++ "/" ++ product ++ "/world/9".

Definition create_firms_csv_urls (firms_key : string)
  : result (string * string * string) :=
  if String.eqb firms_key "" then Raise (ValueError empty_key_msg)
  else if negb (forallb (fun c => char_in c "0123456789abcdef")
                        (chars (lower firms_key)))
          || negb (len firms_key =? 32)
  then Raise (ValueError invalid_key_msg)
  else Ok (firms_url firms_key "MODIS_NRT",
           firms_url firms_key "VIIRS_NOAA20_NRT",
           firms_url firms_key "VIIRS_SNPP_NRT").

(** The two failures of the builder are what the specification calls
    [InvalidCredential]. *)
Definition InvalidCredential (e : exn) : Prop :=
  e = ValueError empty_key_msg \/ e = ValueError invalid_key_msg.

(** Character classes of the credential, written independently of the
    builder. *)
Definition lower_hex_char (c : ascii) : bool :=
  let n := code c in
  ((48 <=? n) && (n <=? 57)) || ((97 <=? n) && (n <=? 102)).

Definition hex_char (c : ascii) : bool :=
  lower_hex_char c || ((65 <=? code c) && (code c <=? 70)).

Definition lower_hex32 (s : string) : bool :=
  (String.length s =? 32)%nat && forallb lower_hex_char (chars s).

Definition hex32 (s : string) : bool :=
  (String.length s =? 32)%nat && forallb hex_char (chars s).

(** ** Timestamps

    pandas keeps a [datetime64[ns]] value as a signed 64-bit count of
    nanoseconds since 1970-01-01; the smallest pattern is reserved for
    [NaT]. *)

Definition NS_PER_SECOND : Z := 1000000000.
Definition TIMESTAMP_MIN : Z := - 2 ^ 63 + 1.
Definition TIMESTAMP_MAX : Z := 2 ^ 63 - 1.

Definition is_leap (y : Z) : bool :=
  ((y mod 4 =? 0) && negb (y mod 100 =? 0)) || (y mod 400 =? 0).

Definition days_in_month (y m : Z) : Z :=
  if m =? 2 then (if is_leap y then 29 else 28)
  else if (m =? 4) || (m =? 6) || (m =? 9) || (m =? 11) then 30
  else 31.

(** Days between 1970-01-01 and the proleptic Gregorian date [y]-[m]-[d]. *)
Definition days_from_civil (y m d : Z) : Z :=
  let y' := if m <=? 2 then y - 1 else y in
  let era := y' / 400 in
  let yoe := y' - era * 400 in
  let doy := (153 * (if 2 <? m then m - 3 else m + 9) + 2) / 5 + d - 1 in
  let doe := yoe * 365 + yoe / 4 - yoe / 100 + doy in
  era * 146097 + doe - 719468.

(** The inverse: year, month and day of a day count. *)
Definition civil_from_days (z0 : Z) : Z * Z * Z :=
  let z := z0 + 719468 in
  let era := z / 146097 in
  let doe := z - era * 146097 in
  let yoe := (doe - doe / 1460 + doe / 36524 - doe / 146096) / 365 in
  let doy := doe - (365 * yoe + yoe / 4 - yoe / 100) in
  let mp := (5 * doy + 2) / 153 in
  let d := doy - (153 * mp + 2) / 5 + 1 in
  let m := if mp <? 10 then mp + 3 else mp - 9 in
  let y := yoe + era * 400 in
  ((if m <=? 2 then y + 1 else y), m, d).

(** [datetime.date(y, m, d)] accepts exactly these triples. *)
Definition valid_date (y m d : Z) : bool :=
  (1 <=? y) && (y <=? 9999) && (1 <=? m) && (m <=? 12)
  && (1 <=? d) && (d <=? days_in_month y m).

(** The nanosecond count of a civil date and time; the fields are summed
    without a range check, as the conversion of the parsed fields does. *)
Definition timestamp_ns (y m d hh mm ss : Z) : Z :=
  (((days_from_civil y m d * 24 + hh) * 60 + mm) * 60 + ss) * NS_PER_SECOND.

(** ** [strptime] as pandas runs it

    A format is turned into a regular expression: a directive becomes a
    group of alternatives tried in order, a run of white space becomes
    [\s+], any other character stands for itself.  The expression is
    matched by backtracking from the start of the text; the first match
    found is the one used, and it has to cover the whole text. *)

Definition charclass := ascii -> bool.

Definition between (lo hi : Z) : charclass :=
  fun c => (lo <=? code c) && (code c <=? hi).

Definition digit : charclass := between 48 57.
Definition only (c : ascii) : charclass := Ascii.eqb c.

(** [\s] on code points below 256. *)
Definition is_space (c : ascii) : bool :=
  let n := code c in
  ((9 <=? n) && (n <=? 13)) || ((28 <=? n) && (n <=? 32))
  || (n =? 133) || (n =? 160).

Inductive token :=
| TDir (name : ascii)
| TSpace
| TLit (c : ascii).

(** The alternatives of each directive, in the order of the expression:
    [%Y] is [\d\d\d\d], [%m] is [1[0-2]|0[1-9]|[1-9]], [%d] is
    [3[01]|[12]\d|0[1-9]|[1-9]| [1-9]], [%H] is [2[0-3]|[0-1]\d|\d],
    [%M] is [[0-5]\d|\d] and [%S] is [6[0-1]|[0-5]\d|\d]. *)
Definition alternatives (name : ascii) : list (list charclass) :=
  let d19 := between 49 57 in
  if Ascii.eqb name "Y" then [[digit; digit; digit; digit]]
  else if Ascii.eqb name "m" then
    [[only "1"; between 48 50]; [only "0"; d19]; [d19]]
  else if Ascii.eqb name "d" then
    [[only "3"; between 48 49]; [between 49 50; digit]; [only "0"; d19];
     [d19]; [only " "; d19]]
  else if Ascii.eqb name "H" then
    [[only "2"; between 48 51]; [between 48 49; digit]; [digit]]
  else if Ascii.eqb name "M" then
    [[between 48 53; digit]; [digit]]
  else if Ascii.eqb name "S" then
    [[only "6"; between 48 49]; [between 48 53; digit]; [digit]]
  else [].

(** The tokens of a format string. *)
Fixpoint pattern (f : list ascii) : list token :=
  match f with
  | [] => []
  | c :: rest =>
      if Ascii.eqb c "%" then
        match rest with
        | [] => [TLit c]
        | d :: rest' => TDir d :: pattern rest'
        end
      else if is_space c then
        match pattern rest with
        | TSpace :: p => TSpace :: p
        | p => TSpace :: p
        end
      else TLit c :: pattern rest
  end.

(** One alternative against the start of a text: the characters it took
    and what is left. *)
Fixpoint match_classes (cs : list charclass) (s : list ascii)
  : option (list ascii * list ascii) :=
  match cs with
  | [] => Some ([], s)
  | p :: cs' =>
      match s with
      | [] => None
      | c :: s' =>
          if p c then
            match match_classes cs' s' with
            | Some (m, r) => Some (c :: m, r)
            | None => None
            end
          else None
      end
  end.

(** [\s+]: every non-empty run of white space at the start, longest first. *)
Fixpoint match_spaces (s : list ascii) : list (list ascii * list ascii) :=
  match s with
  | [] => []
  | c :: s' =>
      if is_space c
      then (map (fun mr => (c :: fst mr, snd mr)) (match_spaces s')
            ++ [([c], s')])%list
      else []
  end.

Definition captures := list (ascii * list ascii).

(** The ways one token matches the start of a text, in the order the
    backtracking search tries them. *)
Definition token_matches (t : token) (s : list ascii)
  : list (captures * list ascii) :=
  match t with
  | TLit c =>
      match s with
      | c' :: s' => if Ascii.eqb c c' then [([], s')] else []
      | [] => []
      end
  | TSpace => map (fun mr => ([], snd mr)) (match_spaces s)
  | TDir name =>
      flat_map (fun alt =>
                  match match_classes alt s with
                  | Some (m, r) => [([(name, m)], r)]
                  | None => []
                  end) (alternatives name)
  end.

(** All matches of a token sequence, first choice first. *)
Fixpoint regex_matches (ts : list token) (s : list ascii)
  : list (captures * list ascii) :=
  match ts with
  | [] => [([], s)]
  | t :: ts' =>
      flat_map (fun cr =>
                  map (fun cr' => ((fst cr ++ fst cr')%list, snd cr'))
                      (regex_matches ts' (snd cr)))
               (token_matches t s)
  end.

(** [int] of a captured group: decimal digits, a leading blank skipped. *)
Definition int_of (m : list ascii) : Z :=
  fold_left (fun acc c => if digit c then acc * 10 + (code c - 48) else acc) m 0.

Fixpoint capture (name : ascii) (cs : captures) : option (list ascii) :=
  match cs with
  | [] => None
  | (n, m) :: cs' => if Ascii.eqb n name then Some m else capture name cs'
  end.

Definition field (name : ascii) (default : Z) (cs : captures) : Z :=
  match capture name cs with
  | Some m => int_of m
  | None => default
  end.

(** [pd.to_datetime(text, format=fmt, errors="coerce")] on one element:
    [None] is [NaT].  A text the expression does not match, a match that
    leaves text over, a date that does not exist and a value outside the
    64-bit nanosecond range all give [NaT]. *)
Definition to_datetime (fmt : string) (s : option string) : option Z :=
  match s with
  | None => None
  | Some s =>
      match regex_matches (pattern (chars fmt)) (chars s) with
      | (cs, []) :: _ =>
          let y := field "Y" 1900 cs in
          let m := field "m" 1 cs in
          let d := field "d" 1 cs in
          if valid_date y m d then
            let ns := timestamp_ns y m d (field "H" 0 cs) (field "M" 0 cs)
                                   (field "S" 0 cs) in
            if (TIMESTAMP_MIN <=? ns) && (ns <=? TIMESTAMP_MAX)
            then Some ns else None
          else None
      | _ => None
      end
  end.

(** ** Cells and frames *)

(** A ring is its coordinate sequence; coordinates are exact rationals
    (every finite double is one). *)
Definition coord : Type := (Q * Q)%type.
Definition ring : Type := list coord.

(** [PointNaN] is a point of which a coordinate is not a number. *)
Inductive geometry :=
| Point (x y : Q)
| PointNaN
| Polygon (shell : ring) (holes : list ring)
| MultiPolygon (parts : list (ring * list ring)).

(** One value of a frame.  [NaN] is the missing value of every dtype
    ([NaN], [None] and [NaT] alike). *)
Inductive cell :=
| NaN
| VBool (b : bool)
| VInt (z : Z)
| VFloat (q : Q)
| VStr (s : string)
| VTime (ns : Z)
| VGeom (g : geometry).

(** A frame: its column labels in order and its rows, each row holding
    the cells of the columns by position.  A position a row does not
    reach reads as [NaN]. *)
Record DataFrame := {
  columns : list string;
  rows : list (list cell)
}.

Fixpoint index_of (c : string) (cols : list string) : option nat :=
  match cols with
  | [] => None
  | c' :: cols' =>
      if String.eqb c c' then Some O
      else match index_of c cols' with
           | Some i => Some (S i)
           | None => None
           end
  end.

Definition cell_at (cols : list string) (r : list cell) (c : string) : cell :=
  match index_of c cols with
  | Some i => nth i r NaN
  | None => NaN
  end.

(** [data[c]] as the list of its values. *)
Definition column (d : DataFrame) (c : string) : list cell :=
  map (fun r => cell_at (columns d) r c) (rows d).

(** [c in data.columns]. *)
Definition has_column (d : DataFrame) (c : string) : bool :=
  existsb (String.eqb c) (columns d).

Fixpoint set_at (i : nat) (v : cell) (r : list cell) : list cell :=
  match i, r with
  | O, [] => [v]
  | O, _ :: r' => v :: r'
  | S i', [] => NaN :: set_at i' v []
  | S i', x :: r' => x :: set_at i' v r'
  end.

(** [data[c] = ...], the new value of each row computed from the row: an
    existing column is overwritten in place, a new one goes last. *)
Definition assign_index (cols : list string) (c : string) : nat :=
  match index_of c cols with
  | Some i => i
  | None => List.length cols
  end.

Definition assign_columns (cols : list string) (c : string) : list string :=
  match index_of c cols with
  | Some _ => cols
  | None => (cols ++ [c])%list
  end.

Definition assign (d : DataFrame) (c : string)
           (f : (string -> cell) -> cell) : DataFrame :=
  {| columns := assign_columns (columns d) c;
     rows := map (fun r => set_at (assign_index (columns d) c)
                                  (f (cell_at (columns d) r)) r) (rows d) |}.

(** [data.rename(columns={old: new, ...}, inplace=True)]: labels not in
    the mapping stay; the cells are not touched. *)
Fixpoint renamed (mapping : list (string * string)) (c : string) : string :=
  match mapping with
  | [] => c
  | (old, new) :: mapping' =>
      if String.eqb c old then new else renamed mapping' c
  end.

Definition rename (d : DataFrame) (mapping : list (string * string))
  : DataFrame :=
  {| columns := map (renamed mapping) (columns d); rows := rows d |}.

(** The row of [cols] laid out along [cols']. *)
Definition reindex (cols cols' : list string) (r : list cell) : list cell :=
  map (cell_at cols r) cols'.

(** *** Scalars *)

Definition isnull (v : cell) : bool :=
  match v with NaN => true | _ => false end.

(** The number a cell stands for in arithmetic and comparisons. *)
Definition numeric_value (v : cell) : option Q :=
  match v with
  | VBool b => Some (if b then 1%Q else 0%Q)
  | VInt z => Some (inject_Z z)
  | VFloat q => Some q
  | _ => None
  end.

Definition coord_eqb (a b : coord) : bool :=
  Qeq_bool (fst a) (fst b) && Qeq_bool (snd a) (snd b).

Fixpoint list_eqb {A : Type} (eqb : A -> A -> bool) (l1 l2 : list A) : bool :=
  match l1, l2 with
  | [], [] => true
  | a :: l1', b :: l2' => eqb a b && list_eqb eqb l1' l2'
  | _, _ => false
  end.

Definition part_eqb (a b : ring * list ring) : bool :=
  list_eqb coord_eqb (fst a) (fst b)
  && list_eqb (list_eqb coord_eqb) (snd a) (snd b).

Definition geometry_eqb (a b : geometry) : bool :=
  match a, b with
  | Point x y, Point x' y' => coord_eqb (x, y) (x', y')
  | PointNaN, PointNaN => true
  | Polygon s h, Polygon s' h' => part_eqb (s, h) (s', h')
  | MultiPolygon ps, MultiPolygon ps' => list_eqb part_eqb ps ps'
  | _, _ => false
  end.

(** Equality of two cells as the hash tables behind [duplicated] see it:
    missing values are equal to each other, numbers are compared by
    value, everything else within its own kind. *)
Definition cell_eqb (a b : cell) : bool :=
  match a, b with
  | NaN, NaN => true
  | VStr s, VStr s' => String.eqb s s'
  | VTime t, VTime t' => t =? t'
  | VGeom g, VGeom g' => geometry_eqb g g'
  | _, _ =>
      match numeric_value a, numeric_value b with
      | Some x, Some y => Qeq_bool x y
      | _, _ => false
      end
  end.

(** Python's [a == b] on two scalars: as above, but a missing value is
    equal to nothing, and values of different kinds (a [str] and a
    [Timestamp], say) are never equal. *)
Definition py_eq (a b : cell) : bool :=
  negb (isnull a) && cell_eqb a b.

(** *** dtypes *)

Inductive dtype := Dbool | Dint64 | Dfloat64 | Ddatetime64 | Dobject.

Definition is_VBool (v : cell) : bool :=
  match v with VBool _ => true | _ => false end.
Definition is_VInt (v : cell) : bool :=
  match v with VInt _ => true | _ => false end.
Definition is_float_like (v : cell) : bool :=
  match v with VInt _ | VFloat _ | NaN => true | _ => false end.
Definition is_time_like (v : cell) : bool :=
  match v with VTime _ | NaN => true | _ => false end.
Definition is_VStr (v : cell) : bool :=
  match v with VStr _ => true | _ => false end.

(** The dtype [read_csv] gives a column with these values: booleans,
    integers, floats (integers with gaps included), otherwise [object];
    a column without rows is [object]. *)
Definition dtype_of (vs : list cell) : dtype :=
  match vs with
  | [] => Dobject
  | _ =>
      if forallb is_VBool vs then Dbool
      else if forallb is_VInt vs then Dint64
      else if forallb is_float_like vs then Dfloat64
      else if forallb is_time_like vs then Ddatetime64
      else Dobject
  end.

(** [pd.api.types.is_numeric_dtype]. *)
Definition is_numeric_dtype (vs : list cell) : bool :=
  match dtype_of vs with
  | Dbool | Dint64 | Dfloat64 => true
  | _ => false
  end.

(** [pd.api.types.is_string_dtype] (pandas 2): an [object] column all of
    whose elements are strings. *)
Definition is_string_dtype (vs : list cell) : bool :=
  match dtype_of vs with
  | Dobject => forallb is_VStr vs
  | _ => false
  end.

(** ** Text of numbers and timestamps *)

Definition str_of_Z (z : Z) : string := NilEmpty.string_of_int (Z.to_int z).

(** [str.rjust(width, fillchar)]. *)
Definition rjust (width : nat) (fillchar : ascii) (s : string) : string :=
  text (repeat fillchar (width - String.length s)) ++ s.

(** [str.zfill(width)]: zeros go after a leading sign. *)
Definition zfill (width : nat) (s : string) : string :=
  match s with
  | String c s' =>
      if (Ascii.eqb c "+" || Ascii.eqb c "-")%bool
      then String c (rjust (width - 1) "0" s')
      else rjust width "0" s
  | EmptyString => rjust width "0" s
  end.

(** One directive of [strftime], zero padded to its width. *)
Definition strftime_field (name : ascii) (ns : Z) : string :=
  let secs := ns / NS_PER_SECOND in
  let '(y, m, d) := civil_from_days (secs / 86400) in
  let sod := secs mod 86400 in
  if Ascii.eqb name "Y" then rjust 4 "0" (str_of_Z y)
  else if Ascii.eqb name "m" then rjust 2 "0" (str_of_Z m)
  else if Ascii.eqb name "d" then rjust 2 "0" (str_of_Z d)
  else if Ascii.eqb name "H" then rjust 2 "0" (str_of_Z (sod / 3600))
  else if Ascii.eqb name "M" then rjust 2 "0" (str_of_Z (sod mod 3600 / 60))
  else if Ascii.eqb name "S" then rjust 2 "0" (str_of_Z (sod mod 60))
  else String name EmptyString.

Fixpoint strftime_chars (f : list ascii) (ns : Z) : string :=
  match f with
  | [] => ""
  | c :: rest =>
      if Ascii.eqb c "%" then
        match rest with
        | [] => String c EmptyString
        | d :: rest' => strftime_field d ns ++ strftime_chars rest' ns
        end
      else String c (strftime_chars rest ns)
  end.

(** [Timestamp.strftime(fmt)]. *)
Definition strftime (fmt : string) (ns : Z) : string :=
  strftime_chars (chars fmt) ns.

(** What the surroundings of the service supply: the text of a float and
    of a geometry (the shortest decimal that reads back, and WKT), the
    current date as a midnight timestamp, the decoded response to a GET
    request (a failure of the request is an [OSError], a response that is
    not UTF-8 a [ValueError]), the parser of delimited text, and the
    machinery of coordinate reference systems (when two of them are
    equal, and the transformation of a geometry from one to another).

    The last four fields are what the libraries do where this model does
    not follow them: the conversion to a float of a value that is no
    number (a text that may or may not read as one, a timestamp); the
    positions in which the sort, which is not stable, takes the rows
    before equal keys keep their order; the concatenation of frames of
    which one repeats a label; and [within] for a pair of geometries other
    than a point against an area. *)
Record World := {
  repr_float : Q -> string;
  repr_geometry : geometry -> string;
  today : Z;
  http_get : string -> result string;
  read_csv : string -> result DataFrame;
  crs_eq : string -> string -> bool;
  transform : string -> string -> geometry -> result geometry;
  to_float : cell -> result (option Q);
  tie_order : list cell -> list nat;
  concat_repeated : list DataFrame -> result DataFrame;
  within_other : geometry -> geometry -> bool
}.

(** [str(v)], the element-wise work of [astype(str)]. *)
Definition astype_str (w : World) (v : cell) : string :=
  match v with
  | NaN => "nan"
  | VBool true => "True"
  | VBool false => "False"
  | VInt z => str_of_Z z
  | VFloat q => repr_float w q
  | VStr s => s
  | VTime ns => strftime "%Y-%m-%d %H:%M:%S" ns
  | VGeom g => repr_geometry w g
  end.

(** Element-wise string methods leave a missing or non-string value
    missing. *)
Definition str_pad (width : nat) (fillchar : ascii) (v : cell) : cell :=
  match v with
  | VStr s => VStr (rjust width fillchar s)
  | _ => NaN
  end.

Definition str_zfill (width : nat) (v : cell) : cell :=
  match v with
  | VStr s => VStr (zfill width s)
  | _ => NaN
  end.

(** [a + b] on string columns. *)
Definition str_add (a b : cell) : cell :=
  match a, b with
  | VStr s, VStr s' => VStr (s ++ s')
  | _, _ => NaN
  end.

Definition to_datetime_cell (fmt : string) (v : cell) : cell :=
  match v with
  | VStr s =>
      match to_datetime fmt (Some s) with
      | Some ns => VTime ns
      | None => NaN
      end
  | _ => NaN
  end.

(** ** Ranking *)

Definition str_ltb (a b : cell) : bool :=
  match a, b with
  | VStr s, VStr s' => String.ltb s s'
  | _, _ => false
  end.

(** [Series.max()] of a column of strings: missing values are skipped,
    and a column with nothing else has a missing maximum. *)
Definition series_max (vs : list cell) : cell :=
  fold_left (fun m v =>
               match v with
               | VStr _ => if isnull m || str_ltb m v then v else m
               | _ => m
               end) vs NaN.

(** The distinct values of a column, first occurrences kept. *)
Fixpoint distinct (vs : list cell) : list cell :=
  match vs with
  | [] => []
  | v :: vs' => v :: filter (fun x => negb (cell_eqb v x)) (distinct vs')
  end.

(** [Series.rank(method="dense", ascending=False)] at one value: one
    more than the number of distinct values above it. *)
Definition dense_rank_desc (vs : list cell) (v : cell) : cell :=
  match v with
  | VStr _ =>
      VInt (1 + Z.of_nat (List.length (filter (str_ltb v) (distinct vs))))
  | _ => NaN
  end.

(** ** Record normaliser *)

Definition required_columns : list string :=
  ["confidence"; "acq_date"; "acq_time"; "satellite"].

(** The text of a list of strings inside an f-string. *)
Definition repr_list (l : list string) : string :=
  "[" ++ String.concat ", " (map (fun s => "'" ++ s ++ "'") l) ++ "]".

Definition ge_70 (v : cell) : bool :=
  match numeric_value v with
  | Some q => Qle_bool 70 q
  | None => false
  end.

Definition isin_nominal_high (v : cell) : bool :=
  cell_eqb v (VStr "nominal") || cell_eqb v (VStr "high").

(** [data.loc[mask, c] = v]. *)
Definition loc_set (d : DataFrame) (mask : (string -> cell) -> bool)
           (c : string) (v : cell) : DataFrame :=
  assign d c (fun row => if mask row then v else row c).

(** The branch on the representation of [confidence]. *)
Definition mark_confidence (data : DataFrame) : DataFrame :=
  if is_numeric_dtype (column data "confidence") then
    rename (loc_set data (fun row => ge_70 (row "confidence"))
                    "high_confidence" (VBool true))
           [("brightness", "brightness_a"); ("bright_t31", "brightness_b")]
  else if is_string_dtype (column data "confidence") then
    rename (loc_set data (fun row => isin_nominal_high (row "confidence"))
                    "high_confidence" (VBool true))
           [("bright_ti4", "brightness_a"); ("bright_ti5", "brightness_b")]
  else data.

Definition DATETIME_FORMAT : string := "%Y-%m-%d %H%M%S".

(** The text handed to [to_datetime] for one row. *)
Definition acq_text (w : World) (acq_date acq_time : cell) : cell :=
  str_add (str_add acq_date (VStr " "))
          (str_zfill 4 (VStr (astype_str w (str_pad 4 "0" acq_time)))).

(** The timestamp of one row, from its date and its time as read. *)
Definition row_datetime (w : World) (acq_date acq_time : cell) : cell :=
  to_datetime_cell DATETIME_FORMAT (acq_text w acq_date acq_time).

Definition parse_acq_datetime (data : DataFrame) (w : World) : DataFrame :=
  let data := assign data "acq_time"
                     (fun row => str_pad 4 "0" (row "acq_time")) in
  assign data "acq_datetime"
         (fun row =>
            to_datetime_cell DATETIME_FORMAT
              (str_add (str_add (row "acq_date") (VStr " "))
                       (str_zfill 4 (VStr (astype_str w (row "acq_time")))))).

(** [astype(int)] of a rank: a missing rank cannot be converted. *)
Definition astype_int (vs : list cell) : result unit :=
  if existsb isnull vs
  then Raise (ValueError "Cannot convert non-finite values (NA or inf) to integer")
  else Ok tt.

Definition minus_one (v : cell) : cell :=
  match v with
  | VInt z => VInt (z - 1)
  | _ => NaN
  end.

Definition days_ago_step (w : World) (data : DataFrame) : result DataFrame :=
  let dates := column data "acq_date" in
  _ <- astype_int (map (dense_rank_desc dates) dates) ;;
  if py_eq (series_max dates) (VTime (today w)) then
    Ok (assign data "days_ago"
               (fun row => minus_one (dense_rank_desc dates (row "acq_date"))))
  else
    Ok (assign data "days_ago"
               (fun row => dense_rank_desc dates (row "acq_date"))).

(** The two [astype(str)] at the end. *)
Definition type_conversions (w : World) (data : DataFrame) : DataFrame :=
  let data := assign data "satellite"
                     (fun row => VStr (astype_str w (row "satellite"))) in
  assign data "confidence"
         (fun row => VStr (astype_str w (row "confidence"))).

(** The body of the [try] block. *)
Definition normalize (w : World) (data : DataFrame) : result DataFrame :=
  let data := assign data "high_confidence" (fun _ => VBool false) in
  let missing_columns :=
    filter (fun col => negb (has_column data col)) required_columns in
  match missing_columns with
  | _ :: _ =>
      Raise (ValueError ("Missing required columns in the CSV data: "
                         ++ repr_list missing_columns))
  | [] =>
      let data := mark_confidence data in
      let data := parse_acq_datetime data w in
      if existsb isnull (column data "acq_datetime")
      then Raise (ValueError "Error converting acquisition datetime")
      else
        data <- days_ago_step w data ;;
        Ok (type_conversions w data)
  end.

Definition process_csv_data (w : World) (csv_content : string)
  : result DataFrame :=
  data <- read_csv w csv_content ;;
  match normalize w data with
  | Ok data => Ok data
  | Raise e => Raise (ValueError ("Data processing error: " ++ exn_str e))
  end.

(** ** Reading one feed

    A computation that may send requests carries the list of the URLs
    requested so far. *)

Definition io (A : Type) : Type := list string -> result A * list string.

(** [requests.get(url)], [raise_for_status()] and the decoding; a
    failure of the request is wrapped, any other exception passes. *)
Definition fetch_firms_csv_content (w : World) (url : string) : io string :=
  fun requests =>
    (match http_get w url with
     | Ok content => Ok content
     | Raise (OSError _) =>
         Raise (ValueError ("Failed to fetch content from '" ++ url ++ "'"))
     | Raise e => Raise e
     end, (requests ++ [url])%list).

Definition read_firm_csv (w : World) (url : string) : io DataFrame :=
  fun requests =>
    let (fetched, requests') := fetch_firms_csv_content w url requests in
    (match (content <- fetched ;; process_csv_data w content) with
     | Ok data => Ok data
     | Raise _ =>
         Raise (ValueError
                  ("Failed to read and process CSV from '" ++ url ++ "'"))
     end, requests').

(** ** Frame operations of the combiner *)

Definition add_label (acc : list string) (c : string) : list string :=
  if existsb (String.eqb c) acc then acc else (acc ++ [c])%list.

(** Whether no label occurs twice. *)
Fixpoint unique_labels (cols : list string) : bool :=
  match cols with
  | [] => true
  | c :: cols' => negb (existsb (String.eqb c) cols') && unique_labels cols'
  end.

(** An integer in a column of floats. *)
Definition as_float (v : cell) : cell :=
  match v with
  | VInt z => VFloat (inject_Z z)
  | _ => v
  end.

(** The concatenation of frames none of which repeats a label: the
    labels of all frames in order of first appearance; a frame without a
    column has it missing in its rows; and a column of numbers of which
    some are missing or floats is a column of floats, its integers
    included (a frame without rows has no say in this). *)
Definition concat_frames (dfs : list DataFrame) : DataFrame :=
  let cols := fold_left (fun acc d => fold_left add_label (columns d) acc)
                        dfs [] in
  let float_column :=
    fun c => match dtype_of (flat_map (fun d => column d c) dfs) with
             | Dfloat64 => true
             | _ => false
             end in
  {| columns := cols;
     rows := flat_map
               (fun d =>
                  map (fun r =>
                         map (fun c => if float_column c
                                       then as_float (cell_at (columns d) r c)
                                       else cell_at (columns d) r c)
                             cols)
                      (rows d)) dfs |}.

(** [pd.concat(frames, ignore_index=True)].  What the library does with
    a frame that repeats a label (it may refuse to lay its columns out
    again) is the world's. *)
Definition concat (w : World) (dfs : list DataFrame) : result DataFrame :=
  if forallb (fun d => unique_labels (columns d)) dfs
  then Ok (concat_frames dfs)
  else concat_repeated w dfs.

(** [data[mask]]. *)
Definition select (d : DataFrame) (mask : (string -> cell) -> bool)
  : DataFrame :=
  {| columns := columns d;
     rows := filter (fun r => mask (cell_at (columns d) r)) (rows d) |}.

Definition is_true (v : cell) : bool :=
  match v with VBool true => true | _ => false end.

Definition row_key (cols subset : list string) (r : list cell) : list cell :=
  map (cell_at cols r) subset.

Definition same_key (cols subset : list string) (r r' : list cell) : bool :=
  list_eqb cell_eqb (row_key cols subset r) (row_key cols subset r').

Fixpoint keep_last (same : list cell -> list cell -> bool)
         (rs : list (list cell)) : list (list cell) :=
  match rs with
  | [] => []
  | r :: rs' =>
      if existsb (same r) rs' then keep_last same rs'
      else r :: keep_last same rs'
  end.

(** [data.drop_duplicates(subset=subset, keep="last")]. *)
Definition drop_duplicates (d : DataFrame) (subset : list string)
  : DataFrame :=
  {| columns := columns d;
     rows := keep_last (same_key (columns d) subset) (rows d) |}.

(** The order [sort_values] puts timestamps in; whatever is not a
    timestamp goes last. *)
Definition time_le (a b : cell) : bool :=
  match a, b with
  | VTime x, VTime y => x <=? y
  | _, VTime _ => false
  | _, _ => true
  end.

Fixpoint insert_sorted (key : list cell -> cell) (r : list cell)
         (rs : list (list cell)) : list (list cell) :=
  match rs with
  | [] => [r]
  | r' :: rs' =>
      if time_le (key r) (key r') then r :: rs
      else r' :: insert_sorted key r rs'
  end.

(** Whether [order] holds every position below [n], and each once. *)
Definition is_order (n : nat) (order : list nat) : bool :=
  Nat.eqb (List.length order) n
  && forallb (fun i => existsb (Nat.eqb i) order) (seq 0 n).

(** The rows taken in the given order of positions; an order that is
    none leaves them as they are. *)
Definition reorder (order : list nat) (rs : list (list cell))
  : list (list cell) :=
  if is_order (List.length rs) order
  then map (fun i => nth i rs []) order
  else rs.

(** [data.sort_values([c], inplace=True)].  The sort of the library is
    not stable: it does not promise an order among rows with equal keys.
    Here the rows are first taken in the order the world gives for their
    keys and then put in place one by one, rows with equal keys in the
    order they were taken in; so no order among equal keys is fixed
    here. *)
Definition sort_values (w : World) (d : DataFrame) (c : string) : DataFrame :=
  let key := fun r => cell_at (columns d) r c in
  {| columns := columns d;
     rows := fold_right (insert_sorted key) []
                        (reorder (tie_order w (map key (rows d))) (rows d)) |}.

(** [data.drop(labels, axis=1, inplace=True)]: every label has to be a
    column. *)
Definition drop (d : DataFrame) (labels : list string) : result DataFrame :=
  match filter (fun c => negb (has_column d c)) labels with
  | (_ :: _) as missing =>
      Raise (KeyError (repr_list missing ++ " not found in axis"))
  | [] =>
      let cols :=
        filter (fun c => negb (existsb (String.eqb c) labels)) (columns d) in
      Ok {| columns := cols; rows := map (reindex (columns d) cols) (rows d) |}
  end.

(** A frame with a coordinate reference system; its geometries are the
    cells of the column ["geometry"]. *)
Record GeoDataFrame := {
  frame : DataFrame;
  crs : option string
}.

(** The float a coordinate is read as: [None] is a missing coordinate, a
    number is itself, and the conversion of anything else is the
    world's. *)
Definition coordinate (w : World) (v : cell) : result (option Q) :=
  match v with
  | NaN => Ok None
  | _ =>
      match numeric_value v with
      | Some q => Ok (Some q)
      | None => to_float w v
      end
  end.

Definition point_from_xy (w : World) (x y : cell) : result geometry :=
  x' <- coordinate w x ;;
  y' <- coordinate w y ;;
  match x', y' with
  | Some a, Some b => Ok (Point a b)
  | _, _ => Ok PointNaN
  end.

Fixpoint sequence {A : Type} (l : list (result A)) : result (list A) :=
  match l with
  | [] => Ok []
  | r :: l' => a <- r ;; rest <- sequence l' ;; Ok (a :: rest)
  end.

(** [gpd.GeoDataFrame(data, geometry=gpd.points_from_xy(data[x], data[y]),
    crs=crs)]. *)
Definition with_points (w : World) (d : DataFrame) (x y crs : string)
  : result GeoDataFrame :=
  _ <- sequence (map (fun r => point_from_xy w (cell_at (columns d) r x)
                                             (cell_at (columns d) r y))
                     (rows d)) ;;
  Ok {| frame := assign d "geometry"
                        (fun row => match point_from_xy w (row x) (row y) with
                                    | Ok g => VGeom g
                                    | Raise _ => NaN
                                    end);
        crs := Some crs |}.

Definition dt_strftime (fmt : string) (v : cell) : cell :=
  match v with
  | VTime ns => VStr (strftime fmt ns)
  | _ => NaN
  end.

(** ** Feed combiner *)

Definition combined_required_columns : list string :=
  ["high_confidence"; "latitude"; "longitude"; "acq_datetime"; "confidence";
   "version"].

Definition unique_columns : list string :=
  ["latitude"; "longitude"; "acq_datetime"; "confidence"; "version"].

Definition drop_columns : list string :=
  ["scan"; "track"; "acq_date"; "acq_time"; "brightness_a"; "brightness_b";
   "daynight"].

Definition empty_frame : DataFrame := {| columns := []; rows := [] |}.

(** The loop over the URLs: the frames read so far, in order. *)
Fixpoint read_all (w : World) (urls : list string)
         (combined_df_list : list DataFrame) : io (list DataFrame) :=
  fun requests =>
    match urls with
    | [] => (Ok combined_df_list, requests)
    | url :: urls' =>
        match read_firm_csv w url requests with
        | (Ok df, requests') =>
            read_all w urls' (combined_df_list ++ [df])%list requests'
        | (Raise e, requests') => (Raise e, requests')
        end
    end.

(** What becomes of the concatenated frame up to the sort. *)
Definition combined_export (w : World) (combined_df : DataFrame)
  : DataFrame :=
  let combined_df :=
    select combined_df (fun row => is_true (row "high_confidence")) in
  let combined_df_export := drop_duplicates combined_df unique_columns in
  sort_values w combined_df_export "acq_datetime".

Definition export_gdf (w : World) (combined_df : DataFrame)
  : result GeoDataFrame :=
  match filter (fun col => negb (has_column combined_df col))
               combined_required_columns with
  | (_ :: _) as missing_columns =>
      Raise (ValueError ("Missing required columns in the data: "
                         ++ repr_list missing_columns))
  | [] =>
      combined_df_export <-
        drop (combined_export w combined_df) drop_columns ;;
      gdf <- with_points w combined_df_export "longitude" "latitude"
                         "EPSG:4326" ;;
      Ok {| frame := assign (frame gdf) "acq_datetime"
                            (fun row => dt_strftime "%Y-%m-%d_%H:%M:%S"
                                                    (row "acq_datetime"));
            crs := crs gdf |}
  end.

(** The function under the cache decorator; [firms_urls] is the tuple it
    is called with. *)
Definition convert_firms_urls_to_combined_gdf_wrapped (w : World)
           (firms_urls : list string) : io GeoDataFrame :=
  fun requests =>
    if negb (Nat.eqb (List.length firms_urls) 3)
    then (Raise (ValueError "firms_urls must be a tuple of three strings"),
          requests)
    else
      match read_all w firms_urls [empty_frame] requests with
      | (Ok combined_df_list, requests') =>
          (combined_df <- concat w combined_df_list ;;
           export_gdf w combined_df, requests')
      | (Raise e, requests') => (Raise e, requests')
      end.

(** ** [functools.lru_cache]

    The cache keeps its entries from the least to the most recently used.
    A hit moves the entry to the recent end; a miss runs the function and,
    when it returns, stores the result, dropping the least recently used
    entry of a full cache; when the function raises nothing is stored. *)

Section LruCache.
Context {K V : Type}.
Variable K_eq_dec : forall a b : K, {a = b} + {a <> b}.
Variable maxsize : nat.
Variable user_function : K -> io V.

Fixpoint cache_get (k : K) (cache : list (K * V)) : option V :=
  match cache with
  | [] => None
  | (k', v) :: cache' =>
      if K_eq_dec k k' then Some v else cache_get k cache'
  end.

Fixpoint cache_remove (k : K) (cache : list (K * V)) : list (K * V) :=
  match cache with
  | [] => []
  | (k', v) :: cache' =>
      if K_eq_dec k k' then cache_remove k cache'
      else (k', v) :: cache_remove k cache'
  end.

Definition lru_call (k : K) (cache : list (K * V)) (requests : list string)
  : result V * list (K * V) * list string :=
  match cache_get k cache with
  | Some v => (Ok v, (cache_remove k cache ++ [(k, v)])%list, requests)
  | None =>
      match user_function k requests with
      | (Ok v, requests') =>
          let kept := if (maxsize <=? List.length cache)%nat
                      then tl cache else cache in
          (Ok v, (kept ++ [(k, v)])%list, requests')
      | (Raise e, requests') => (Raise e, cache, requests')
      end
  end.

(** A series of calls, one after the other. *)
Fixpoint lru_calls (ks : list K) (cache : list (K * V))
         (requests : list string) : list (K * V) * list string :=
  match ks with
  | [] => (cache, requests)
  | k :: ks' =>
      match lru_call k cache requests with
      | (_, cache', requests') => lru_calls ks' cache' requests'
      end
  end.
(** The cache is in order: no key twice, no more entries than allowed. *)
Definition cache_ok (cache : list (K * V)) : Prop :=
  NoDup (map fst cache) /\ (List.length cache <= maxsize)%nat.

(** The entry of [k] is in the cache with value [v], and the entries
    used after it all have keys from [T]. *)
Definition holds (k : K) (v : V) (T : list K) (cache : list (K * V)) : Prop :=
  cache_ok cache
  /\ exists pre post,
      cache = (pre ++ (k, v) :: post)%list /\ incl (map fst post) T.

End LruCache.

Definition urls_eq_dec : forall a b : list string, {a = b} + {a <> b} :=
  list_eq_dec string_dec.

(** The decorated function: [@lru_cache()] keeps 128 entries. *)
Definition convert_firms_urls_to_combined_gdf (w : World)
  : list string -> list (list string * GeoDataFrame) -> list string ->
    result GeoDataFrame * list (list string * GeoDataFrame) * list string :=
  lru_call urls_eq_dec 128 (convert_firms_urls_to_combined_gdf_wrapped w).

(** ** Point in polygon

    [point.within(polygon)] holds when the point lies in the interior of
    the polygon.  The location of a point against a ring is found by
    counting the crossings of the ring with the ray from the point to the
    right, stopping as soon as the point is found on a segment. *)

Inductive location := Interior | Boundary | Exterior.

Definition Qltb (x y : Q) : bool := negb (Qle_bool y x).

(** The side of [q] relative to the directed line from [p1] to [p2]:
    positive on the left, zero on the line. *)
Definition orientation (p1 p2 q : coord) : Q :=
  ((fst p2 - fst p1) * (snd q - snd p1)
   - (snd p2 - snd p1) * (fst q - fst p1))%Q.

Record counter := {
  crossing_count : nat;
  is_point_on_segment : bool
}.

Definition on_segment_found (c : counter) : counter :=
  {| crossing_count := crossing_count c; is_point_on_segment := true |}.

Definition count_segment (p p1 p2 : coord) (c : counter) : counter :=
  if Qltb (fst p1) (fst p) && Qltb (fst p2) (fst p) then c
  else if Qeq_bool (fst p) (fst p2) && Qeq_bool (snd p) (snd p2)
  then on_segment_found c
  else if Qeq_bool (snd p1) (snd p) && Qeq_bool (snd p2) (snd p) then
    let minx := if Qltb (fst p2) (fst p1) then fst p2 else fst p1 in
    let maxx := if Qltb (fst p2) (fst p1) then fst p1 else fst p2 in
    if Qle_bool minx (fst p) && Qle_bool (fst p) maxx
    then on_segment_found c else c
  else if (Qltb (snd p) (snd p1) && Qle_bool (snd p2) (snd p))
          || (Qltb (snd p) (snd p2) && Qle_bool (snd p1) (snd p)) then
    let orient := orientation p1 p2 p in
    if Qeq_bool orient 0 then on_segment_found c
    else
      let orient := if Qltb (snd p2) (snd p1) then (- orient)%Q else orient in
      if Qltb 0 orient
      then {| crossing_count := S (crossing_count c);
              is_point_on_segment := is_point_on_segment c |}
      else c
  else c.

(** The segments of a coordinate sequence in turn, each taken from its
    later end to its earlier end. *)
Fixpoint count_ring (p prev : coord) (rest : list coord) (c : counter)
  : counter :=
  match rest with
  | [] => c
  | cur :: rest' =>
      let c' := count_segment p cur prev c in
      if is_point_on_segment c' then c' else count_ring p cur rest' c'
  end.

Definition get_location (c : counter) : location :=
  if is_point_on_segment c then Boundary
  else if Nat.odd (crossing_count c) then Interior
  else Exterior.

(** A ring is closed: a sequence that does not end where it starts gets
    its first coordinate again at the end. *)
Definition close_ring (r : ring) : ring :=
  match r with
  | [] => []
  | v0 :: _ => if coord_eqb v0 (last r v0) then r else (r ++ [v0])%list
  end.

Definition locate_in_ring (p : coord) (r : ring) : location :=
  match close_ring r with
  | [] => Exterior
  | v0 :: rest =>
      get_location (count_ring p v0 rest
                               {| crossing_count := O;
                                  is_point_on_segment := false |})
  end.

Fixpoint locate_in_holes (p : coord) (holes : list ring) : location :=
  match holes with
  | [] => Interior
  | hole :: holes' =>
      match locate_in_ring p hole with
      | Boundary => Boundary
      | Interior => Exterior
      | Exterior => locate_in_holes p holes'
      end
  end.

Definition locate_in_polygon (p : coord) (shell : ring) (holes : list ring)
  : location :=
  match locate_in_ring p shell with
  | Interior => locate_in_holes p holes
  | loc => loc
  end.

Definition is_interior (l : location) : bool :=
  match l with Interior => true | _ => false end.

(** [a.within(b)].  A point is within an area when it is in the
    interior of the polygon, or of one of the polygons of a multi-part
    area.  For every other pair of kinds (a point within a point, an area
    within an area, a point of which a coordinate is not a number) the
    answer is the world's. *)
Definition within (w : World) (a b : geometry) : bool :=
  match a, b with
  | Point x y, Polygon shell holes =>
      is_interior (locate_in_polygon (x, y) shell holes)
  | Point x y, MultiPolygon parts =>
      existsb (fun part =>
                 is_interior (locate_in_polygon (x, y) (fst part) (snd part)))
              parts
  | _, _ => within_other w a b
  end.

Definition geometry_column : string := "geometry".

(** *** The boundary line of an area, as geometry

    A point is on a segment when it is on the line through the ends of
    the segment and inside the box the ends span; the boundary line of a
    polygon is made of the segments of its shell and of its holes. *)

Definition Qmin2 (x y : Q) : Q := if Qle_bool x y then x else y.
Definition Qmax2 (x y : Q) : Q := if Qle_bool x y then y else x.

Definition on_segment (p a b : coord) : Prop :=
  (orientation a b p == 0
   /\ Qmin2 (fst a) (fst b) <= fst p /\ fst p <= Qmax2 (fst a) (fst b)
   /\ Qmin2 (snd a) (snd b) <= snd p /\ snd p <= Qmax2 (snd a) (snd b))%Q.

(** [a] is followed by [b] in the sequence. *)
Definition consecutive (a b : coord) (l : list coord) : Prop :=
  exists before after, l = (before ++ a :: b :: after)%list.

Definition on_ring (p : coord) (r : ring) : Prop :=
  exists a b, consecutive a b (close_ring r) /\ on_segment p a b.

Definition on_boundary_line (p : coord) (part : ring * list ring) : Prop :=
  on_ring p (fst part) \/ exists hole, In hole (snd part) /\ on_ring p hole.

(** The polygons an area geometry is made of. *)
Definition parts_of (g : geometry) : list (ring * list ring) :=
  match g with
  | Polygon shell holes => [(shell, holes)]
  | MultiPolygon parts => parts
  | _ => []
  end.

(** Whether the row with this geometry passes the filter. *)
Definition inside_some (w : World) (polygons : list cell) (point : cell)
  : bool :=
  match point with
  | VGeom p =>
      existsb (fun polygon => match polygon with
                              | VGeom a => within w p a
                              | _ => false
                              end) polygons
  | _ => false
  end.

(** A row [r'] of a reprojected frame against the row [r] it came from:
    every column but the geometry is as it was, and the geometry went
    through the transformation. *)
Definition reprojected (w : World) (src dst : string) (cols : list string)
           (r r' : list cell) : Prop :=
  (forall c, c <> geometry_column -> cell_at cols r' c = cell_at cols r c)
  /\ match cell_at cols r geometry_column with
     | VGeom g => exists g', transform w src dst g = Ok g'
                             /\ cell_at cols r' geometry_column = VGeom g'
     | v => cell_at cols r' geometry_column = v
     end.

(** ** Geospatial filter *)

(** An argument of the filter: a [GeoDataFrame] or some other object. *)
Inductive pyobj :=
| AGeoDataFrame (g : GeoDataFrame)
| OtherObject.

(** [data.empty]: no rows or no columns. *)
Definition empty (d : DataFrame) : bool :=
  match rows d, columns d with
  | [], _ => true
  | _, [] => true
  | _, _ => false
  end.

(** [a.crs != b.crs]. *)
Definition crs_differ (w : World) (a b : option string) : bool :=
  match a, b with
  | None, None => false
  | Some x, Some y => negb (crs_eq w x y)
  | _, _ => true
  end.

(** [gdf.to_crs(target)]: both reference systems have to be there, and
    every geometry is transformed; a missing geometry stays missing. *)
Definition to_crs (w : World) (g : GeoDataFrame) (target : option string)
  : result GeoDataFrame :=
  match crs g, target with
  | None, _ =>
      Raise (ValueError
        "Cannot transform naive geometries.  Please set a crs on the object first.")
  | _, None => Raise (ValueError "Must pass either crs or epsg.")
  | Some src, Some dst =>
      _ <- sequence
             (map (fun v => match v with
                            | VGeom geom => transform w src dst geom
                            | _ => Ok PointNaN
                            end) (column (frame g) geometry_column)) ;;
      Ok {| frame := assign (frame g) geometry_column
                            (fun row =>
                               match row geometry_column with
                               | VGeom geom =>
                                   match transform w src dst geom with
                                   | Ok geom' => VGeom geom'
                                   | Raise _ => NaN
                                   end
                               | v => v
                               end);
            crs := Some dst |}
  end.

(** The predicate applied to each point: a missing point has no
    [within]; a missing polygon contains nothing. *)
Definition within_area (w : World) (polygons : list cell) (point : cell)
  : result bool :=
  match point with
  | VGeom p =>
      Ok (existsb (fun polygon => match polygon with
                                  | VGeom a => within w p a
                                  | _ => false
                                  end) polygons)
  | _ => Raise (AttributeError "'NoneType' object has no attribute 'within'")
  end.

Fixpoint mask_rows (rs : list (list cell)) (mask : list bool)
  : list (list cell) :=
  match rs, mask with
  | r :: rs', b :: mask' =>
      if b then r :: mask_rows rs' mask' else mask_rows rs' mask'
  | _, _ => []
  end.

Definition filter_firms_points_within_country_area (w : World)
           (firms_world_gdf country_gdf : pyobj) : result GeoDataFrame :=
  match firms_world_gdf with
  | OtherObject => Raise (ValueError "FIRMS data must be a GeoDataFrame")
  | AGeoDataFrame firms_world_gdf =>
  match country_gdf with
  | OtherObject =>
      Raise (ValueError "Nominatim country area data must be a GeoDataFrame")
  | AGeoDataFrame country_gdf =>
      if negb (has_column (frame firms_world_gdf) geometry_column)
         || negb (has_column (frame country_gdf) geometry_column)
      then Raise (ValueError
                    "One or both of the GeoDataFrames do not have geometry data")
      else if empty (frame firms_world_gdf) || empty (frame country_gdf)
      then Raise (ValueError "One or both of the GeoDataFrames is empty")
      else
        match (if crs_differ w (crs firms_world_gdf) (crs country_gdf)
               then to_crs w firms_world_gdf (crs country_gdf)
               else Ok firms_world_gdf) with
        | Raise e =>
            Raise (ValueError
                     ("Error in transforming CRS of the GeoDataFrame: "
                      ++ exn_str e))
        | Ok firms_world_gdf =>
            match sequence
                    (map (within_area w (column (frame country_gdf)
                                                geometry_column))
                         (column (frame firms_world_gdf) geometry_column)) with
            | Raise e =>
                Raise (ValueError
                         ("Error in filtering points within country area: "
                          ++ exn_str e))
            | Ok within_area_mask =>
                Ok {| frame :=
                        {| columns := columns (frame firms_world_gdf);
                           rows := mask_rows (rows (frame firms_world_gdf))
                                             within_area_mask |};
                      crs := crs firms_world_gdf |}
            end
        end
  end
  end.

(** An area: a polygon or a multi-part polygon. *)
Definition area (g : geometry) : Prop :=
  match g with
  | Polygon _ _ | MultiPolygon _ => True
  | _ => False
  end.

(** Two reference systems that do not differ: both unset, or both set
    and equal. *)
Definition same_crs (w : World) (a b : option string) : Prop :=
  match a, b with
  | None, None => True
  | Some s, Some d => crs_eq w s d = true
  | _, _ => False
  end.

(** A label that is neither a source nor a target of the mapping. *)
Definition untouched (mapping : list (string * string)) (c : string) : bool :=
  forallb (fun on => negb (String.eqb c (fst on)) && negb (String.eqb c (snd on)))
          mapping.


(** What one feed URL yields when it is read: the response, the frame
    parsed from it and the frame normalised from that. *)
Definition feed_frame (w : World) (url : string) (df : DataFrame) : Prop :=
  exists content data,
    http_get w url = Ok content
    /\ read_csv w content = Ok data
    /\ normalize w data = Ok df.



(** The failure the specification calls [ValidationError]: the service
    raises it as a [ValueError]. *)
Definition ValidationError (e : exn) : Prop := exists msg, e = ValueError msg.


Definition modis_mapping : list (string * string) :=
  [("brightness", "brightness_a"); ("bright_t31", "brightness_b")].

Definition viirs_mapping : list (string * string) :=
  [("bright_ti4", "brightness_a"); ("bright_ti5", "brightness_b")].

(** The failure the specification calls [ParseError], as it leaves
    [process_csv_data]. *)
Definition ParseError (e : exn) : Prop :=
  e = ValueError "Data processing error: Error converting acquisition datetime".

(** A number that is at least 70. *)
Definition at_least_70 (v : cell) : Prop :=
  exists q, numeric_value v = Some q /\ (70 <= q)%Q.

(** What a normalised batch holds, by the representation of its
    confidence column. *)
Definition classified (data out : DataFrame) : Prop :=
  let conf := column data "confidence" in
  (is_numeric_dtype conf = true ->
   column out "high_confidence" = map (fun v => VBool (ge_70 v)) conf
   /\ (~ In "brightness_a" (columns data) ->
       column out "brightness_a" = column data "brightness")
   /\ (~ In "brightness_b" (columns data) ->
       column out "brightness_b" = column data "bright_t31")
   /\ (In "brightness" (columns data) -> In "brightness_a" (columns out))
   /\ (In "bright_t31" (columns data) -> In "brightness_b" (columns out)))
  /\ (is_numeric_dtype conf = false -> is_string_dtype conf = true ->
      column out "high_confidence"
      = map (fun v => VBool (isin_nominal_high v)) conf
      /\ (~ In "brightness_a" (columns data) ->
          column out "brightness_a" = column data "bright_ti4")
      /\ (~ In "brightness_b" (columns data) ->
          column out "brightness_b" = column data "bright_ti5")
      /\ (In "bright_ti4" (columns data) -> In "brightness_a" (columns out))
      /\ (In "bright_ti5" (columns data) -> In "brightness_b" (columns out)))
  /\ (is_numeric_dtype conf = false -> is_string_dtype conf = false ->
      column out "high_confidence" = map (fun _ => VBool false) conf
      /\ (forall c, In c (columns out)
                    <-> In c (columns data)
                        \/ In c ["high_confidence"; "acq_time";
                                 "acq_datetime"; "days_ago"; "satellite";
                                 "confidence"])
      /\ (~ In "brightness_a" (columns data) ->
          ~ In "brightness_a" (columns out))
      /\ (~ In "brightness_b" (columns data) ->
          ~ In "brightness_b" (columns out)))
  /\ (forall v, ge_70 v = true <-> at_least_70 v)
  /\ (forall v, isin_nominal_high v = true
                <-> v = VStr "nominal" \/ v = VStr "high")
  /\ ge_70 (VInt 85) = true /\ ge_70 (VInt 50) = false
  /\ isin_nominal_high (VStr "high") = true
  /\ isin_nominal_high (VStr "low") = false.

(** Every entry of the cache is a result the function returns for its
    key. *)
Definition entries_current {K V : Type} (user_function : K -> io V)
           (cache : list (K * V)) : Prop :=
  forall k v, In (k, v) cache -> fst (user_function k []) = Ok v.

(** ** Boundary search URL *)

(** A value of the parameter dictionary: an integer or a string. *)
Inductive param_value :=
| PInt (z : Z)
| PStr (s : string).

Definition param_text (v : param_value) : string :=
  match v with
  | PInt z => str_of_Z z
  | PStr s => s
  end.

Definition NOMINATIM_SEARCH_ENDPOINT : string :=
  "https://nominatim.openstreetmap.org/search".

(** The dictionary [params], in the order its items are joined. *)
Definition nominatim_params : list (string * param_value) :=
  [("namedetails", PInt 1); ("polygon_geojson", PInt 1);
   ("hierarchy", PInt 1); ("addresstype", PStr "country")].

Definition params_query : string :=
  String.concat "&" (map (fun item => fst item ++ "=" ++ param_text (snd item))
                         nominatim_params).

(** The country code goes into the URL as it is given; the function does
    not check it. *)
Definition create_nominatim_search_url (country_code : string) : string :=
  NOMINATIM_SEARCH_ENDPOINT ++ "?q=" ++ country_code
  ++ "&featureType=country&" ++ params_query ++ "&format=geojson".

(** ** Map display *)

Definition colors : list string :=
  ["darkred"; "red"; "darkorange"; "orange"; "orange"; "beige"; "beige";
   "lightgray"; "lightgray"; "gray"].

(** What indexing a list gives: an item, or one of two errors. *)
Inductive lookup :=
| Found (item : string)
| IndexError
| TypeError.

(** [l[i]] for an integer [i]: a negative index counts from the end. *)
Definition list_item (l : list string) (i : Z) : lookup :=
  let n := Z.of_nat (List.length l) in
  if (0 <=? i) && (i <? n) then Found (nth (Z.to_nat i) l "")
  else if (- n <=? i) && (i <? 0) then Found (nth (Z.to_nat (i + n)) l "")
  else IndexError.

(** The colour the style function of the detections layer picks for a
    feature, from the [days_ago] among its properties: a missing value
    gets ["gray"], an integer (or a boolean, which is one) indexes
    [colors], nothing else can be an index. *)
Definition marker_color (days_ago : cell) : lookup :=
  match days_ago with
  | NaN => Found "gray"
  | VInt i => list_item colors i
  | VBool b => list_item colors (if b then 1 else 0)
  | _ => TypeError
  end.

(** The third argument of the display function: a list or something
    else. *)
Inductive pyvalue :=
| PyList (items : list cell)
| PyOther.

(** What the body of the [try] block of the display function does: it
    builds the map and hands it to the page, or raises an exception whose
    text is [message]. *)
Inductive rendered (A : Type) :=
| Drawn (st_map : A)
| Failed (message : string).
Arguments Drawn {A} st_map.
Arguments Failed {A} message.

(** The display function; [render] stands for the body of its [try]
    block. *)
Definition display_firms_points_within_country_boundary {A : Type}
           (render : GeoDataFrame -> GeoDataFrame -> list cell -> rendered A)
           (filtered_firms_gdf country_gdf : pyobj)
           (country_centroid : pyvalue) : result A :=
  match filtered_firms_gdf with
  | OtherObject => Raise (ValueError "filtered_firms_gdf must be a GeoDataFrame")
  | AGeoDataFrame filtered_firms_gdf =>
  match country_gdf with
  | OtherObject => Raise (ValueError "country_gdf must be a GeoDataFrame")
  | AGeoDataFrame country_gdf =>
  match country_centroid with
  | PyList [latitude; longitude] =>
      if empty (frame filtered_firms_gdf) || empty (frame country_gdf)
      then Raise (ValueError "One or both of the GeoDataFrames is empty")
      else
        match render filtered_firms_gdf country_gdf [latitude; longitude] with
        | Drawn st_map => Ok st_map
        | Failed message =>
            Raise (ValueError ("Error in displaying map: " ++ message))
        end
  | _ =>
      Raise (ValueError
        "country_centroid must be a list of two coordinates (latitude, longitude)")
  end
  end
  end.

(** ** Sample data *)

(** A world for evaluation: every request succeeds, the parser returns
    the given frame, floats and geometries print as a fixed word, two
    reference systems are equal when their names are, and a transformation
    leaves the geometry where it is; nothing but a number converts to a
    float, the sort takes the rows in the order they are in, frames with
    a repeated label are not concatenated, and nothing but a point is
    within anything. *)
Definition sample_world (today : Z) (data : DataFrame) : World :=
  {| repr_float := fun _ => "float";
     repr_geometry := fun _ => "geometry";
     today := today;
     http_get := fun url => Ok url;
     read_csv := fun _ => Ok data;
     crs_eq := String.eqb;
     transform := fun _ _ g => Ok g;
     to_float := fun _ => Raise (ValueError "could not convert to float");
     tie_order := fun keys => seq 0 (List.length keys);
     concat_repeated :=
       fun _ => Raise (InvalidIndexError
                         "Reindexing only valid with uniquely valued Index objects");
     within_other := fun _ _ => false |}.

Definition modis_columns : list string :=
  ["latitude"; "longitude"; "brightness"; "scan"; "track"; "acq_date";
   "acq_time"; "satellite"; "confidence"; "version"; "bright_t31";
   "daynight"].

(** One MODIS row acquired on 2024-01-01 at 09:30 with the given
    confidence. *)
Definition modis_row (confidence : Z) : list cell :=
  [VFloat (1 # 2); VFloat (1 # 2); VFloat 300; VInt 1; VInt 1;
   VStr "2024-01-01"; VStr "930"; VStr "T"; VInt confidence; VStr "6.1NRT";
   VFloat 290; VStr "D"].

Definition batch_930 : DataFrame :=
  {| columns := modis_columns; rows := [modis_row 85] |}.

Definition upper_case_key : string := "ABCDEF0123456789ABCDEF0123456789".

(** A batch whose only row was acquired on 2024-01-01, read on that day. *)
Definition world_of_2024_01_01 : World :=
  sample_world (timestamp_ns 2024 1 1 0 0 0) batch_930.

(** A batch with one row whose month does not exist. *)
Definition batch_bad_month : DataFrame :=
  {| columns := ["acq_date"; "acq_time"; "satellite"; "confidence"];
     rows := [[VStr "2024-01-01"; VStr "930"; VStr "T"; VInt 85];
              [VStr "2024-13-01"; VStr "930"; VStr "T"; VInt 85]] |}.

(** A MODIS batch with confidences 85 and 50, and a VIIRS batch with
    confidences "high" and "low". *)
Definition batch_numeric : DataFrame :=
  {| columns := modis_columns; rows := [modis_row 85; modis_row 50] |}.

Definition viirs_row (confidence : string) : list cell :=
  [VFloat (1 # 2); VFloat (1 # 2); VFloat 300; VStr "2024-01-01";
   VStr "930"; VStr "N"; VStr confidence; VFloat 290].

Definition batch_textual : DataFrame :=
  {| columns := ["latitude"; "longitude"; "bright_ti4"; "acq_date";
                 "acq_time"; "satellite"; "confidence"; "bright_ti5"];
     rows := [viirs_row "high"; viirs_row "low"] |}.


(** A key made of a number, for as many different keys as needed. *)
Definition numbered_key (n : nat) : list string :=
  [str_of_Z (Z.of_nat n); "viirs"; "snpp"].

(** The unit square as a country, and three detections: one inside it,
    one on its left edge, one outside. *)
Definition unit_square : ring := [(0, 0); (1, 0); (1, 1); (0, 1)]%Q.

Definition square_country : GeoDataFrame :=
  {| frame := {| columns := ["display_name"; "geometry"];
                 rows := [[VStr "Square"; VGeom (Polygon unit_square [])]] |};
     crs := Some "EPSG:4326" |}.

Definition point_inside : list cell := [VStr "inside"; VGeom (Point (1 # 2) (1 # 2))].
Definition point_on_edge : list cell := [VStr "edge"; VGeom (Point 0 (1 # 2))].
Definition point_outside : list cell := [VStr "outside"; VGeom (Point 2 2)].

Definition three_points : GeoDataFrame :=
  {| frame := {| columns := ["satellite"; "geometry"];
                 rows := [point_inside; point_on_edge; point_outside] |};
     crs := Some "EPSG:4326" |}.

Definition no_points : GeoDataFrame :=
  {| frame := {| columns := ["satellite"; "geometry"]; rows := [] |};
     crs := Some "EPSG:4326" |}.

(** A world in which the feed at [down] does not answer; everything
    else is as in [sample_world]. *)
Definition world_with_feed_down (down : string) (data : DataFrame) : World :=
  {| repr_float := fun _ => "float";
     repr_geometry := fun _ => "geometry";
     today := 0;
     http_get := fun url =>
                   if String.eqb url down
                   then Raise (OSError "503 Server Error")
                   else Ok url;
     read_csv := fun _ => Ok data;
     crs_eq := String.eqb;
     transform := fun _ _ g => Ok g;
     to_float := fun _ => Raise (ValueError "could not convert to float");
     tie_order := fun keys => seq 0 (List.length keys);
     concat_repeated :=
       fun _ => Raise (InvalidIndexError
                         "Reindexing only valid with uniquely valued Index objects");
     within_other := fun _ _ => false |}.


(** A MODIS batch of two days. *)
Definition batch_two_days : DataFrame :=
  {| columns := modis_columns;
     rows := [modis_row 85;
              [VFloat (1 # 2); VFloat (1 # 2); VFloat 300; VInt 1; VInt 1;
               VStr "2024-01-02"; VStr "1015"; VStr "T"; VInt 90;
               VStr "6.1NRT"; VFloat 290; VStr "D"]] |}.

(** A batch the normaliser accepts but without positions and version,
    and one with them but without the columns of the swath. *)
Definition batch_without_position : DataFrame :=
  {| columns := ["acq_date"; "acq_time"; "satellite"; "confidence"];
     rows := [[VStr "2024-01-01"; VStr "930"; VStr "T"; VInt 85]] |}.

Definition batch_without_swath : DataFrame :=
  {| columns := ["latitude"; "longitude"; "acq_date"; "acq_time";
                 "satellite"; "confidence"; "version"];
     rows := [[VFloat (1 # 2); VFloat (1 # 2); VStr "2024-01-01"; VStr "930";
               VStr "T"; VInt 85; VStr "6.1NRT"]] |}.

(** Detections of which one has no geometry, and the unit square with a
    second square beside it. *)
Definition point_without_geometry : list cell := [VStr "lost"; NaN].

Definition points_with_gap : GeoDataFrame :=
  {| frame := {| columns := ["satellite"; "geometry"];
                 rows := [point_inside; point_without_geometry] |};
     crs := Some "EPSG:4326" |}.

Definition two_squares : GeoDataFrame :=
  {| frame := {| columns := ["display_name"; "geometry"];
                 rows := [[VStr "Square"; VGeom (Polygon unit_square [])];
                          [VStr "Far square";
                           VGeom (Polygon [(3 # 2, 3 # 2); (3, 3 # 2); (3, 3);
                                           (3 # 2, 3)]%Q [])]] |};
     crs := Some "EPSG:4326" |}.

(** A world in which the transformation from one reference system to
    another moves a point ten units to the left, and detections given in
    another reference system than the square: the first falls inside the
    square once transformed, the second outside. *)
Definition world_with_shift : World :=
  {| repr_float := fun _ => "float";
     repr_geometry := fun _ => "geometry";
     today := 0;
     http_get := fun url => Ok url;
     read_csv := fun _ => Ok batch_930;
     crs_eq := String.eqb;
     transform := fun _ _ g =>
                    match g with
                    | Point x y => Ok (Point (x - 10) y)
                    | _ => Ok g
                    end;
     to_float := fun _ => Raise (ValueError "could not convert to float");
     tie_order := fun keys => seq 0 (List.length keys);
     concat_repeated :=
       fun _ => Raise (InvalidIndexError
                         "Reindexing only valid with uniquely valued Index objects");
     within_other := fun _ _ => false |}.

Definition shifted_points : GeoDataFrame :=
  {| frame := {| columns := ["satellite"; "geometry"];
                 rows := [[VStr "inside"; VGeom (Point (21 # 2) (1 # 2))];
                          [VStr "outside"; VGeom (Point (1 # 2) (1 # 2))]] |};
     crs := Some "EPSG:3857" |}.

(** * Properties *)

(** ** Feed URL builder *)

Lemma chars_text (l : list ascii) : chars (text l) = l.
Proof. apply list_ascii_of_string_of_list_ascii. Qed.

Lemma lower_char_hex (c : ascii) :
  char_in (lower_char c) "0123456789abcdef" = hex_char c.
Proof.
  destruct c as [[] [] [] [] [] [] [] []]; reflexivity.
Qed.

Lemma lower_hex_test (s : string) :
  forallb (fun c => char_in c "0123456789abcdef") (chars (lower s))
  = forallb hex_char (chars s).
Proof.
  unfold lower. rewrite chars_text.
  induction (chars s) as [|c l IH]; simpl; [reflexivity|].
  now rewrite lower_char_hex, IH.
Qed.

Lemma append_inj_l (a x y : string) : a ++ x = a ++ y -> x = y.
Proof.
  induction a as [|c a IH]; simpl; intros H; [exact H|].
  injection H as H. now apply IH.
Qed.

Lemma length_app_string (a b : string) :
  String.length (a ++ b) = (String.length a + String.length b)%nat.
Proof. induction a; simpl; congruence. Qed.

Lemma append_inj_r (s p q : string) : p ++ s = q ++ s -> p = q.
Proof.
  revert q. induction p as [|c p IH]; intros [|c' q] H; simpl in H.
  - reflexivity.
  - apply (f_equal String.length) in H. simpl in H.
    rewrite length_app_string in H. lia.
  - apply (f_equal String.length) in H. simpl in H.
    rewrite length_app_string in H. lia.
  - injection H as Hc Hq. f_equal; [exact Hc|]. now apply IH.
Qed.

Lemma firms_url_inj (k p q : string) : firms_url k p = firms_url k q -> p = q.
Proof.
  unfold firms_url. intros H.
  do 4 apply append_inj_l in H.
  now apply append_inj_r in H.
Qed.

Lemma create_firms_csv_urls_spec (k : string) :
  create_firms_csv_urls k
  = if hex32 k
    then Ok (firms_url k "MODIS_NRT", firms_url k "VIIRS_NOAA20_NRT",
             firms_url k "VIIRS_SNPP_NRT")
    else Raise (ValueError (if String.eqb k "" then empty_key_msg
                            else invalid_key_msg)).
Proof.
  unfold create_firms_csv_urls, hex32, len.
  rewrite lower_hex_test.
  destruct (String.eqb_spec k "") as [->|Hk]; [reflexivity|].
  replace (Z.of_nat (String.length k) =? 32)
    with (String.length k =? 32)%nat.
  2:{ destruct (Nat.eqb_spec (String.length k) 32) as [->|Hn];
      [reflexivity|]. symmetry. apply Z.eqb_neq. lia. }
  destruct (String.length k =? 32)%nat, (forallb hex_char (chars k));
    reflexivity.
Qed.

(** C3, as the code has it: the builder returns the three URLs of the
    products MODIS_NRT, VIIRS_NOAA20_NRT and VIIRS_SNPP_NRT, pairwise
    distinct, exactly for the keys of 32 hexadecimal characters in either
    case; for every other string it raises one of the two errors that make
    up InvalidCredential, and it sends no request (it is a pure function). *)
Theorem create_firms_csv_urls_hex_either_case (k : string) :
  create_firms_csv_urls k
  = (if hex32 k
     then Ok (firms_url k "MODIS_NRT", firms_url k "VIIRS_NOAA20_NRT",
              firms_url k "VIIRS_SNPP_NRT")
     else Raise (ValueError (if String.eqb k "" then empty_key_msg
                             else invalid_key_msg)))
  /\ InvalidCredential (ValueError (if String.eqb k "" then empty_key_msg
                                    else invalid_key_msg))
  /\ firms_url k "MODIS_NRT" <> firms_url k "VIIRS_NOAA20_NRT"
  /\ firms_url k "MODIS_NRT" <> firms_url k "VIIRS_SNPP_NRT"
  /\ firms_url k "VIIRS_NOAA20_NRT" <> firms_url k "VIIRS_SNPP_NRT".
Proof.
  split; [apply create_firms_csv_urls_spec|].
  split; [unfold InvalidCredential; destruct (String.eqb k ""); auto|].
  repeat split; intros H; apply firms_url_inj in H; discriminate.
Qed.

(** C3 as stated fails: a key of 32 upper-case hexadecimal characters is
    accepted although it is not made of lower-case hexadecimal characters. *)
Lemma upper_case_key_accepted :
  ~ (forall k : string,
        (exists urls, create_firms_csv_urls k = Ok urls)
        <-> lower_hex32 k = true).
Proof.
  intros H.
  destruct (H upper_case_key) as [H1 _].
  assert (Hf : lower_hex32 upper_case_key = true).
  { apply H1. eexists. reflexivity. }
  discriminate Hf.
Qed.

(** ** Frames: reading what was written *)

Lemma nth_set_at_same (i : nat) (v : cell) (r : list cell) :
  nth i (set_at i v r) NaN = v.
Proof.
  revert r. induction i as [|i IH]; intros [|x r]; simpl; auto.
Qed.

Lemma nth_set_at_other (i j : nat) (v : cell) (r : list cell) :
  i <> j -> nth j (set_at i v r) NaN = nth j r NaN.
Proof.
  revert j r. induction i as [|i IH]; intros [|j] [|x r] H; simpl; auto;
    try contradiction.
  - now destruct j.
  - rewrite IH by lia. now destruct j.
Qed.

Lemma index_of_Some (c : string) (cols : list string) (i : nat) :
  index_of c cols = Some i -> nth i cols "" = c /\ (i < List.length cols)%nat.
Proof.
  revert i. induction cols as [|c' cols IH]; simpl; intros i H; [discriminate|].
  destruct (String.eqb_spec c c') as [->|Hne].
  - injection H as <-. split; [reflexivity|lia].
  - destruct (index_of c cols) as [j|]; [|discriminate].
    injection H as <-. destruct (IH j eq_refl). simpl. split; [assumption|lia].
Qed.

Lemma index_of_None (c : string) (cols : list string) :
  index_of c cols = None <-> ~ In c cols.
Proof.
  induction cols as [|c' cols IH]; simpl; [tauto|].
  destruct (String.eqb_spec c c') as [->|Hne].
  - split; [discriminate|]. intros H. exfalso. apply H. now left.
  - destruct (index_of c cols) as [j|].
    + split; [discriminate|]. intros H. exfalso.
      assert (Hn : ~ In c cols) by tauto.
      apply IH in Hn. discriminate.
    + split; [|reflexivity]. intros _ [H|H]; [congruence|].
      now apply IH in H.
Qed.

Lemma has_column_In (d : DataFrame) (c : string) :
  has_column d c = true <-> In c (columns d).
Proof.
  unfold has_column. rewrite existsb_exists. split.
  - intros [x [Hx He]]. apply String.eqb_eq in He. now subst.
  - intros H. exists c. split; [assumption|apply String.eqb_refl].
Qed.

Lemma index_of_app (c : string) (cols extra : list string) :
  index_of c (cols ++ extra)%list
  = match index_of c cols with
    | Some i => Some i
    | None => match index_of c extra with
              | Some j => Some (List.length cols + j)%nat
              | None => None
              end
    end.
Proof.
  induction cols as [|c' cols IH]; simpl.
  - now destruct (index_of c extra).
  - destruct (String.eqb c c'); [reflexivity|].
    rewrite IH. destruct (index_of c cols); [reflexivity|].
    now destruct (index_of c extra).
Qed.

(** Reading column [c'] of a row after [c] was assigned the value [v]. *)
Lemma cell_at_assign (cols : list string) (c : string) (v : cell)
      (r : list cell) (c' : string) :
  cell_at (assign_columns cols c) (set_at (assign_index cols c) v r) c'
  = if String.eqb c' c then v else cell_at cols r c'.
Proof.
  unfold assign_columns, assign_index, cell_at.
  destruct (index_of c cols) as [i|] eqn:E.
  - destruct (String.eqb_spec c' c) as [->|Hne].
    + rewrite E. apply nth_set_at_same.
    + destruct (index_of c' cols) as [j|] eqn:E'; [|reflexivity].
      apply nth_set_at_other. intros ->.
      apply index_of_Some in E, E'. destruct E, E'. congruence.
  - rewrite index_of_app. simpl.
    destruct (String.eqb_spec c' c) as [->|Hne].
    + rewrite E. rewrite Nat.add_0_r. apply nth_set_at_same.
    + destruct (index_of c' cols) as [j|] eqn:E'; [|reflexivity].
      apply nth_set_at_other. apply index_of_Some in E'. lia.
Qed.

Lemma column_assign (d : DataFrame) (c : string)
      (f : (string -> cell) -> cell) (c' : string) :
  column (assign d c f) c'
  = if String.eqb c' c
    then map (fun r => f (cell_at (columns d) r)) (rows d)
    else column d c'.
Proof.
  unfold column, assign. simpl. rewrite map_map.
  destruct (String.eqb c' c) eqn:E; apply map_ext; intros r;
    rewrite cell_at_assign, E; reflexivity.
Qed.

Lemma column_assign_other (d : DataFrame) (c : string)
      (f : (string -> cell) -> cell) (c' : string) :
  String.eqb c' c = false -> column (assign d c f) c' = column d c'.
Proof. intros H. now rewrite column_assign, H. Qed.

Lemma column_assign_same (d : DataFrame) (c : string)
      (f : (string -> cell) -> cell) :
  column (assign d c f) c = map (fun r => f (cell_at (columns d) r)) (rows d).
Proof. now rewrite column_assign, String.eqb_refl. Qed.

Lemma rows_assign_length (d : DataFrame) (c : string)
      (f : (string -> cell) -> cell) :
  List.length (rows (assign d c f)) = List.length (rows d).
Proof. unfold assign. simpl. apply length_map. Qed.

Lemma In_assign_columns (cols : list string) (c c' : string) :
  In c' (assign_columns cols c) <-> In c' cols \/ c' = c.
Proof.
  unfold assign_columns. destruct (index_of c cols) as [i|] eqn:E.
  - split; [tauto|]. intros [H | ->]; [assumption|].
    destruct (in_dec string_dec c cols) as [Hin|Hn]; [assumption|].
    apply index_of_None in Hn. congruence.
  - rewrite in_app_iff. simpl. intuition congruence.
Qed.

(** Looking a label up after the labels went through [f]. *)
Lemma index_of_map (f : string -> string) (cols : list string) (c c0 : string) :
  (forall c', In c' cols -> String.eqb c (f c') = String.eqb c0 c') ->
  index_of c (map f cols) = index_of c0 cols.
Proof.
  induction cols as [|c' cols IH]; simpl; intros H; [reflexivity|].
  rewrite (H c') by now left.
  destruct (String.eqb c0 c'); [reflexivity|].
  rewrite IH; [reflexivity|]. intros x Hx. apply H. now right.
Qed.

Lemma column_rename (d : DataFrame) (mapping : list (string * string))
      (c c0 : string) :
  (forall c', In c' (columns d) ->
              String.eqb c (renamed mapping c') = String.eqb c0 c') ->
  column (rename d mapping) c = column d c0.
Proof.
  intros H. unfold column, rename, cell_at. simpl.
  now rewrite (index_of_map _ _ _ _ H).
Qed.

Lemma renamed_untouched (mapping : list (string * string)) (c c' : string) :
  untouched mapping c = true ->
  String.eqb c (renamed mapping c') = String.eqb c c'.
Proof.
  induction mapping as [|[old new] m IH]; simpl; intros H; [reflexivity|].
  apply andb_prop in H. destruct H as [H1 H2].
  apply andb_prop in H1. destruct H1 as [Ho Hn].
  apply negb_true_iff in Ho, Hn.
  destruct (String.eqb_spec c' old) as [->|Hne].
  - now rewrite Hn, Ho.
  - now apply IH.
Qed.

Lemma column_rename_untouched (d : DataFrame)
      (mapping : list (string * string)) (c : string) :
  untouched mapping c = true -> column (rename d mapping) c = column d c.
Proof.
  intros H. apply column_rename. intros c' _. now apply renamed_untouched.
Qed.

(** ** Record normaliser: stages *)

Lemma series_max_kind (vs : list cell) :
  series_max vs = NaN \/ exists s, series_max vs = VStr s.
Proof.
  unfold series_max.
  assert (H : forall m, (m = NaN \/ exists s, m = VStr s) ->
                        let r := fold_left
                                   (fun m v =>
                                      match v with
                                      | VStr _ =>
                                          if isnull m || str_ltb m v then v else m
                                      | _ => m
                                      end) vs m in
                        r = NaN \/ exists s, r = VStr s).
  { induction vs as [|v vs IH]; simpl; intros m Hm; [exact Hm|].
    apply IH. destruct v; try exact Hm.
    destruct (isnull m || str_ltb m (VStr s)); [right; eauto|exact Hm]. }
  apply H. now left.
Qed.

(** The maximum of a column of strings is never equal to a timestamp. *)
Lemma max_never_today (t : Z) (vs : list cell) :
  py_eq (series_max vs) (VTime t) = false.
Proof.
  destruct (series_max_kind vs) as [-> | [s ->]]; reflexivity.
Qed.

Lemma normalize_inv (w : World) (data out : DataFrame) :
  normalize w data = Ok out ->
  let d1 := assign data "high_confidence" (fun _ => VBool false) in
  let d3 := parse_acq_datetime (mark_confidence d1) w in
  filter (fun col => negb (has_column d1 col)) required_columns = []
  /\ existsb isnull (column d3 "acq_datetime") = false
  /\ out = type_conversions w
             (assign d3 "days_ago"
                     (fun row => dense_rank_desc (column d3 "acq_date")
                                                 (row "acq_date"))).
Proof.
  unfold normalize. intros H. cbv zeta in *.
  destruct (filter _ required_columns) as [|c l]; [|discriminate].
  split; [reflexivity|].
  destruct (existsb isnull _) eqn:E; [discriminate|].
  split; [reflexivity|].
  unfold days_ago_step, bind in H.
  destruct (astype_int _); [|discriminate].
  rewrite max_never_today in H. now injection H as <-.
Qed.

Lemma map_two_columns (d d' : DataFrame) (x y : string)
      (F : cell -> cell -> cell) :
  column d x = column d' x -> column d y = column d' y ->
  map (fun r => F (cell_at (columns d) r x) (cell_at (columns d) r y)) (rows d)
  = map (fun r => F (cell_at (columns d') r x) (cell_at (columns d') r y))
        (rows d').
Proof.
  unfold column. generalize (rows d) (rows d').
  induction l as [|r l IH]; intros [|r' l'] Hx Hy; simpl in *;
    try discriminate; [reflexivity|].
  injection Hx as Hx1 Hx2. injection Hy as Hy1 Hy2.
  rewrite Hx1, Hy1. f_equal. now apply IH.
Qed.

Lemma map_one_column (d d' : DataFrame) (x : string) (F : cell -> cell) :
  column d x = column d' x ->
  map (fun r => F (cell_at (columns d) r x)) (rows d)
  = map (fun r => F (cell_at (columns d') r x)) (rows d').
Proof.
  intros H. apply (map_two_columns d d' x x (fun a _ => F a) H H).
Qed.

(** The branch on the representation leaves alone every column it does
    not name. *)
Lemma column_mark_confidence (d : DataFrame) (c : string) :
  String.eqb c "high_confidence" = false ->
  untouched modis_mapping c = true ->
  untouched viirs_mapping c = true ->
  column (mark_confidence d) c = column d c.
Proof.
  intros Hh Hm Hv. unfold mark_confidence, loc_set.
  destruct (is_numeric_dtype _); [|destruct (is_string_dtype _)].
  - rewrite column_rename_untouched by exact Hm.
    now apply column_assign_other.
  - rewrite column_rename_untouched by exact Hv.
    now apply column_assign_other.
  - reflexivity.
Qed.

Lemma column_marked_input (data : DataFrame) (c : string) :
  String.eqb c "high_confidence" = false ->
  untouched modis_mapping c = true ->
  untouched viirs_mapping c = true ->
  column (mark_confidence (assign data "high_confidence"
                                  (fun _ => VBool false))) c
  = column data c.
Proof.
  intros Hh Hm Hv. rewrite column_mark_confidence by assumption.
  now apply column_assign_other.
Qed.

(** The timestamps computed for a batch, row by row of the input. *)
Lemma column_acq_datetime (w : World) (data : DataFrame) :
  column (parse_acq_datetime
            (mark_confidence (assign data "high_confidence"
                                     (fun _ => VBool false))) w)
         "acq_datetime"
  = map (fun r => row_datetime w (cell_at (columns data) r "acq_date")
                               (cell_at (columns data) r "acq_time"))
        (rows data).
Proof.
  unfold parse_acq_datetime.
  set (d2 := mark_confidence _).
  rewrite column_assign_same.
  set (d2' := assign d2 "acq_time" _).
  assert (Hd : column d2' "acq_date" = column data "acq_date").
  { unfold d2'. rewrite column_assign_other by reflexivity.
    unfold d2. now apply column_marked_input. }
  assert (Ht : column d2' "acq_time"
               = map (str_pad 4 "0") (column data "acq_time")).
  { unfold d2'. rewrite column_assign_same.
    rewrite <- (column_marked_input data "acq_time") by reflexivity.
    fold d2. unfold column. now rewrite map_map. }
  unfold row_datetime, acq_text.
  assert (G : forall (l1 l3 : list (list cell)) (c1 c3 : list string),
             map (fun r => cell_at c1 r "acq_date") l1
             = map (fun r => cell_at c3 r "acq_date") l3 ->
             map (fun r => cell_at c1 r "acq_time") l1
             = map (str_pad 4 "0") (map (fun r => cell_at c3 r "acq_time") l3) ->
             map (fun r => to_datetime_cell DATETIME_FORMAT
                             (str_add (str_add (cell_at c1 r "acq_date") (VStr " "))
                                      (str_zfill 4 (VStr (astype_str w (cell_at c1 r "acq_time")))))) l1
             = map (fun r => to_datetime_cell DATETIME_FORMAT
                               (str_add (str_add (cell_at c3 r "acq_date") (VStr " "))
                                        (str_zfill 4 (VStr (astype_str w (str_pad 4 "0" (cell_at c3 r "acq_time"))))))) l3).
  { induction l1 as [|r l1 IH]; intros [|r3 l3] c1 c3 H1 H2;
      simpl in *; try discriminate; [reflexivity|].
    injection H1 as H1a H1b. injection H2 as H2a H2b.
    rewrite H1a, H2a. f_equal. now apply IH. }
  apply G; [exact Hd | exact Ht].
Qed.

Lemma rows_mark_confidence_length (d : DataFrame) :
  List.length (rows (mark_confidence d)) = List.length (rows d).
Proof.
  unfold mark_confidence, loc_set, rename.
  destruct (is_numeric_dtype _); [|destruct (is_string_dtype _)]; simpl;
    try apply length_map; reflexivity.
Qed.

Lemma required_columns_present (data : DataFrame) :
  Forall (fun c => In c (columns data)) required_columns ->
  filter (fun col => negb (has_column
                             (assign data "high_confidence"
                                     (fun _ => VBool false)) col))
         required_columns = [].
Proof.
  intros H.
  assert (G : forall c, In c required_columns ->
                        has_column (assign data "high_confidence"
                                           (fun _ => VBool false)) c = true).
  { intros c Hc. apply has_column_In. unfold assign. simpl.
    apply In_assign_columns. left.
    rewrite Forall_forall in H. now apply H. }
  induction required_columns as [|c l IH]; simpl; [reflexivity|].
  rewrite G by now left. simpl. apply IH.
  - now inversion H.
  - intros c' Hc'. apply G. now right.
Qed.

Lemma row_datetime_kind (w : World) (a b : cell) :
  row_datetime w a b = NaN \/ exists ns, row_datetime w a b = VTime ns.
Proof.
  unfold row_datetime, to_datetime_cell.
  destruct (acq_text w a b); auto.
  destruct (to_datetime _ _); eauto.
Qed.

(** ** Acquisition time *)

(** C1, the code at the input of the claim: the time ["930"] is padded to
    ["0930"] and joined to the date, but the format read is
    [%Y-%m-%d %H%M%S], and the timestamp that comes out is 2024-01-01
    09:03:00, not 09:30:00. *)
Theorem acq_time_930_read_as_09_03_00 (w : World) :
  exists out,
    normalize w batch_930 = Ok out
    /\ column out "acq_time" = [VStr "0930"]
    /\ column out "acq_datetime" = [VTime (timestamp_ns 2024 1 1 9 3 0)]
    /\ strftime "%Y-%m-%d %H:%M:%S" (timestamp_ns 2024 1 1 9 3 0)
       = "2024-01-01 09:03:00"
    /\ timestamp_ns 2024 1 1 9 3 0 <> timestamp_ns 2024 1 1 9 30 0.
Proof.
  eexists. split; [vm_compute; reflexivity|].
  repeat split; try reflexivity. discriminate.
Qed.

(** The same happens at every time of day: the time HHMM of the feed is
    read as hour HH, minute the first digit of MM and second the second
    digit of MM. *)
Lemma every_time_of_day_misread (w : World) (hh mm : Z) :
  0 <= hh < 24 -> 0 <= mm < 60 ->
  row_datetime w (VStr "2024-01-01") (VStr (str_of_Z (hh * 100 + mm)))
  = VTime (timestamp_ns 2024 1 1 hh (mm / 10) (mm mod 10)).
Proof.
  intros Hh Hm.
  assert (E : forallb
                (fun hm =>
                   cell_eqb
                     (row_datetime w (VStr "2024-01-01")
                        (VStr (str_of_Z (Z.of_nat (fst hm) * 100
                                         + Z.of_nat (snd hm)))))
                     (VTime (timestamp_ns 2024 1 1 (Z.of_nat (fst hm))
                                          (Z.of_nat (snd hm) / 10)
                                          (Z.of_nat (snd hm) mod 10))))
                (list_prod (seq 0 24) (seq 0 60)) = true)
    by (vm_compute; reflexivity).
  rewrite forallb_forall in E.
  specialize (E (Z.to_nat hh, Z.to_nat mm)). simpl fst in E. simpl snd in E.
  rewrite !Z2Nat.id in E by lia.
  assert (Hin : In (Z.to_nat hh, Z.to_nat mm)
                   (list_prod (seq 0 24) (seq 0 60))).
  { apply in_prod; apply in_seq; lia. }
  specialize (E Hin).
  destruct (row_datetime w (VStr "2024-01-01")
                         (VStr (str_of_Z (hh * 100 + mm))));
    simpl in E; try discriminate.
  apply Z.eqb_eq in E. now subst.
Qed.

(** ** Recency rank *)

(** C2, the code at a batch whose most recent date is the current date:
    the rank of that date is 1, not 0. *)
Theorem days_ago_of_today_is_one :
  exists out,
    process_csv_data world_of_2024_01_01 "" = Ok out
    /\ column out "acq_date" = [VStr "2024-01-01"]
    /\ strftime "%Y-%m-%d" (today world_of_2024_01_01) = "2024-01-01"
    /\ column out "days_ago" = [VInt 1].
Proof.
  eexists. split; [vm_compute; reflexivity|].
  repeat split; reflexivity.
Qed.

(** Whatever the batch and the day, the rank written is the dense rank
    counted from one. *)
Lemma days_ago_always_one_based (w : World) (data out : DataFrame) :
  normalize w data = Ok out ->
  column out "days_ago"
  = map (dense_rank_desc (column data "acq_date")) (column data "acq_date").
Proof.
  intros H. apply normalize_inv in H. cbv zeta in H.
  destruct H as (_ & _ & ->).
  unfold type_conversions.
  rewrite !column_assign_other by reflexivity.
  rewrite column_assign_same.
  set (d3 := parse_acq_datetime _ w).
  assert (Hd : column d3 "acq_date" = column data "acq_date").
  { unfold d3, parse_acq_datetime.
    rewrite !column_assign_other by reflexivity.
    now apply column_marked_input. }
  rewrite Hd.
  rewrite (map_one_column d3 data "acq_date"
                          (dense_rank_desc (column data "acq_date")) Hd).
  unfold column. now rewrite map_map.
Qed.

(** ** Fail-fast parsing *)

(** C5: when the required columns are there and the timestamp of some row
    cannot be read, the whole batch fails with the parse error; and every
    record of a batch that was normalised has a timestamp. *)
Theorem unparseable_row_fails_batch (w : World) (content : string)
        (data : DataFrame) :
  read_csv w content = Ok data ->
  (Forall (fun c => In c (columns data)) required_columns ->
   (exists r, In r (rows data)
              /\ row_datetime w (cell_at (columns data) r "acq_date")
                              (cell_at (columns data) r "acq_time") = NaN) ->
   exists e, process_csv_data w content = Raise e /\ ParseError e)
  /\ (forall out, process_csv_data w content = Ok out ->
        List.length (rows out) = List.length (rows data)
        /\ Forall (fun v => exists ns, v = VTime ns)
                  (column out "acq_datetime")).
Proof.
  intros Hread. unfold process_csv_data. rewrite Hread. simpl. split.
  - intros Hreq [r [Hr Hnat]].
    exists (ValueError
              "Data processing error: Error converting acquisition datetime").
    split; [|reflexivity].
    unfold normalize. cbv zeta.
    rewrite (required_columns_present data Hreq).
    rewrite column_acq_datetime.
    assert (E : existsb isnull
                  (map (fun r0 => row_datetime w
                                    (cell_at (columns data) r0 "acq_date")
                                    (cell_at (columns data) r0 "acq_time"))
                       (rows data)) = true).
    { apply existsb_exists. exists NaN. split; [|reflexivity].
      apply in_map_iff. exists r. now split. }
    rewrite E. reflexivity.
  - intros out H.
    destruct (normalize w data) as [out'|e] eqn:E; [|discriminate].
    injection H as <-.
    apply normalize_inv in E. cbv zeta in E.
    destruct E as (_ & Hnull & ->). split.
    + unfold type_conversions, parse_acq_datetime.
      rewrite !rows_assign_length, rows_mark_confidence_length.
      apply rows_assign_length.
    + unfold type_conversions.
      rewrite !column_assign_other by reflexivity.
      rewrite column_acq_datetime in *.
      apply Forall_forall. intros v Hv.
      apply in_map_iff in Hv. destruct Hv as [r [<- Hr]].
      destruct (row_datetime_kind w (cell_at (columns data) r "acq_date")
                                  (cell_at (columns data) r "acq_time"))
        as [Hn|Hn]; [|exact Hn].
      exfalso.
      assert (Ht : existsb isnull
                     (map (fun r0 => row_datetime w
                                       (cell_at (columns data) r0 "acq_date")
                                       (cell_at (columns data) r0 "acq_time"))
                          (rows data)) = true).
      { apply existsb_exists. exists NaN. split; [|reflexivity].
        apply in_map_iff. exists r. now split. }
      congruence.
Qed.

Lemma unparseable_row_fails_batch_witness :
  (exists e, process_csv_data (sample_world 0 batch_bad_month) "" = Raise e
             /\ ParseError e)
  /\ (forall out,
        process_csv_data (sample_world 0 batch_930) "" = Ok out ->
        List.length (rows out) = List.length (rows batch_930)
        /\ Forall (fun v => exists ns, v = VTime ns)
                  (column out "acq_datetime")).
Proof.
  split.
  - apply (proj1 (unparseable_row_fails_batch
                    (sample_world 0 batch_bad_month) "" batch_bad_month
                    eq_refl)).
    + unfold required_columns.
      repeat (apply Forall_cons; [simpl; tauto|]). apply Forall_nil.
    + exists [VStr "2024-13-01"; VStr "930"; VStr "T"; VInt 85].
      split; [simpl; auto|reflexivity].
  - apply (proj2 (unparseable_row_fails_batch
                    (sample_world 0 batch_930) "" batch_930 eq_refl)).
Defined.

(** ** Confidence classification *)

Lemma ge_70_spec (v : cell) : ge_70 v = true <-> at_least_70 v.
Proof.
  unfold ge_70, at_least_70. destruct (numeric_value v) as [q|].
  - rewrite Qle_bool_iff. split.
    + intros H. now exists q.
    + intros [q' [E H]]. now injection E as <-.
  - split; [discriminate|]. intros [q [E _]]. discriminate.
Qed.

Lemma isin_nominal_high_spec (v : cell) :
  isin_nominal_high v = true <-> v = VStr "nominal" \/ v = VStr "high".
Proof.
  unfold isin_nominal_high. rewrite orb_true_iff.
  destruct v; simpl; try (split; [intros [H|H]; discriminate
                                 |intros [H|H]; discriminate]).
  rewrite !String.eqb_eq. split; intros [H|H]; subst; auto;
    injection H as ->; auto.
Qed.

Lemma In_columns_assign (d : DataFrame) (c : string)
      (f : (string -> cell) -> cell) (c' : string) :
  In c' (columns (assign d c f)) <-> In c' (columns d) \/ c' = c.
Proof. unfold assign. simpl. apply In_assign_columns. Qed.

Lemma In_columns_later_stages (w : World) (d : DataFrame)
      (g : (string -> cell) -> cell) (c : string) :
  In c (columns (type_conversions w
                   (assign (parse_acq_datetime d w) "days_ago" g)))
  <-> In c (columns d)
      \/ In c ["acq_time"; "acq_datetime"; "days_ago"; "satellite";
               "confidence"].
Proof.
  unfold type_conversions, parse_acq_datetime.
  rewrite !In_columns_assign. simpl. intuition.
Qed.

Lemma column_later_stages (w : World) (d : DataFrame)
      (g : (string -> cell) -> cell) (c : string) :
  existsb (String.eqb c) ["acq_time"; "acq_datetime"; "days_ago"; "satellite";
                          "confidence"] = false ->
  column (type_conversions w (assign (parse_acq_datetime d w) "days_ago" g)) c
  = column d c.
Proof.
  simpl. intros H.
  repeat (apply orb_false_elim in H; destruct H as [? H]).
  unfold type_conversions, parse_acq_datetime.
  now rewrite !column_assign_other by assumption.
Qed.

(** The column written by [loc_set] over a fresh column of [False]. *)
Lemma column_high_confidence (data : DataFrame)
      (mask : cell -> bool) :
  column (loc_set (assign data "high_confidence" (fun _ => VBool false))
                  (fun row => mask (row "confidence"))
                  "high_confidence" (VBool true)) "high_confidence"
  = map (fun v => VBool (mask v)) (column data "confidence").
Proof.
  unfold loc_set. rewrite column_assign_same.
  unfold assign at 1 2. simpl. rewrite map_map. unfold column.
  rewrite map_map. apply map_ext. intros r.
  rewrite !cell_at_assign. simpl. now destruct (mask _).
Qed.

(** A label renamed to [new] when [new] itself is not yet a column. *)
Lemma column_rename_first (d : DataFrame) (old new old' new' : string) :
  ~ In new (columns d) -> new <> new' -> old' <> old ->
  column (rename d [(old, new); (old', new')]) new = column d old.
Proof.
  intros Hn Hne Ho. apply column_rename. intros c' Hc. simpl.
  destruct (String.eqb_spec c' old) as [->|H1].
  - rewrite !String.eqb_refl. reflexivity.
  - destruct (String.eqb_spec c' old') as [->|H2].
    + destruct (String.eqb_spec new new'); [contradiction|].
      destruct (String.eqb_spec old old'); congruence.
    + destruct (String.eqb_spec new c') as [->|]; [contradiction|].
      destruct (String.eqb_spec old c'); congruence.
Qed.

Lemma column_rename_second (d : DataFrame) (old new old' new' : string) :
  ~ In new' (columns d) -> new <> new' -> old' <> old ->
  column (rename d [(old, new); (old', new')]) new' = column d old'.
Proof.
  intros Hn Hne Ho. apply column_rename. intros c' Hc. simpl.
  destruct (String.eqb_spec c' old) as [->|H1].
  - destruct (String.eqb_spec new' new); [congruence|].
    destruct (String.eqb_spec old' old); congruence.
  - destruct (String.eqb_spec c' old') as [->|H2].
    + rewrite !String.eqb_refl. reflexivity.
    + destruct (String.eqb_spec new' c') as [->|]; [contradiction|].
      destruct (String.eqb_spec old' c'); congruence.
Qed.

Lemma In_columns_loc_set (d : DataFrame) (mask : (string -> cell) -> bool)
      (v : cell) (c : string) :
  In c (columns (loc_set (assign d "high_confidence" (fun _ => VBool false))
                         mask "high_confidence" v))
  <-> In c (columns d) \/ c = "high_confidence".
Proof.
  unfold loc_set. rewrite !In_columns_assign. tauto.
Qed.

Lemma In_renamed_column (d : DataFrame) (mapping : list (string * string))
      (c : string) :
  In c (columns d) -> In (renamed mapping c) (columns (rename d mapping)).
Proof. unfold rename. simpl. apply in_map. Qed.

Lemma normalize_classified (w : World) (data out : DataFrame) :
  normalize w data = Ok out -> classified data out.
Proof.
  intros H. unfold classified. cbv zeta.
  set (conf := column data "confidence").
  apply normalize_inv in H. cbv zeta in H.
  destruct H as (_ & _ & ->).
  set (d1 := assign data "high_confidence" (fun _ => VBool false)).
  assert (Hconf : column d1 "confidence" = conf)
    by (unfold d1; now rewrite column_assign_other).
  assert (Hcols : forall c, In c (columns d1)
                            <-> In c (columns data) \/ c = "high_confidence")
    by (intros c; unfold d1; apply In_columns_assign).
  split; [|split; [|split]].
  - intros Hnum.
    assert (E : mark_confidence d1
                = rename (loc_set d1 (fun row => ge_70 (row "confidence"))
                                  "high_confidence" (VBool true))
                         modis_mapping)
      by (unfold mark_confidence; now rewrite Hconf, Hnum).
    rewrite E. clear E.
    split; [|split; [|split; [|split]]].
    + rewrite column_later_stages by reflexivity.
      rewrite column_rename_untouched by reflexivity.
      apply column_high_confidence.
    + intros Hn. rewrite column_later_stages by reflexivity.
      unfold modis_mapping. rewrite column_rename_first.
      * unfold loc_set, d1. now rewrite !column_assign_other by reflexivity.
      * unfold d1. rewrite In_columns_loc_set. intros [?|?]; [contradiction|discriminate].
      * discriminate.
      * discriminate.
    + intros Hn. rewrite column_later_stages by reflexivity.
      unfold modis_mapping. rewrite column_rename_second.
      * unfold loc_set, d1. now rewrite !column_assign_other by reflexivity.
      * unfold d1. rewrite In_columns_loc_set. intros [?|?]; [contradiction|discriminate].
      * discriminate.
      * discriminate.
    + intros Hin. apply In_columns_later_stages. left.
      apply (In_renamed_column _ modis_mapping "brightness").
      unfold d1. apply In_columns_loc_set. now left.
    + intros Hin. apply In_columns_later_stages. left.
      apply (In_renamed_column _ modis_mapping "bright_t31").
      unfold d1. apply In_columns_loc_set. now left.
  - intros Hnum Hstr.
    assert (E : mark_confidence d1
                = rename (loc_set d1
                                  (fun row => isin_nominal_high (row "confidence"))
                                  "high_confidence" (VBool true))
                         viirs_mapping)
      by (unfold mark_confidence; now rewrite Hconf, Hnum, Hstr).
    rewrite E. clear E.
    split; [|split; [|split; [|split]]].
    + rewrite column_later_stages by reflexivity.
      rewrite column_rename_untouched by reflexivity.
      apply column_high_confidence.
    + intros Hn. rewrite column_later_stages by reflexivity.
      unfold viirs_mapping. rewrite column_rename_first.
      * unfold loc_set, d1. now rewrite !column_assign_other by reflexivity.
      * unfold d1. rewrite In_columns_loc_set. intros [?|?]; [contradiction|discriminate].
      * discriminate.
      * discriminate.
    + intros Hn. rewrite column_later_stages by reflexivity.
      unfold viirs_mapping. rewrite column_rename_second.
      * unfold loc_set, d1. now rewrite !column_assign_other by reflexivity.
      * unfold d1. rewrite In_columns_loc_set. intros [?|?]; [contradiction|discriminate].
      * discriminate.
      * discriminate.
    + intros Hin. apply In_columns_later_stages. left.
      apply (In_renamed_column _ viirs_mapping "bright_ti4").
      unfold d1. apply In_columns_loc_set. now left.
    + intros Hin. apply In_columns_later_stages. left.
      apply (In_renamed_column _ viirs_mapping "bright_ti5").
      unfold d1. apply In_columns_loc_set. now left.
  - intros Hnum Hstr.
    assert (E : mark_confidence d1 = d1)
      by (unfold mark_confidence; now rewrite Hconf, Hnum, Hstr).
    rewrite E. clear E.
    assert (Hall : forall c,
               In c (columns
                       (type_conversions w
                          (assign (parse_acq_datetime d1 w) "days_ago"
                                  (fun row =>
                                     dense_rank_desc
                                       (column (parse_acq_datetime d1 w)
                                               "acq_date")
                                       (row "acq_date")))))
               <-> In c (columns data)
                   \/ In c ["high_confidence"; "acq_time"; "acq_datetime";
                            "days_ago"; "satellite"; "confidence"]).
    { intros c. rewrite In_columns_later_stages, Hcols. simpl. intuition. }
    split; [|split; [exact Hall|split]].
    + rewrite column_later_stages by reflexivity.
      unfold d1. rewrite column_assign_same. unfold conf, column.
      now rewrite map_map.
    + intros Hn Hin. apply Hall in Hin. destruct Hin as [Hin|Hin];
        [contradiction|].
      simpl in Hin. intuition discriminate.
    + intros Hn Hin. apply Hall in Hin. destruct Hin as [Hin|Hin];
        [contradiction|].
      simpl in Hin. intuition discriminate.
  - split; [exact ge_70_spec|]. split; [exact isin_nominal_high_spec|].
    repeat split; reflexivity.
Qed.

(** A batch with its required columns whose rows all have a readable
    timestamp is normalised, whatever the representation of its
    confidence column. *)
Lemma normalize_succeeds (w : World) (data : DataFrame) :
  Forall (fun c => In c (columns data)) required_columns ->
  (forall r, In r (rows data) ->
             row_datetime w (cell_at (columns data) r "acq_date")
                          (cell_at (columns data) r "acq_time") <> NaN) ->
  exists out, normalize w data = Ok out.
Proof.
  intros Hreq Hrows. unfold normalize. cbv zeta.
  rewrite (required_columns_present data Hreq).
  rewrite column_acq_datetime.
  assert (E : existsb isnull
                (map (fun r => row_datetime w
                                 (cell_at (columns data) r "acq_date")
                                 (cell_at (columns data) r "acq_time"))
                     (rows data)) = false).
  { destruct (existsb isnull _) eqn:E; [|reflexivity].
    apply existsb_exists in E. destruct E as [v [Hv Hn]].
    apply in_map_iff in Hv. destruct Hv as [r [<- Hr]].
    specialize (Hrows r Hr).
    destruct (row_datetime w _ _); try discriminate. contradiction. }
  rewrite E. unfold days_ago_step.
  set (d3 := parse_acq_datetime _ w).
  assert (Hd : column d3 "acq_date" = column data "acq_date").
  { unfold d3, parse_acq_datetime.
    rewrite !column_assign_other by reflexivity.
    now apply column_marked_input. }
  rewrite Hd.
  assert (Hr : astype_int (map (dense_rank_desc (column data "acq_date"))
                               (column data "acq_date")) = Ok tt).
  { unfold astype_int. clear E.
    destruct (existsb isnull
                (map (dense_rank_desc (column data "acq_date"))
                     (column data "acq_date"))) eqn:En; [|reflexivity].
    exfalso. apply existsb_exists in En. destruct En as [v [Hv Hn]].
    apply in_map_iff in Hv. destruct Hv as [d [<- Hdin]].
    unfold column in Hdin. apply in_map_iff in Hdin.
    destruct Hdin as [r [<- Hr]]. specialize (Hrows r Hr).
    unfold row_datetime, acq_text in Hrows.
    destruct (cell_at (columns data) r "acq_date"); simpl in *;
      try contradiction; discriminate. }
  rewrite Hr. unfold bind. rewrite max_never_today.
  eexists. reflexivity.
Qed.

(** C4: in a normalised batch, a numeric confidence column marks a row
    exactly when its confidence is at least 70 and the columns brightness
    and bright_t31 become brightness_a and brightness_b; a column of
    strings marks a row exactly when its confidence is "nominal" or
    "high" and bright_ti4 and bright_ti5 become brightness_a and
    brightness_b; with any other column every row stays unmarked and no
    column is renamed or added beyond those of the later steps.  The
    representation is never a reason to fail: a batch with its required
    columns and readable timestamps is normalised. *)
Theorem confidence_marks_high_confidence (w : World) (data : DataFrame) :
  (forall out, normalize w data = Ok out -> classified data out)
  /\ (Forall (fun c => In c (columns data)) required_columns ->
      (forall r, In r (rows data) ->
                 row_datetime w (cell_at (columns data) r "acq_date")
                              (cell_at (columns data) r "acq_time") <> NaN) ->
      exists out, normalize w data = Ok out).
Proof.
  split.
  - intros out. apply normalize_classified.
  - apply normalize_succeeds.
Qed.

Lemma confidence_marks_high_confidence_witness :
  exists out out',
    normalize (sample_world 0 batch_numeric) batch_numeric = Ok out
    /\ column out "high_confidence" = [VBool true; VBool false]
    /\ column out "brightness_a" = [VFloat 300; VFloat 300]
    /\ normalize (sample_world 0 batch_textual) batch_textual = Ok out'
    /\ column out' "high_confidence" = [VBool true; VBool false]
    /\ column out' "brightness_b" = [VFloat 290; VFloat 290].
Proof.
  destruct (normalize (sample_world 0 batch_numeric) batch_numeric)
    as [out|e] eqn:E; [|vm_compute in E; discriminate].
  destruct (normalize (sample_world 0 batch_textual) batch_textual)
    as [out'|e] eqn:E'; [|vm_compute in E'; discriminate].
  exists out, out'.
  destruct (proj1 (confidence_marks_high_confidence _ _) _ E) as [Hnum _].
  destruct (proj1 (confidence_marks_high_confidence _ _) _ E')
    as [_ [Hstr _]].
  destruct (Hnum eq_refl) as (H1 & H2 & _).
  destruct (Hstr eq_refl eq_refl) as (H3 & _ & H4 & _).
  rewrite H1, H2, H3, H4.
  - repeat split; reflexivity.
  - simpl. intuition discriminate.
  - simpl. intuition discriminate.
Defined.

(** ** Equality of cells and keys *)


Lemma Qeq_bool_refl (x : Q) : Qeq_bool x x = true.
Proof. apply Qeq_bool_iff. apply Qeq_refl. Qed.


Section ListEqb.
Context {A : Type}.
Variable eqb : A -> A -> bool.
Hypothesis eqb_refl : forall a, eqb a a = true.
Hypothesis eqb_sym : forall a b, eqb a b = eqb b a.
Hypothesis eqb_trans :
  forall a b c, eqb a b = true -> eqb b c = true -> eqb a c = true.



End ListEqb.

Lemma coord_eqb_refl (a : coord) : coord_eqb a a = true.
Proof. unfold coord_eqb. now rewrite !Qeq_bool_refl. Qed.


















(** ** Duplicates and order *)

Section KeepLast.
Variable same : list cell -> list cell -> bool.

Lemma keep_last_In (rs : list (list cell)) (r : list cell) :
  In r (keep_last same rs) -> In r rs.
Proof.
  induction rs as [|x rs IH]; simpl; [tauto|].
  destruct (existsb (same x) rs); simpl; intuition.
Qed.



Hypothesis same_refl : forall a, same a a = true.
Hypothesis same_trans :
  forall a b c, same a b = true -> same b c = true -> same a c = true.

End KeepLast.




Lemma insert_sorted_Permutation (key : list cell -> cell) (r : list cell)
      (rs : list (list cell)) :
  Permutation (insert_sorted key r rs) (r :: rs).
Proof.
  induction rs as [|x rs IH]; simpl; [reflexivity|].
  destruct (time_le (key r) (key x)); [reflexivity|].
  rewrite perm_swap. now constructor.
Qed.


Lemma fold_insert_Permutation (key : list cell -> cell)
      (rs : list (list cell)) :
  Permutation (fold_right (insert_sorted key) [] rs) rs.
Proof.
  induction rs as [|r rs IH]; simpl; [reflexivity|].
  rewrite insert_sorted_Permutation. now constructor.
Qed.


Lemma is_order_Permutation (n : nat) (order : list nat) :
  is_order n order = true -> Permutation (seq 0 n) order.
Proof.
  unfold is_order. intros H. apply andb_true_iff in H.
  destruct H as [Hl Hall]. apply Nat.eqb_eq in Hl.
  apply NoDup_Permutation_bis.
  - apply seq_NoDup.
  - rewrite length_seq. now rewrite Hl.
  - intros i Hi. rewrite forallb_forall in Hall. specialize (Hall i Hi).
    apply existsb_exists in Hall. destruct Hall as [j [Hj E]].
    apply Nat.eqb_eq in E. now subst.
Qed.

Lemma map_nth_positions {A : Type} (l : list A) (d : A) :
  map (fun i => nth i l d) (seq 0 (List.length l)) = l.
Proof.
  induction l as [|a l IH]; [reflexivity|].
  cbn [List.length seq map nth]. f_equal.
  rewrite <- seq_shift, map_map. exact IH.
Qed.

Lemma reorder_Permutation (order : list nat) (rs : list (list cell)) :
  Permutation (reorder order rs) rs.
Proof.
  unfold reorder. destruct (is_order (List.length rs) order) eqn:E;
    [|reflexivity].
  apply is_order_Permutation in E.
  transitivity (map (fun i => nth i rs []) (seq 0 (List.length rs))).
  - apply Permutation_map. now symmetry.
  - now rewrite map_nth_positions.
Qed.

Lemma sort_values_Permutation (w : World) (d : DataFrame) (c : string) :
  Permutation (rows (sort_values w d c)) (rows d).
Proof.
  unfold sort_values. cbn [rows].
  rewrite fold_insert_Permutation. apply reorder_Permutation.
Qed.


(** ** Re-laying rows *)

Lemma cell_at_reindex (cols cols' : list string) (r : list cell) (c : string) :
  cell_at cols' (reindex cols cols' r) c
  = if existsb (String.eqb c) cols' then cell_at cols r c else NaN.
Proof.
  unfold reindex. unfold cell_at at 1.
  destruct (index_of c cols') as [i|] eqn:E.
  - destruct (index_of_Some _ _ _ E) as [Hn Hi].
    assert (Hin : existsb (String.eqb c) cols' = true).
    { apply existsb_exists. exists c. split; [|apply String.eqb_refl].
      rewrite <- Hn. now apply nth_In. }
    rewrite Hin.
    rewrite (nth_indep _ NaN (cell_at cols r "")) by now rewrite length_map.
    now rewrite map_nth, Hn.
  - apply index_of_None in E.
    destruct (existsb (String.eqb c) cols') eqn:Hin; [|reflexivity].
    apply existsb_exists in Hin. destruct Hin as [x [Hx He]].
    apply String.eqb_eq in He. subst. contradiction.
Qed.

Lemma cell_at_absent (cols : list string) (r : list cell) (c : string) :
  ~ In c cols -> cell_at cols r c = NaN.
Proof.
  intros H. apply index_of_None in H. unfold cell_at. now rewrite H.
Qed.

(** ** Feed combiner: stages *)

Lemma In_add_label (acc : list string) (x c : string) :
  In c (add_label acc x) <-> In c acc \/ c = x.
Proof.
  unfold add_label. destruct (existsb (String.eqb x) acc) eqn:E.
  - split; [tauto|]. intros [H | ->]; [exact H|].
    apply existsb_exists in E. destruct E as [y [Hy He]].
    apply String.eqb_eq in He. now subst.
  - rewrite in_app_iff. simpl. intuition congruence.
Qed.

Lemma In_fold_add_label (l acc : list string) (c : string) :
  In c (fold_left add_label l acc) <-> In c acc \/ In c l.
Proof.
  revert acc. induction l as [|x l IH]; intros acc; simpl; [tauto|].
  rewrite IH, In_add_label. intuition congruence.
Qed.

Lemma In_columns_concat (dfs : list DataFrame) (c : string) :
  In c (columns (concat_frames dfs))
  <-> exists d, In d dfs /\ In c (columns d).
Proof.
  unfold concat_frames. cbn [columns].
  assert (G : forall acc,
             In c (fold_left (fun acc d => fold_left add_label (columns d) acc)
                             dfs acc)
             <-> In c acc \/ exists d, In d dfs /\ In c (columns d)).
  { induction dfs as [|d dfs IH]; intros acc; simpl.
    - split; [tauto|]. intros [H|[d [[] _]]]. exact H.
    - rewrite IH, In_fold_add_label. split.
      + intros [[H|H]|[d' [Hd Hc]]]; eauto.
      + intros [H|[d' [[<-|Hd] Hc]]]; eauto. }
  rewrite G. split; [intros [[]|H]; exact H|now right].
Qed.

Lemma cell_at_laid_out (cols : list string) (g : string -> cell)
      (c : string) :
  cell_at cols (map g cols) c
  = if existsb (String.eqb c) cols then g c else NaN.
Proof.
  unfold cell_at.
  destruct (index_of c cols) as [i|] eqn:E.
  - destruct (index_of_Some _ _ _ E) as [Hn Hi].
    assert (Hin : existsb (String.eqb c) cols = true).
    { apply existsb_exists. exists c. split; [|apply String.eqb_refl].
      rewrite <- Hn. now apply nth_In. }
    rewrite Hin.
    rewrite (nth_indep _ NaN (g "")) by now rewrite length_map.
    now rewrite map_nth, Hn.
  - apply index_of_None in E.
    destruct (existsb (String.eqb c) cols) eqn:Hin; [|reflexivity].
    apply existsb_exists in Hin. destruct Hin as [x [Hx He]].
    apply String.eqb_eq in He. subst. contradiction.
Qed.

(** A cell of the concatenation is the cell of the row it came from,
    as it is or as a float. *)
Lemma In_rows_concat (dfs : list DataFrame) (r' : list cell) :
  In r' (rows (concat_frames dfs)) ->
  exists d r, In d dfs /\ In r (rows d)
              /\ forall c, In c (columns (concat_frames dfs)) ->
                           cell_at (columns (concat_frames dfs)) r' c
                           = cell_at (columns d) r c
                           \/ cell_at (columns (concat_frames dfs)) r' c
                              = as_float (cell_at (columns d) r c).
Proof.
  unfold concat_frames at 1. cbn [rows]. intros H.
  apply in_flat_map in H. destruct H as [d [Hd Hr]].
  apply in_map_iff in Hr. destruct Hr as [r [<- Hr]].
  exists d, r. split; [exact Hd|]. split; [exact Hr|].
  intros c Hc. unfold concat_frames. cbn [columns].
  rewrite cell_at_laid_out.
  replace (existsb (String.eqb c) _) with true.
  - destruct (dtype_of _); auto.
  - symmetry. apply existsb_exists. exists c.
    split; [exact Hc|apply String.eqb_refl].
Qed.

(** A column every frame has keeps, in the concatenation, what holds of
    its values in the frames, when that holds of a float as of the
    integer it was. *)
Lemma concat_cells (dfs : list DataFrame) (c : string) (P : cell -> Prop) :
  In c (columns (concat_frames dfs)) ->
  (forall v, P v -> P (as_float v)) ->
  (forall d, In d dfs -> Forall P (column d c)) ->
  Forall P (column (concat_frames dfs) c).
Proof.
  intros Hc Hfloat H. apply Forall_forall. intros v Hv.
  unfold column in Hv. apply in_map_iff in Hv. destruct Hv as [r' [<- Hr']].
  apply In_rows_concat in Hr'. destruct Hr' as (d & r & Hd & Hr & Hcell).
  assert (HP : P (cell_at (columns d) r c)).
  { specialize (H d Hd). rewrite Forall_forall in H. apply H.
    unfold column. apply in_map_iff. now exists r. }
  destruct (Hcell c Hc) as [-> | ->]; [exact HP|now apply Hfloat].
Qed.

Lemma unique_labels_NoDup (cols : list string) :
  unique_labels cols = true <-> NoDup cols.
Proof.
  induction cols as [|c cols IH]; cbn [unique_labels].
  - split; [constructor|reflexivity].
  - rewrite andb_true_iff, negb_true_iff, IH. split.
    + intros [Hc Hn]. constructor; [|exact Hn]. intros Hin.
      assert (E : existsb (String.eqb c) cols = true).
      { apply existsb_exists. exists c. split; [exact Hin|].
        apply String.eqb_refl. }
      congruence.
    + intros H. inversion H as [|x l Hc Hn]; subst. split; [|exact Hn].
      destruct (existsb (String.eqb c) cols) eqn:E; [|reflexivity].
      apply existsb_exists in E. destruct E as [x [Hx He]].
      apply String.eqb_eq in He. subst. contradiction.
Qed.

(** Frames of which none repeats a label are concatenated here. *)
Lemma concat_distinct_labels (w : World) (dfs : list DataFrame) :
  Forall (fun d => NoDup (columns d)) dfs ->
  concat w dfs = Ok (concat_frames dfs).
Proof.
  intros H. unfold concat.
  replace (forallb (fun d => unique_labels (columns d)) dfs) with true;
    [reflexivity|].
  symmetry. apply forallb_forall. intros d Hd.
  apply unique_labels_NoDup. rewrite Forall_forall in H. now apply H.
Qed.

Lemma sequence_Ok {A : Type} (l : list (result A)) (v : list A) :
  sequence l = Ok v -> Forall (fun r => exists a, r = Ok a) l.
Proof.
  revert v. induction l as [|r l IH]; simpl; intros v H; [constructor|].
  destruct r as [a|e]; simpl in H; [|discriminate].
  destruct (sequence l) as [rest|e]; simpl in H; [|discriminate].
  constructor; eauto.
Qed.


Lemma with_points_inv (w : World) (d : DataFrame) (x y crs0 : string)
      (g : GeoDataFrame) :
  with_points w d x y crs0 = Ok g ->
  crs g = Some crs0
  /\ frame g = assign d "geometry"
                      (fun row => match point_from_xy w (row x) (row y) with
                                  | Ok p => VGeom p
                                  | Raise _ => NaN
                                  end)
  /\ (forall r, In r (rows d) ->
                exists p, point_from_xy w (cell_at (columns d) r x)
                                        (cell_at (columns d) r y) = Ok p).
Proof.
  unfold with_points, bind.
  destruct (sequence _) as [v|e] eqn:E; [|discriminate].
  intros H. injection H as <-. simpl. repeat split.
  intros r Hr. apply sequence_Ok in E. rewrite Forall_forall in E.
  apply E. apply in_map_iff. now exists r.
Qed.

Lemma read_firm_csv_inv (w : World) (url : string) (rq rq' : list string)
      (df : DataFrame) :
  read_firm_csv w url rq = (Ok df, rq') ->
  feed_frame w url df /\ rq' = (rq ++ [url])%list.
Proof.
  unfold read_firm_csv, fetch_firms_csv_content, process_csv_data, feed_frame.
  destruct (http_get w url) as [content|e] eqn:E1; simpl;
    [|destruct e; discriminate].
  destruct (read_csv w content) as [data|e] eqn:E2; simpl; [|discriminate].
  destruct (normalize w data) as [out|e] eqn:E3; simpl; [|discriminate].
  intros H. injection H as <- <-. split; [|reflexivity].
  now exists content, data.
Qed.

Lemma read_all_inv (w : World) (urls : list string) (acc l : list DataFrame)
      (rq rq' : list string) :
  read_all w urls acc rq = (Ok l, rq') ->
  exists dfs, l = (acc ++ dfs)%list /\ Forall2 (feed_frame w) urls dfs
              /\ rq' = (rq ++ urls)%list.
Proof.
  revert acc rq. induction urls as [|u urls IH]; intros acc rq H;
    cbn [read_all] in H.
  - injection H as <- <-. exists []. rewrite !app_nil_r.
    repeat split. constructor.
  - destruct (read_firm_csv w u rq) as [[df|e] rq1] eqn:E; [|discriminate].
    apply read_firm_csv_inv in E. destruct E as [Hf ->].
    apply IH in H. destruct H as (dfs & -> & Hall & ->).
    exists (df :: dfs). rewrite <- !app_assoc. simpl. auto.
Qed.



Lemma Forall2_map_r {A B : Type} (R : A -> B -> Prop) (h : A -> B)
      (l : list A) :
  (forall a, In a l -> R a (h a)) -> Forall2 R l (map h l).
Proof.
  induction l as [|a l IH]; simpl; intros H; constructor; auto.
Qed.









Lemma combined_export_columns (w : World) (d : DataFrame) :
  columns (combined_export w d) = columns d.
Proof. reflexivity. Qed.

Lemma combined_export_rows (w : World) (d : DataFrame) :
  Permutation
    (rows (combined_export w d))
    (keep_last (same_key (columns d) unique_columns)
               (filter (fun r => is_true (cell_at (columns d) r
                                                  "high_confidence"))
                       (rows d))).
Proof.
  unfold combined_export. apply sort_values_Permutation.
Qed.

(** ** Feed combiner *)


(** ** Geospatial filter: stages *)

Lemma sequence_within_area (w : World) (polygons vs : list cell)
      (mask : list bool) :
  sequence (map (within_area w polygons) vs) = Ok mask ->
  mask = map (inside_some w polygons) vs.
Proof.
  revert mask. induction vs as [|v vs IH]; simpl; intros mask H.
  - now injection H as <-.
  - destruct v; simpl in H; try discriminate.
    destruct (sequence (map (within_area w polygons) vs)) as [rest|e];
      simpl in H; [|discriminate].
    injection H as <-. simpl. f_equal. now apply IH.
Qed.

Lemma mask_rows_filter (b : list cell -> bool) (rs : list (list cell)) :
  mask_rows rs (map b rs) = filter b rs.
Proof.
  induction rs as [|r rs IH]; simpl; [reflexivity|].
  destruct (b r); now rewrite IH.
Qed.

Lemma assign_columns_present (cols : list string) (c : string) :
  In c cols -> assign_columns cols c = cols.
Proof.
  intros H. unfold assign_columns.
  destruct (index_of c cols) eqn:E; [reflexivity|].
  apply index_of_None in E. contradiction.
Qed.

Lemma to_crs_inv (w : World) (f src : GeoDataFrame) (target : option string) :
  In geometry_column (columns (frame f)) ->
  to_crs w f target = Ok src ->
  exists s d,
    crs f = Some s /\ target = Some d /\ crs src = Some d
    /\ columns (frame src) = columns (frame f)
    /\ Forall2 (reprojected w s d (columns (frame f)))
               (rows (frame f)) (rows (frame src)).
Proof.
  intros Hgeo. unfold to_crs.
  destruct (crs f) as [s|]; [|discriminate].
  destruct target as [d|]; [|discriminate].
  unfold bind. destruct (sequence _) as [v|e] eqn:E; [|discriminate].
  intros H. injection H as <-. exists s, d. simpl.
  rewrite (assign_columns_present _ _ Hgeo).
  repeat split.
  apply Forall2_map_r. intros r Hr.
  apply sequence_Ok in E. rewrite Forall_forall in E.
  assert (Ht : exists a,
             match cell_at (columns (frame f)) r geometry_column with
             | VGeom geom => transform w s d geom
             | _ => Ok PointNaN
             end = Ok a).
  { apply E. unfold column. rewrite map_map. apply in_map_iff. now exists r. }
  pose proof (cell_at_assign (columns (frame f)) geometry_column) as Hc.
  rewrite (assign_columns_present _ _ Hgeo) in Hc.
  unfold reprojected. split.
  - intros c Hne. rewrite Hc. apply String.eqb_neq in Hne. now rewrite Hne.
  - rewrite Hc, String.eqb_refl.
    destruct (cell_at (columns (frame f)) r geometry_column); try reflexivity.
    destruct Ht as [a Ha]. rewrite Ha. now exists a.
Qed.

Lemma filter_inv (w : World) (f c out : GeoDataFrame) :
  filter_firms_points_within_country_area w (AGeoDataFrame f) (AGeoDataFrame c)
  = Ok out ->
  has_column (frame f) geometry_column = true
  /\ has_column (frame c) geometry_column = true
  /\ empty (frame f) = false /\ empty (frame c) = false
  /\ exists src,
      (if crs_differ w (crs f) (crs c) then to_crs w f (crs c) else Ok f)
      = Ok src
      /\ columns (frame out) = columns (frame src)
      /\ crs out = crs src
      /\ rows (frame out)
         = filter (fun r => inside_some w (column (frame c) geometry_column)
                                        (cell_at (columns (frame src)) r
                                                 geometry_column))
                  (rows (frame src)).
Proof.
  unfold filter_firms_points_within_country_area.
  destruct (has_column (frame f) geometry_column); simpl; [|discriminate].
  destruct (has_column (frame c) geometry_column); simpl; [|discriminate].
  destruct (empty (frame f)); simpl; [discriminate|].
  destruct (empty (frame c)); simpl; [discriminate|].
  destruct (if crs_differ w (crs f) (crs c) then to_crs w f (crs c) else Ok f)
    as [src|e]; [|discriminate].
  destruct (sequence _) as [mask|e] eqn:E; [|discriminate].
  intros H. injection H as <-. simpl.
  repeat split. exists src. repeat split.
  apply sequence_within_area in E. subst mask.
  unfold column at 2. rewrite map_map. apply mask_rows_filter.
Qed.

Lemma inside_some_spec (w : World) (polygons : list cell) (v : cell) :
  inside_some w polygons v = true
  <-> exists p a, v = VGeom p /\ In (VGeom a) polygons /\ within w p a = true.
Proof.
  unfold inside_some. destruct v;
    try (split; [discriminate|intros (p & a & H & _); discriminate]).
  rewrite existsb_exists. split.
  - intros [x [Hx Hw]]. destruct x; try discriminate. now exists g, g0.
  - intros (p & a & H & Hin & Hw). injection H as <-.
    exists (VGeom a). now split.
Qed.

(** ** Geospatial filter *)

Lemma crs_differ_spec (w : World) (a b : option string) :
  crs_differ w a b = false <-> same_crs w a b.
Proof.
  destruct a as [s|], b as [d|]; simpl; try (split; [discriminate|tauto]).
  - rewrite negb_false_iff. reflexivity.
  - tauto.
Qed.

Lemma within_point_area (w : World) (x y : Q) (a : geometry) :
  area a ->
  within w (Point x y) a = true
  <-> exists part, In part (parts_of a)
                   /\ locate_in_polygon (x, y) (fst part) (snd part)
                      = Interior.
Proof.
  destruct a as [| |shell holes|parts]; simpl; try contradiction; intros _.
  - split.
    + intros H. exists (shell, holes). split; [now left|]. simpl.
      destruct (locate_in_polygon (x, y) shell holes); try discriminate.
      reflexivity.
    + intros [part [[<-|[]] H]]. simpl in H. now rewrite H.
  - rewrite existsb_exists. split; intros [part [Hin H]]; exists part;
      (split; [exact Hin|]).
    + destruct (locate_in_polygon (x, y) (fst part) (snd part));
        try discriminate. reflexivity.
    + now rewrite H.
Qed.

Lemma inside_some_point_area (w : World) (polygons : list cell) (x y : Q) :
  Forall (fun v => exists a, v = VGeom a /\ area a) polygons ->
  inside_some w polygons (VGeom (Point x y)) = true
  <-> exists a part,
        In (VGeom a) polygons /\ In part (parts_of a)
        /\ locate_in_polygon (x, y) (fst part) (snd part) = Interior.
Proof.
  intros Hareas. rewrite Forall_forall in Hareas.
  rewrite inside_some_spec. split.
  - intros (p & a & Hp & Ha & Hw). injection Hp as <-.
    destruct (Hareas _ Ha) as [a' [Ea Harea]]. injection Ea as <-.
    apply (within_point_area w x y a Harea) in Hw.
    destruct Hw as [part [Hpart Hloc]]. now exists a, part.
  - intros (a & part & Ha & Hpart & Hloc).
    exists (Point x y), a. split; [reflexivity|]. split; [exact Ha|].
    destruct (Hareas _ Ha) as [a' [Ea Harea]]. injection Ea as <-.
    apply (within_point_area w x y a Harea). now exists part.
Qed.

(** C7: when the filter returns, the points were first brought into the
    reference system of the polygons if the two differed (every other
    attribute of a record untouched) and were left as they were if not;
    the records returned are, in their order, exactly the records whose
    geometry is within at least one geometry of the boundary set; and
    against a boundary set of areas a record with a point is returned
    exactly when the point is in the interior of one of the polygons. *)
Theorem filter_keeps_points_within_some_polygon (w : World)
        (f c out : GeoDataFrame) :
  filter_firms_points_within_country_area w (AGeoDataFrame f) (AGeoDataFrame c)
  = Ok out ->
  let polygons := column (frame c) geometry_column in
  exists src,
    (same_crs w (crs f) (crs c) -> src = f)
    /\ (forall s d,
          crs f = Some s -> crs c = Some d -> crs_eq w s d = false ->
          crs src = Some d
          /\ columns (frame src) = columns (frame f)
          /\ Forall2 (reprojected w s d (columns (frame f)))
                     (rows (frame f)) (rows (frame src)))
    /\ (same_crs w (crs f) (crs c)
        \/ exists s d, crs f = Some s /\ crs c = Some d
                       /\ crs_eq w s d = false)
    /\ columns (frame out) = columns (frame src)
    /\ crs out = crs src
    /\ rows (frame out)
       = filter (fun r => inside_some w polygons
                                      (cell_at (columns (frame src)) r
                                               geometry_column))
                (rows (frame src))
    /\ (forall r,
          In r (rows (frame out))
          <-> In r (rows (frame src))
              /\ exists p a,
                  cell_at (columns (frame src)) r geometry_column = VGeom p
                  /\ In (VGeom a) polygons /\ within w p a = true)
    /\ (Forall (fun v => exists a, v = VGeom a /\ area a) polygons ->
        forall r x y,
          In r (rows (frame src)) ->
          cell_at (columns (frame src)) r geometry_column
          = VGeom (Point x y) ->
          (In r (rows (frame out))
           <-> exists a part,
                 In (VGeom a) polygons /\ In part (parts_of a)
                 /\ locate_in_polygon (x, y) (fst part) (snd part)
                    = Interior)).
Proof.
  intros H polygons. apply filter_inv in H.
  destruct H as (Hgf & _ & _ & _ & src & Hsrc & Hcols & Hcrs & Hrows).
  apply has_column_In in Hgf.
  assert (Hiff : forall r,
             In r (rows (frame out))
             <-> In r (rows (frame src))
                 /\ exists p a,
                     cell_at (columns (frame src)) r geometry_column = VGeom p
                     /\ In (VGeom a) polygons /\ within w p a = true).
  { intros r. rewrite Hrows, filter_In, inside_some_spec. reflexivity. }
  exists src.
  split; [|split; [|split; [|split; [|split; [|split; [|split]]]]]];
    try assumption.
  - intros Hsame. apply crs_differ_spec in Hsame. rewrite Hsame in Hsrc.
    now injection Hsrc as <-.
  - intros s d Hs Hd Hne.
    assert (Hdiff : crs_differ w (crs f) (crs c) = true)
      by (rewrite Hs, Hd; simpl; now rewrite Hne).
    rewrite Hdiff in Hsrc.
    destruct (to_crs_inv w f src (crs c) Hgf Hsrc)
      as (s' & d' & H1 & H2 & H3 & H4 & H5).
    assert (s' = s) by congruence. assert (d' = d) by congruence.
    subst. now repeat split.
  - destruct (crs_differ w (crs f) (crs c)) eqn:Hdiff.
    + right.
      destruct (to_crs_inv w f src (crs c) Hgf Hsrc)
        as (s & d & H1 & H2 & _).
      exists s, d. split; [exact H1|]. split; [exact H2|].
      rewrite H1, H2 in Hdiff. simpl in Hdiff.
      now apply negb_true_iff in Hdiff.
    + left. now apply crs_differ_spec.
  - intros Hareas r x y Hr Hg. rewrite Forall_forall in Hareas. split.
    + intros Hout. apply Hiff in Hout.
      destruct Hout as [_ (p & a & Hp & Ha & Hw)].
      rewrite Hg in Hp. injection Hp as <-.
      destruct (Hareas _ Ha) as [a' [Ea Harea]]. injection Ea as <-.
      apply (within_point_area w x y a Harea) in Hw.
      destruct Hw as [part [Hpart Hloc]]. now exists a, part.
    + intros (a & part & Ha & Hpart & Hloc). apply Hiff. split; [exact Hr|].
      exists (Point x y), a. split; [exact Hg|]. split; [exact Ha|].
      destruct (Hareas _ Ha) as [a' [Ea Harea]]. injection Ea as <-.
      apply (within_point_area w x y a Harea). now exists part.
Qed.

(** C8: the filter raises a [ValueError] when either frame has no
    geometry column, when either frame is empty, and when the reference
    systems differ and the points cannot be brought into that of the
    polygons (in particular when one of the two is not set); an empty
    frame on either side is never answered with an empty result. *)
Theorem filter_rejects_invalid_inputs (w : World) (f c : GeoDataFrame) :
  let result :=
    filter_firms_points_within_country_area w (AGeoDataFrame f)
                                            (AGeoDataFrame c) in
  let has_geometry :=
    has_column (frame f) geometry_column
    && has_column (frame c) geometry_column in
  let some_empty := empty (frame f) || empty (frame c) in
  (has_geometry = false ->
   result = Raise (ValueError
                     "One or both of the GeoDataFrames do not have geometry data"))
  /\ (has_geometry = true -> some_empty = true ->
      result = Raise (ValueError "One or both of the GeoDataFrames is empty"))
  /\ (has_geometry = true -> some_empty = false ->
      crs_differ w (crs f) (crs c) = true ->
      forall e, to_crs w f (crs c) = Raise e ->
      result = Raise (ValueError
                        ("Error in transforming CRS of the GeoDataFrame: "
                         ++ exn_str e)))
  /\ (crs_differ w (crs f) (crs c) = true ->
      crs f = None \/ crs c = None ->
      exists e, to_crs w f (crs c) = Raise e)
  /\ (rows (frame f) = [] \/ rows (frame c) = [] ->
      exists e, result = Raise e /\ ValidationError e)
  /\ (forall other,
        exists e, filter_firms_points_within_country_area w OtherObject other
                  = Raise e /\ ValidationError e)
  /\ (exists e, filter_firms_points_within_country_area
                  w (AGeoDataFrame f) OtherObject = Raise e
                /\ ValidationError e).
Proof.
  cbv zeta. unfold filter_firms_points_within_country_area.
  split; [|split; [|split; [|split; [|split; [|split]]]]].
  - intros H. apply andb_false_iff in H.
    destruct H as [H|H]; rewrite H; simpl; [reflexivity|].
    now rewrite orb_true_r.
  - intros H He. apply andb_prop in H. destruct H as [H1 H2].
    rewrite H1, H2, He. reflexivity.
  - intros H He Hd e Hto. apply andb_prop in H. destruct H as [H1 H2].
    rewrite H1, H2, He, Hd, Hto. reflexivity.
  - intros Hd [H|H]; unfold to_crs; rewrite H.
    + eexists. reflexivity.
    + destruct (crs f); eexists; reflexivity.
  - intros H.
    assert (He : empty (frame f) || empty (frame c) = true).
    { apply orb_true_iff. unfold empty.
      destruct H as [H|H]; rewrite H; auto. }
    destruct (negb (has_column (frame f) geometry_column)
              || negb (has_column (frame c) geometry_column)).
    + eexists. split; [reflexivity|]. eexists. reflexivity.
    + rewrite He. eexists. split; [reflexivity|]. eexists. reflexivity.
  - intros other. eexists. split; [reflexivity|]. eexists. reflexivity.
  - eexists. split; [reflexivity|]. eexists. reflexivity.
Qed.

(** ** Points on the boundary line *)

Lemma Qltb_spec (x y : Q) : reflect (x < y)%Q (Qltb x y).
Proof.
  unfold Qltb. destruct (Qle_bool y x) eqn:E; constructor.
  - apply Qle_bool_iff in E. lra.
  - assert (Hle : (y <= x)%Q -> False).
    { intros Hle. apply Qle_bool_iff in Hle. congruence. }
    destruct (Qlt_le_dec x y); [assumption|contradiction].
Qed.

Lemma Qle_bool_spec (x y : Q) : reflect (x <= y)%Q (Qle_bool x y).
Proof.
  destruct (Qle_bool x y) eqn:E; constructor.
  - now apply Qle_bool_iff.
  - intros H. apply Qle_bool_iff in H. congruence.
Qed.

Lemma Qeq_bool_spec (x y : Q) : reflect (x == y)%Q (Qeq_bool x y).
Proof.
  destruct (Qeq_bool x y) eqn:E; constructor.
  - now apply Qeq_bool_iff.
  - now apply Qeq_bool_neq.
Qed.

(** A segment reports a point that lies on it, unless the point is the
    end the segment is counted from. *)
Lemma count_segment_flags (p a b : coord) (c : counter) :
  on_segment p a b ->
  ~ (fst p == fst b /\ snd p == snd b)%Q ->
  is_point_on_segment (count_segment p b a c) = true.
Proof.
  destruct p as [px py], a as [ax ay], b as [bx by_].
  unfold on_segment, orientation, Qmin2, Qmax2, count_segment. simpl.
  intros (Ho & Hx1 & Hx2 & Hy1 & Hy2) Hnb.
  assert (E1 : Qltb bx px && Qltb ax px = false).
  { destruct (Qltb_spec bx px), (Qltb_spec ax px); simpl; try reflexivity.
    exfalso. destruct (Qle_bool_spec ax bx); lra. }
  rewrite E1. clear E1.
  destruct (Qeq_bool px ax && Qeq_bool py ay) eqn:E2; [reflexivity|].
  assert (Hna : ~ (px == ax /\ py == ay)%Q).
  { intros [H1 H2]. apply Qeq_bool_iff in H1, H2. now rewrite H1, H2 in E2. }
  clear E2.
  assert (Hy : (ay <= by_ -> ay <= py /\ py <= by_)%Q
               /\ (by_ <= ay -> by_ <= py /\ py <= ay)%Q).
  { destruct (Qle_bool_spec ay by_); split; intros; split; lra. }
  assert (Hx : (ax <= bx -> ax <= px /\ px <= bx)%Q
               /\ (bx <= ax -> bx <= px /\ px <= ax)%Q).
  { destruct (Qle_bool_spec ax bx); split; intros; split; lra. }
  clear Hx1 Hx2 Hy1 Hy2. destruct Hx as [Hx1 Hx2], Hy as [Hy1 Hy2].
  destruct (Qeq_bool by_ py && Qeq_bool ay py) eqn:E3.
  - (* a horizontal segment at the height of the point *)
    destruct (Qltb_spec ax bx) as [M|M].
    + destruct (Hx1 ltac:(lra)) as [L U].
      apply Qle_bool_iff in L, U. now rewrite L, U.
    + destruct (Hx2 ltac:(lra)) as [L U].
      apply Qle_bool_iff in L, U. now rewrite L, U.
  - assert (Hnh : ~ (by_ == py /\ ay == py)%Q).
    { intros [H1 H2]. apply Qeq_bool_iff in H1, H2. now rewrite H1, H2 in E3. }
    clear E3.
    destruct ((Qltb py by_ && Qle_bool ay py)
              || (Qltb py ay && Qle_bool by_ py)) eqn:E4.
    + (* the segment spans the height of the point *)
      match goal with
      | |- context [Qeq_bool ?o 0] =>
          destruct (Qeq_bool_spec o 0) as [F|F];
          [reflexivity|exfalso; apply F; unfold orientation; simpl; lra]
      end.
    + exfalso. apply orb_false_elim in E4. destruct E4 as [E4 E5].
      destruct (Q_dec ay by_) as [[Hlt|Hgt]|Heq].
      * destruct (Hy1 ltac:(lra)) as [L U].
        destruct (Qltb_spec py by_) as [D1|D1],
                 (Qle_bool_spec ay py) as [D2|D2];
          simpl in E4; try discriminate; try lra.
        assert (E : ((by_ - ay) * (bx - px) == 0)%Q) by nra.
        apply Qmult_integral in E. destruct E as [E|E]; [lra|].
        apply Hnb. split; lra.
      * destruct (Hy2 ltac:(lra)) as [L U].
        destruct (Qltb_spec py ay) as [D1|D1],
                 (Qle_bool_spec by_ py) as [D2|D2];
          simpl in E5; try discriminate; try lra.
        assert (E : ((by_ - ay) * (px - ax) == 0)%Q) by nra.
        apply Qmult_integral in E. destruct E as [E|E]; [lra|].
        apply Hna. split; lra.
      * destruct (Hy1 ltac:(lra)) as [L U].
        apply Hnh. split; lra.
Qed.

(** A segment counted from the end the point is equal to reports it. *)
Lemma count_segment_first_end (p a b : coord) (c : counter) :
  (fst p == fst a /\ snd p == snd a)%Q ->
  is_point_on_segment (count_segment p b a c) = true.
Proof.
  destruct p as [px py], a as [ax ay], b as [bx by_]. simpl.
  intros [Hx Hy]. unfold count_segment. simpl.
  assert (E1 : Qltb bx px && Qltb ax px = false).
  { destruct (Qltb_spec bx px), (Qltb_spec ax px); simpl; try reflexivity.
    exfalso. lra. }
  rewrite E1. apply Qeq_bool_iff in Hx, Hy. now rewrite Hx, Hy.
Qed.

Lemma count_ring_flags (p a b prev : coord) (rest : list coord) (c : counter) :
  consecutive a b (prev :: rest) ->
  (forall c', is_point_on_segment (count_segment p b a c') = true) ->
  is_point_on_segment (count_ring p prev rest c) = true.
Proof.
  revert prev c. induction rest as [|cur rest IH]; intros prev c Hc Hf.
  - destruct Hc as (before & after & E).
    destruct before as [|x [|y before]]; discriminate.
  - simpl.
    destruct (is_point_on_segment (count_segment p cur prev c)) eqn:E;
      [exact E|].
    apply IH; [|exact Hf].
    destruct Hc as (before & after & Hl).
    destruct before as [|x before]; simpl in Hl.
    + injection Hl as <- <- <-. now rewrite Hf in E.
    + injection Hl as <- Hl. now exists before, after.
Qed.

Lemma close_ring_closed (r : ring) (v0 : coord) (rest : list coord) :
  close_ring r = v0 :: rest ->
  coord_eqb v0 (last (v0 :: rest) v0) = true.
Proof.
  unfold close_ring. destruct r as [|v r]; [discriminate|].
  destruct (coord_eqb v (last (v :: r) v)) eqn:E; intros H.
  - injection H as <- <-. exact E.
  - assert (Hv : v0 = v) by (simpl in H; congruence). subst v0.
    rewrite <- H. rewrite last_last. apply coord_eqb_refl.
Qed.

(** Some segment of the closed ring reports a point of the ring. *)
Lemma on_ring_reported (p : coord) (r : ring) :
  on_ring p r ->
  exists a b, consecutive a b (close_ring r)
              /\ forall c, is_point_on_segment (count_segment p b a c) = true.
Proof.
  intros (a & b & Hc & Hs).
  destruct (coord_eqb p b) eqn:Epb.
  - unfold coord_eqb in Epb. apply andb_prop in Epb. destruct Epb as [Hx Hy].
    apply Qeq_bool_iff in Hx, Hy.
    destruct Hc as (before & after & Hl).
    destruct after as [|c' after].
    + (* [b] ends the ring, which starts where it ends *)
      destruct (close_ring r) as [|v0 rest] eqn:Er;
        [destruct before; discriminate|].
      pose proof (close_ring_closed r v0 rest Er) as Hclosed.
      rewrite Hl in Hclosed.
      replace (last (before ++ [a; b]) v0) with b in Hclosed
        by (change [a; b] with ([a] ++ [b])%list;
            now rewrite app_assoc, last_last).
      unfold coord_eqb in Hclosed. apply andb_prop in Hclosed.
      destruct Hclosed as [Hx' Hy']. apply Qeq_bool_iff in Hx', Hy'.
      assert (Hrest : exists v1 rest', rest = v1 :: rest').
      { destruct rest as [|v1 rest']; [|eauto].
        destruct before as [|x [|y before]]; discriminate. }
      destruct Hrest as (v1 & rest' & ->).
      exists v0, v1. split; [now exists [], rest'|].
      intros c. apply count_segment_first_end. split; lra.
    + exists b, c'. split.
      * exists (before ++ [a])%list, after. rewrite Hl, <- app_assoc.
        reflexivity.
      * intros c. apply count_segment_first_end. now split.
  - exists a, b. split; [exact Hc|].
    intros c. apply count_segment_flags; [exact Hs|].
    intros [Hx Hy]. unfold coord_eqb in Epb.
    apply Qeq_bool_iff in Hx, Hy. now rewrite Hx, Hy in Epb.
Qed.

(** A point of a ring is located on its boundary. *)
Lemma on_ring_located (p : coord) (r : ring) :
  on_ring p r -> locate_in_ring p r = Boundary.
Proof.
  intros H. destruct (on_ring_reported p r H) as (a & b & Hc & Hf).
  unfold locate_in_ring.
  destruct (close_ring r) as [|v0 rest] eqn:Er.
  - destruct Hc as (before & after & E). destruct before; discriminate.
  - unfold get_location.
    now rewrite (count_ring_flags p a b v0 rest _ Hc Hf).
Qed.

Lemma on_hole_located (p : coord) (holes : list ring) (hole : ring) :
  In hole holes -> on_ring p hole -> locate_in_holes p holes <> Interior.
Proof.
  intros Hin Hon. induction holes as [|h holes IH]; [contradiction|].
  simpl. destruct (locate_in_ring p h) eqn:E; try discriminate.
  destruct Hin as [-> | Hin]; [|now apply IH].
  rewrite (on_ring_located p hole Hon) in E. discriminate.
Qed.

(** A point of the boundary line of a polygon is not in its interior. *)
Lemma boundary_line_not_interior (p : coord) (part : ring * list ring) :
  on_boundary_line p part ->
  is_interior (locate_in_polygon p (fst part) (snd part)) = false.
Proof.
  intros [Hs | (hole & Hin & Hon)]; unfold locate_in_polygon.
  - now rewrite (on_ring_located p _ Hs).
  - destruct (locate_in_ring p (fst part)); try reflexivity.
    pose proof (on_hole_located p _ hole Hin Hon) as Hne.
    destruct (locate_in_holes p (snd part)); try reflexivity.
    contradiction.
Qed.

(** ** Boundary points *)

(** C10: against a boundary set of areas, every record with a point
    that the filter returns has the point located in the interior of a
    polygon of the boundary set, off the boundary line of that polygon;
    so a record whose point lies on the boundary line of every polygon it
    touches (being outside the others) is dropped. *)
Theorem boundary_points_are_dropped (w : World) (f c out : GeoDataFrame) :
  filter_firms_points_within_country_area w (AGeoDataFrame f) (AGeoDataFrame c)
  = Ok out ->
  Forall (fun v => exists a, v = VGeom a /\ area a)
         (column (frame c) geometry_column) ->
  (forall r x y,
     In r (rows (frame out)) ->
     cell_at (columns (frame out)) r geometry_column = VGeom (Point x y) ->
     (exists a part,
         In (VGeom a) (column (frame c) geometry_column)
         /\ In part (parts_of a)
         /\ locate_in_polygon (x, y) (fst part) (snd part) = Interior
         /\ ~ on_boundary_line (x, y) part)
     /\ ~ (forall a part,
             In (VGeom a) (column (frame c) geometry_column) ->
             In part (parts_of a) ->
             on_boundary_line (x, y) part
             \/ locate_in_polygon (x, y) (fst part) (snd part) = Exterior))
  /\ (same_crs w (crs f) (crs c) ->
      forall r x y,
        In r (rows (frame f)) ->
        cell_at (columns (frame f)) r geometry_column = VGeom (Point x y) ->
        (forall a part,
           In (VGeom a) (column (frame c) geometry_column) ->
           In part (parts_of a) ->
           on_boundary_line (x, y) part
           \/ locate_in_polygon (x, y) (fst part) (snd part) = Exterior) ->
        ~ In r (rows (frame out))).
Proof.
  intros H Hareas. apply filter_inv in H.
  destruct H as (_ & _ & _ & _ & src & Hsrc & Hcols & _ & Hrows).
  rewrite Forall_forall in Hareas.
  assert (Hkept : forall r x y,
             In r (rows (frame out)) ->
             cell_at (columns (frame src)) r geometry_column
             = VGeom (Point x y) ->
             exists a part,
               In (VGeom a) (column (frame c) geometry_column)
               /\ In part (parts_of a)
               /\ locate_in_polygon (x, y) (fst part) (snd part) = Interior
               /\ ~ on_boundary_line (x, y) part).
  { intros r x y Hr Hg. rewrite Hrows in Hr. apply filter_In in Hr.
    destruct Hr as [_ Hin].
    apply inside_some_spec in Hin. destruct Hin as (p & a & Hp & Ha & Hw).
    rewrite Hg in Hp. injection Hp as <-.
    destruct (Hareas _ Ha) as [a' [Ea Harea]]. injection Ea as <-.
    apply (within_point_area w x y a Harea) in Hw.
    destruct Hw as [part [Hpart Hloc]].
    exists a, part. repeat split; try assumption.
    intros Hb. apply boundary_line_not_interior in Hb.
    now rewrite Hloc in Hb. }
  split.
  - intros r x y Hr Hg. rewrite Hcols in Hg.
    destruct (Hkept r x y Hr Hg) as (a & part & Ha & Hpart & Hloc & Hnb).
    split; [now exists a, part|].
    intros Hall. destruct (Hall a part Ha Hpart) as [Hb | He].
    + contradiction.
    + rewrite Hloc in He. discriminate.
  - intros Hsame r x y _ Hg Hall Hr.
    apply crs_differ_spec in Hsame. rewrite Hsame in Hsrc.
    injection Hsrc as <-.
    destruct (Hkept r x y Hr Hg) as (a & part & Ha & Hpart & Hloc & Hnb).
    destruct (Hall a part Ha Hpart) as [Hb | He].
    + contradiction.
    + rewrite Hloc in He. discriminate.
Qed.

(** ** The cache *)

Section LruFacts.
Context {K V : Type}.
Variable K_eq_dec : forall a b : K, {a = b} + {a <> b}.
Variable maxsize : nat.
Variable user_function : K -> io V.

Lemma cache_get_None (k : K) (cache : list (K * V)) :
  cache_get K_eq_dec k cache = None <-> ~ In k (map fst cache).
Proof.
  induction cache as [|[k' v] cache IH]; simpl; [tauto|].
  destruct (K_eq_dec k k') as [->|Hne].
  - split; [discriminate|]. intros H. exfalso. apply H. now left.
  - rewrite IH. intuition congruence.
Qed.

Lemma cache_get_here (k : K) (v : V) (pre post : list (K * V)) :
  ~ In k (map fst pre) -> cache_get K_eq_dec k (pre ++ (k, v) :: post) = Some v.
Proof.
  induction pre as [|[k' v'] pre IH]; simpl; intros H.
  - now destruct (K_eq_dec k k).
  - destruct (K_eq_dec k k') as [->|Hne]; [exfalso; apply H; now left|].
    apply IH. tauto.
Qed.

Lemma remove_key_absent (k : K) (cache : list (K * V)) :
  ~ In k (map fst cache) -> cache_remove K_eq_dec k cache = cache.
Proof.
  induction cache as [|[k' v] cache IH]; simpl; intros H; [reflexivity|].
  destruct (K_eq_dec k k') as [->|Hne]; [exfalso; apply H; now left|].
  f_equal. apply IH. tauto.
Qed.

Lemma remove_key_app (k : K) (a b : list (K * V)) :
  cache_remove K_eq_dec k (a ++ b) = (cache_remove K_eq_dec k a ++ cache_remove K_eq_dec k b)%list.
Proof.
  induction a as [|[k' v] a IH]; simpl; [reflexivity|].
  destruct (K_eq_dec k k'); simpl; now rewrite IH.
Qed.

Lemma remove_key_keys (k : K) (cache : list (K * V)) :
  map fst (cache_remove K_eq_dec k cache) = remove K_eq_dec k (map fst cache).
Proof.
  induction cache as [|[k' v] cache IH]; simpl; [reflexivity|].
  destruct (K_eq_dec k k'); simpl; now rewrite IH.
Qed.

Lemma remove_key_length (k : K) (cache : list (K * V)) :
  In k (map fst cache) ->
  (S (List.length (cache_remove K_eq_dec k cache)) <= List.length cache)%nat.
Proof.
  induction cache as [|[k' v] cache IH]; simpl; [tauto|].
  intros H. destruct (K_eq_dec k k') as [->|Hne].
  - clear IH H. induction cache as [|[k'' v''] cache IH]; simpl; [lia|].
    destruct (K_eq_dec k' k''); simpl; lia.
  - simpl. destruct H as [H|H]; [congruence|]. apply IH in H. lia.
Qed.

Lemma NoDup_remove_keys (k : K) (l : list K) :
  NoDup l -> NoDup (remove K_eq_dec k l).
Proof.
  induction 1 as [|x l Hx Hl IH]; simpl; [constructor|].
  destruct (K_eq_dec k x); [exact IH|].
  constructor; [|exact IH]. intros Hin. apply in_remove in Hin. tauto.
Qed.

Lemma NoDup_snoc (l : list K) (k : K) :
  NoDup l -> ~ In k l -> NoDup (l ++ [k]).
Proof.
  intros Hl Hk. apply NoDup_app; [exact Hl|repeat constructor; auto|].
  intros x Hx [<-|[]]. contradiction.
Qed.

Lemma holds_get (k : K) (v : V) (T : list K) (cache : list (K * V)) :
  holds maxsize k v T cache -> cache_get K_eq_dec k cache = Some v.
Proof.
  intros [[Hnd _] (pre & post & -> & _)].
  apply cache_get_here. rewrite map_app in Hnd. simpl in Hnd.
  apply NoDup_remove_2 in Hnd. rewrite in_app_iff in Hnd. tauto.
Qed.

(** A call that returns leaves its key at the recent end. *)
Lemma call_Ok_holds (k : K) (v : V) (T : list K) (cache cache' : list (K * V))
      (rq rq' : list string) :
  (0 < maxsize)%nat -> cache_ok maxsize cache ->
  lru_call K_eq_dec maxsize user_function k cache rq = (Ok v, cache', rq') -> holds maxsize k v T cache'.
Proof.
  intros Hpos [Hnd Hlen]. unfold lru_call.
  destruct (cache_get K_eq_dec k cache) as [v0|] eqn:E.
  - intros H. injection H as <- <- <-.
    assert (Hin : In k (map fst cache)).
    { destruct (in_dec K_eq_dec k (map fst cache)) as [Hi|Hn]; [exact Hi|].
      apply cache_get_None in Hn. congruence. }
    split; [split|].
    + rewrite map_app, remove_key_keys. simpl. apply NoDup_snoc.
      * now apply NoDup_remove_keys.
      * apply remove_In.
    + rewrite length_app. simpl. pose proof (remove_key_length k cache Hin).
      lia.
    + exists (cache_remove K_eq_dec k cache), []. split; [reflexivity|].
      intros x [].
  - destruct (user_function k rq) as [[v0|e] rq0]; [|discriminate].
    intros H. injection H as <- <- <-.
    apply cache_get_None in E.
    set (kept := if (maxsize <=? List.length cache)%nat then tl cache
                 else cache).
    assert (Hk : incl kept cache
                 /\ NoDup (map fst kept)
                 /\ (S (List.length kept) <= maxsize)%nat).
    { unfold kept. destruct (Nat.leb_spec maxsize (List.length cache)).
      - destruct cache as [|x cache]; simpl in *; [lia|].
        repeat split; [intros y Hy; now right|now inversion Hnd|lia].
      - repeat split; [apply incl_refl|exact Hnd|lia]. }
    destruct Hk as (Hinc & Hnk & Hlk).
    split; [split|].
    + rewrite map_app. simpl. apply NoDup_snoc; [exact Hnk|].
      intros Hin. apply E. apply in_map_iff in Hin.
      destruct Hin as [x [Hx Hi]]. apply in_map_iff. exists x. auto.
    + rewrite length_app. simpl. lia.
    + exists kept, []. split; [reflexivity|]. intros x [].
Qed.

(** One more call, with the key itself or a key of [T], and with fewer
    than [maxsize] different keys in [T]: the entry is still there. *)
Lemma call_keeps (k k' : K) (v : V) (T : list K) (cache cache' : list (K * V))
      (rq rq' : list string) (r : result V) :
  holds maxsize k v T cache -> k' = k \/ In k' T ->
  (List.length (nodup K_eq_dec T) < maxsize)%nat ->
  lru_call K_eq_dec maxsize user_function k' cache rq = (r, cache', rq') -> holds maxsize k v T cache'.
Proof.
  intros Hh Hk' HT Hcall.
  pose proof (holds_get _ _ _ _ Hh) as Hget.
  destruct Hh as [[Hnd Hlen] (pre & post & -> & Hpost)].
  assert (Hkeys : ~ In k (map fst pre) /\ ~ In k (map fst post)).
  { rewrite map_app in Hnd. simpl in Hnd. apply NoDup_remove_2 in Hnd.
    rewrite in_app_iff in Hnd. tauto. }
  destruct Hkeys as [Hkpre Hkpost].
  destruct (K_eq_dec k' k) as [->|Hne].
  - (* the key itself: a hit *)
    apply (call_Ok_holds k v T (pre ++ (k, v) :: post)%list cache' rq rq');
      [lia|now split|].
    unfold lru_call in *. rewrite Hget in *. now injection Hcall as <- <- <-.
  - destruct Hk' as [Hk'|Hk']; [contradiction|].
    unfold lru_call in Hcall.
    destruct (cache_get K_eq_dec k' (pre ++ (k, v) :: post)) as [v'|] eqn:E.
    + (* another key, cached *)
      injection Hcall as <- <- <-.
      assert (Hin : In k' (map fst (pre ++ (k, v) :: post))).
      { destruct (in_dec K_eq_dec k' (map fst (pre ++ (k, v) :: post)))
          as [Hi|Hn]; [exact Hi|].
        apply cache_get_None in Hn. congruence. }
      split; [split|].
      * rewrite map_app, remove_key_keys. simpl. apply NoDup_snoc.
        -- now apply NoDup_remove_keys.
        -- apply remove_In.
      * rewrite length_app. simpl.
        pose proof (remove_key_length k' _ Hin). lia.
      * exists (cache_remove K_eq_dec k' pre), (cache_remove K_eq_dec k' post ++ [(k', v')])%list.
        split.
        -- rewrite remove_key_app. simpl.
           destruct (K_eq_dec k' k); [contradiction|].
           now rewrite <- app_assoc.
        -- rewrite map_app, remove_key_keys. simpl.
           intros x Hx. apply in_app_iff in Hx. destruct Hx as [Hx|[<-|[]]].
           ++ apply in_remove in Hx. apply Hpost. tauto.
           ++ exact Hk'.
    + (* another key, computed *)
      apply cache_get_None in E.
      destruct (user_function k' rq) as [[v'|e] rq0].
      * injection Hcall as <- <- <-.
        assert (Hfresh : ~ In k' (map fst post)).
        { intros Hi. apply E. rewrite map_app. simpl.
          apply in_app_iff. right. now right. }
        assert (Hroom : (S (List.length post) < maxsize)%nat).
        { assert (Hnp : NoDup (k' :: map fst post)).
          { constructor; [exact Hfresh|].
            rewrite map_app in Hnd. apply NoDup_app_remove_l in Hnd.
            now inversion Hnd. }
          assert (Hip : incl (k' :: map fst post) (nodup K_eq_dec T)).
          { intros x [<-|Hx]; apply nodup_In; auto. }
          pose proof (NoDup_incl_length Hnp Hip) as Hl. simpl in Hl.
          rewrite length_map in Hl. lia. }
        rewrite length_app in *. simpl in *.
        destruct (Nat.leb_spec maxsize (List.length pre + S (List.length post)))
          as [Hfull|Hfree].
        -- destruct pre as [|x pre]; simpl in *; [lia|].
           split; [split|].
           ++ rewrite map_app. simpl. apply NoDup_snoc.
              ** now inversion Hnd.
              ** intros Hi. apply E. now right.
           ++ rewrite !length_app. simpl. lia.
           ++ exists pre, (post ++ [(k', v')])%list. split.
              ** now rewrite <- app_assoc.
              ** rewrite map_app. simpl. intros y Hy.
                 apply in_app_iff in Hy. destruct Hy as [Hy|[<-|[]]]; auto.
        -- split; [split|].
           ++ rewrite map_app. simpl. apply NoDup_snoc; assumption.
           ++ rewrite !length_app. simpl. lia.
           ++ exists pre, (post ++ [(k', v')])%list. split.
              ** now rewrite <- app_assoc.
              ** rewrite map_app. simpl. intros y Hy.
                 apply in_app_iff in Hy. destruct Hy as [Hy|[<-|[]]]; auto.
      * injection Hcall as <- <- <-.
        split; [now split|]. now exists pre, post.
Qed.

Lemma calls_keep (k : K) (v : V) (T ks : list K) (cache cache' : list (K * V))
      (rq rq' : list string) :
  holds maxsize k v T cache -> (forall k', In k' ks -> k' = k \/ In k' T) ->
  (List.length (nodup K_eq_dec T) < maxsize)%nat ->
  lru_calls K_eq_dec maxsize user_function ks cache rq = (cache', rq') -> holds maxsize k v T cache'.
Proof.
  revert cache rq. induction ks as [|k' ks IH]; simpl; intros cache rq Hh Hks HT.
  - intros H. now injection H as <- <-.
  - destruct (lru_call K_eq_dec maxsize user_function k' cache rq) as [[r c1] rq1] eqn:E.
    apply IH; [|intros x Hx; apply Hks; now right|exact HT].
    eapply call_keeps; eauto.
Qed.

(** After a call that returned, a call with the same key after at most
    [maxsize - 1] other keys returns the same value without running the
    function. *)
Lemma cached_while_recent (k : K) (v : V) (ks : list K)
      (cache cache1 cache2 : list (K * V)) (rq rq1 rq2 : list string) :
  cache_ok maxsize cache ->
  lru_call K_eq_dec maxsize user_function k cache rq = (Ok v, cache1, rq1) ->
  lru_calls K_eq_dec maxsize user_function ks cache1 rq1 = (cache2, rq2) ->
  (List.length (nodup K_eq_dec (remove K_eq_dec k ks)) < maxsize)%nat ->
  exists cache3, lru_call K_eq_dec maxsize user_function k cache2 rq2 = (Ok v, cache3, rq2).
Proof.
  intros Hok Hcall Hcalls HT.
  assert (Hh : holds maxsize k v (remove K_eq_dec k ks) cache2).
  { eapply calls_keep; [|
      |exact HT|exact Hcalls].
    - eapply call_Ok_holds; [lia|exact Hok|exact Hcall].
    - intros k' Hk'. destruct (K_eq_dec k' k) as [->|Hne]; [now left|].
      right. now apply in_in_remove. }
  apply holds_get in Hh. unfold lru_call. rewrite Hh. eauto.
Qed.
End LruFacts.

Lemma wrapped_requests (w : World) (firms_urls rq rq' : list string)
      (gdf : GeoDataFrame) :
  convert_firms_urls_to_combined_gdf_wrapped w firms_urls rq = (Ok gdf, rq') ->
  rq' = (rq ++ firms_urls)%list.
Proof.
  unfold convert_firms_urls_to_combined_gdf_wrapped.
  destruct (negb (Nat.eqb (List.length firms_urls) 3)); [discriminate|].
  destruct (read_all w firms_urls [empty_frame] rq) as [[l|e] rq1] eqn:E;
    [|discriminate].
  apply read_all_inv in E. destruct E as (dfs & _ & _ & ->).
  intros H. now injection H as _ <-.
Qed.

(** ** Memoisation *)

(** C9, as the code has it: the cache holds 128 entries.  When a call
    returned a result (having requested each URL of the key once if the
    key was not cached), a later call with an equal key, made after calls
    with at most 127 other distinct keys, returns the same result and
    requests nothing. *)
Theorem combined_gdf_cached_while_recent (w : World) (k : list string)
        (v : GeoDataFrame) (ks : list (list string))
        (cache cache1 cache2 : list (list string * GeoDataFrame))
        (rq rq1 rq2 : list string) :
  cache_ok 128 cache ->
  convert_firms_urls_to_combined_gdf w k cache rq = (Ok v, cache1, rq1) ->
  lru_calls urls_eq_dec 128 (convert_firms_urls_to_combined_gdf_wrapped w)
            ks cache1 rq1 = (cache2, rq2) ->
  (List.length (nodup urls_eq_dec (remove urls_eq_dec k ks)) <= 127)%nat ->
  (cache_get urls_eq_dec k cache = None -> rq1 = (rq ++ k)%list)
  /\ (forall v0, cache_get urls_eq_dec k cache = Some v0 -> rq1 = rq)
  /\ exists cache3,
      convert_firms_urls_to_combined_gdf w k cache2 rq2 = (Ok v, cache3, rq2).
Proof.
  intros Hok Hcall Hcalls Hks. split; [|split].
  - intros Hmiss. unfold convert_firms_urls_to_combined_gdf, lru_call in Hcall.
    rewrite Hmiss in Hcall.
    destruct (convert_firms_urls_to_combined_gdf_wrapped w k rq)
      as [[g|e] rq0] eqn:E; [|discriminate].
    injection Hcall as _ _ <-. now apply wrapped_requests in E.
  - intros v0 Hhit. unfold convert_firms_urls_to_combined_gdf, lru_call in Hcall.
    rewrite Hhit in Hcall. now injection Hcall as _ _ <-.
  - unfold convert_firms_urls_to_combined_gdf in *.
    eapply cached_while_recent; eauto. lia.
Qed.

(** C9 as stated fails: after 129 calls with different keys the entry of
    the first key is gone, and a call with that key requests its URLs a
    second time. *)
Lemma evicted_key_is_requested_again :
  let w := sample_world 0 batch_numeric in
  let keys := map numbered_key (seq 0 129) in
  let state := lru_calls urls_eq_dec 128
                         (convert_firms_urls_to_combined_gdf_wrapped w)
                         keys [] [] in
  let again := convert_firms_urls_to_combined_gdf
                 w (numbered_key 0) (fst state) (snd state) in
  hd [] keys = numbered_key 0
  /\ count_occ string_dec (snd state) "0" = 1%nat
  /\ (exists gdf, fst (fst again) = Ok gdf)
  /\ count_occ string_dec (snd again) "0" = 2%nat.
Proof.
  cbv zeta. split; [reflexivity|].
  split; [vm_compute; reflexivity|].
  split; [eexists; vm_compute; reflexivity|].
  vm_compute. reflexivity.
Qed.

(** ** The theorems at sample data *)


Lemma filter_keeps_points_within_some_polygon_witness :
  (exists out,
      filter_firms_points_within_country_area
        (sample_world 0 batch_numeric) (AGeoDataFrame three_points)
        (AGeoDataFrame square_country) = Ok out
      /\ rows (frame out) = [point_inside])
  /\ (exists out,
        filter_firms_points_within_country_area
          world_with_shift (AGeoDataFrame shifted_points)
          (AGeoDataFrame square_country) = Ok out
        /\ crs out = Some "EPSG:4326"
        /\ rows (frame out)
           = [[VStr "inside"; VGeom (Point (1 # 2) (1 # 2))]]).
Proof.
  split.
  - destruct (filter_firms_points_within_country_area
                (sample_world 0 batch_numeric) (AGeoDataFrame three_points)
                (AGeoDataFrame square_country)) as [out|e] eqn:E;
      [|vm_compute in E; discriminate].
    exists out. split; [reflexivity|].
    destruct (filter_keeps_points_within_some_polygon _ _ _ _ E)
      as (src & Hsame & _ & _ & _ & _ & Hrows & _).
    rewrite Hrows, (Hsame eq_refl). reflexivity.
  - destruct (filter_firms_points_within_country_area
                world_with_shift (AGeoDataFrame shifted_points)
                (AGeoDataFrame square_country)) as [out|e] eqn:E;
      [|vm_compute in E; discriminate].
    exists out. split; [reflexivity|].
    destruct (filter_keeps_points_within_some_polygon _ _ _ _ E)
      as (src & _ & Hmoved & _ & _ & Hcrs & _).
    destruct (Hmoved "EPSG:3857" "EPSG:4326" eq_refl eq_refl eq_refl)
      as (Hdst & _ & _).
    split; [now rewrite Hcrs|].
    vm_compute in E. injection E as <-. reflexivity.
Defined.

Lemma filter_rejects_invalid_inputs_witness :
  exists e,
    filter_firms_points_within_country_area
      (sample_world 0 batch_numeric) (AGeoDataFrame no_points)
      (AGeoDataFrame square_country) = Raise e
    /\ ValidationError e.
Proof.
  destruct (filter_rejects_invalid_inputs (sample_world 0 batch_numeric)
                                          no_points square_country)
    as (_ & _ & _ & _ & H & _).
  apply H. now left.
Defined.

Lemma combined_gdf_cached_while_recent_witness :
  exists v cache1 rq1 cache3 rq2,
    convert_firms_urls_to_combined_gdf
      (sample_world 0 batch_numeric) (numbered_key 0) [] []
    = (Ok v, cache1, rq1)
    /\ rq1 = numbered_key 0
    /\ convert_firms_urls_to_combined_gdf
         (sample_world 0 batch_numeric) (numbered_key 0)
         (fst (lru_calls urls_eq_dec 128
                         (convert_firms_urls_to_combined_gdf_wrapped
                            (sample_world 0 batch_numeric))
                         [numbered_key 1; numbered_key 2] cache1 rq1))
         rq2
       = (Ok v, cache3, rq2).
Proof.
  destruct (convert_firms_urls_to_combined_gdf
              (sample_world 0 batch_numeric) (numbered_key 0) [] [])
    as [[[v|e] cache1] rq1] eqn:E; [|vm_compute in E; discriminate].
  destruct (lru_calls urls_eq_dec 128
                      (convert_firms_urls_to_combined_gdf_wrapped
                         (sample_world 0 batch_numeric))
                      [numbered_key 1; numbered_key 2] cache1 rq1)
    as [cache2 rq2] eqn:E2.
  assert (Hok : cache_ok 128 (@nil (list string * GeoDataFrame))).
  { split; [constructor|simpl; lia]. }
  assert (Hks : (List.length
                   (nodup urls_eq_dec
                          (remove urls_eq_dec (numbered_key 0)
                                  [numbered_key 1; numbered_key 2]))
                 <= 127)%nat).
  { vm_compute. lia. }
  destruct (combined_gdf_cached_while_recent _ _ _ _ _ _ _ _ _ _
                                             Hok E E2 Hks)
    as (Hmiss & _ & cache3 & Hhit).
  exists v, cache1, rq1, cache3, rq2. split; [reflexivity|].
  split; [exact (Hmiss eq_refl)|rewrite E2; exact Hhit].
Defined.

Lemma boundary_points_are_dropped_witness :
  exists out,
    filter_firms_points_within_country_area
      (sample_world 0 batch_numeric) (AGeoDataFrame three_points)
      (AGeoDataFrame square_country) = Ok out
    /\ In point_on_edge (rows (frame three_points))
    /\ ~ In point_on_edge (rows (frame out)).
Proof.
  destruct (filter_firms_points_within_country_area
              (sample_world 0 batch_numeric) (AGeoDataFrame three_points)
              (AGeoDataFrame square_country)) as [out|e] eqn:E;
    [|vm_compute in E; discriminate].
  exists out. split; [reflexivity|]. split; [simpl; tauto|].
  assert (Hareas : Forall (fun v => exists a, v = VGeom a /\ area a)
                          (column (frame square_country) geometry_column)).
  { constructor; [|constructor].
    exists (Polygon unit_square []). split; [reflexivity|exact I]. }
  apply (proj2 (boundary_points_are_dropped _ _ _ _ E Hareas) eq_refl
               point_on_edge 0%Q (1 # 2)%Q).
  - simpl. tauto.
  - reflexivity.
  - intros a part Ha Hpart. left.
    simpl in Ha. destruct Ha as [Ha|[]]. injection Ha as <-.
    simpl in Hpart. destruct Hpart as [<-|[]].
    left. exists (0, 1)%Q, (0, 0)%Q. split.
    + exists [(0, 0); (1, 0); (1, 1)]%Q, []. reflexivity.
    + unfold on_segment, orientation, Qmin2, Qmax2. simpl.
      repeat split; unfold Qeq, Qle; simpl; lia.
Defined.

(** * Further properties *)

(** ** URLs *)

(** X1: the key can be read off each feed URL: two keys with the same
    URL for a product are the same key, so two keys the builder accepts
    and answers with the same URLs are equal. *)
Theorem firms_urls_determine_key (k k' : string)
        (urls : string * string * string) :
  (forall product, firms_url k product = firms_url k' product -> k = k')
  /\ (create_firms_csv_urls k = Ok urls ->
      create_firms_csv_urls k' = Ok urls -> k = k').
Proof.
  assert (G : forall product,
             firms_url k product = firms_url k' product -> k = k').
  { intros product H. unfold firms_url in H.
    do 2 apply append_inj_l in H.
    now apply append_inj_r in H. }
  split; [exact G|].
  intros H H'. rewrite create_firms_csv_urls_spec in H, H'.
  destruct (hex32 k); [|discriminate].
  destruct (hex32 k'); [|discriminate].
  apply (G "MODIS_NRT"). congruence.
Qed.

Lemma firms_urls_determine_key_witness :
  create_firms_csv_urls upper_case_key
  = Ok (firms_url upper_case_key "MODIS_NRT",
        firms_url upper_case_key "VIIRS_NOAA20_NRT",
        firms_url upper_case_key "VIIRS_SNPP_NRT")
  /\ upper_case_key = upper_case_key.
Proof.
  split; [reflexivity|].
  apply (proj2 (firms_urls_determine_key
                  upper_case_key upper_case_key
                  (firms_url upper_case_key "MODIS_NRT",
                   firms_url upper_case_key "VIIRS_NOAA20_NRT",
                   firms_url upper_case_key "VIIRS_SNPP_NRT")));
    reflexivity.
Defined.

(** X2: the boundary search URL is the fixed endpoint with the country
    code as the query, followed by the four parameters in the order of the
    dictionary and the GeoJSON format; different codes give different
    URLs. *)
Theorem nominatim_url_of_country_code (c c' : string) :
  create_nominatim_search_url c
  = "https://nominatim.openstreetmap.org/search?q=" ++ c
    ++ "&featureType=country&namedetails=1&polygon_geojson=1&hierarchy=1&addresstype=country&format=geojson"
  /\ (create_nominatim_search_url c = create_nominatim_search_url c' ->
      c = c').
Proof.
  split; [reflexivity|].
  unfold create_nominatim_search_url. intros H.
  do 2 apply append_inj_l in H. now apply append_inj_r in H.
Qed.

(** ** Record normaliser: outcomes *)

Lemma has_column_assign_other (d : DataFrame) (c : string)
      (f : (string -> cell) -> cell) (c' : string) :
  String.eqb c' c = false ->
  has_column (assign d c f) c' = has_column d c'.
Proof.
  intros H. apply eq_true_iff_eq.
  rewrite !has_column_In, In_columns_assign.
  apply String.eqb_neq in H. tauto.
Qed.

Lemma missing_after_flag (data : DataFrame) :
  filter (fun col => negb (has_column
                             (assign data "high_confidence"
                                     (fun _ => VBool false)) col))
         required_columns
  = filter (fun col => negb (has_column data col)) required_columns.
Proof.
  apply filter_ext_in. intros c Hc.
  rewrite has_column_assign_other; [reflexivity|].
  simpl in Hc. decompose [or] Hc; subst; try reflexivity. contradiction.
Qed.

Lemma none_missing_all_present (data : DataFrame) :
  filter (fun col => negb (has_column data col)) required_columns = [] ->
  Forall (fun c => In c (columns data)) required_columns.
Proof.
  intros H. apply Forall_forall. intros c Hc.
  apply has_column_In.
  destruct (has_column data c) eqn:E; [reflexivity|].
  assert (Hin : In c (filter (fun col => negb (has_column data col))
                             required_columns)).
  { apply filter_In. split; [exact Hc|]. now rewrite E. }
  rewrite H in Hin. contradiction.
Qed.

(** X3: a batch without one of the four required columns is refused
    with an error that lists the missing ones, in the order confidence,
    acq_date, acq_time, satellite, whatever else the batch holds. *)
Theorem missing_required_columns_reported (w : World) (content : string)
        (data : DataFrame) :
  read_csv w content = Ok data ->
  filter (fun col => negb (has_column data col)) required_columns <> [] ->
  process_csv_data w content
  = Raise (ValueError
             ("Data processing error: Missing required columns in the CSV data: "
              ++ repr_list (filter (fun col => negb (has_column data col))
                                   required_columns))).
Proof.
  intros Hread Hmiss. unfold process_csv_data. rewrite Hread.
  unfold bind, normalize. cbv zeta. rewrite missing_after_flag.
  destruct (filter (fun col => negb (has_column data col)) required_columns)
    as [|c missing]; [contradiction|reflexivity].
Qed.

Lemma missing_required_columns_reported_witness :
  process_csv_data
    (sample_world 0 {| columns := ["latitude"; "acq_date"; "satellite"];
                       rows := [[VFloat 1; VStr "2024-01-01"; VStr "T"]] |})
    ""
  = Raise (ValueError
             "Data processing error: Missing required columns in the CSV data: ['confidence', 'acq_time']").
Proof.
  apply (missing_required_columns_reported
           (sample_world 0 {| columns := ["latitude"; "acq_date"; "satellite"];
                              rows := [[VFloat 1; VStr "2024-01-01";
                                        VStr "T"]] |})
           "" _ eq_refl).
  vm_compute. discriminate.
Defined.

(** X4: with the required columns there, the only way the normaliser
    fails is the timestamp of some row: the error is the conversion error
    and a row whose date and time do not parse exists.  Neither the rank
    nor its conversion to an integer ever fails. *)
Theorem normaliser_fails_only_on_timestamps (w : World) (content : string)
        (data : DataFrame) (e : exn) :
  read_csv w content = Ok data ->
  filter (fun col => negb (has_column data col)) required_columns = [] ->
  process_csv_data w content = Raise e ->
  e = ValueError "Data processing error: Error converting acquisition datetime"
  /\ exists r, In r (rows data)
               /\ row_datetime w (cell_at (columns data) r "acq_date")
                               (cell_at (columns data) r "acq_time") = NaN.
Proof.
  intros Hread Hmiss H.
  apply none_missing_all_present in Hmiss.
  unfold process_csv_data in H. rewrite Hread in H. simpl in H.
  destruct (existsb isnull
              (map (fun r => row_datetime w
                               (cell_at (columns data) r "acq_date")
                               (cell_at (columns data) r "acq_time"))
                   (rows data))) eqn:E.
  - split.
    + unfold normalize in H. cbv zeta in H.
      rewrite (required_columns_present data Hmiss) in H.
      rewrite column_acq_datetime, E in H. simpl in H. congruence.
    + apply existsb_exists in E. destruct E as [v [Hv Hn]].
      apply in_map_iff in Hv. destruct Hv as [r [<- Hr]].
      exists r. split; [exact Hr|].
      destruct (row_datetime w _ _); try discriminate. reflexivity.
  - exfalso.
    destruct (normalize_succeeds w data Hmiss) as [out Hout].
    + intros r Hr Hn.
      assert (Ht : existsb isnull
                     (map (fun r0 => row_datetime w
                                       (cell_at (columns data) r0 "acq_date")
                                       (cell_at (columns data) r0 "acq_time"))
                          (rows data)) = true).
      { apply existsb_exists. exists NaN. split; [|reflexivity].
        apply in_map_iff. exists r. now split. }
      congruence.
    + rewrite Hout in H. discriminate.
Qed.

Lemma normaliser_fails_only_on_timestamps_witness :
  process_csv_data (sample_world 0 batch_bad_month) ""
  = Raise (ValueError
             "Data processing error: Error converting acquisition datetime")
  /\ exists r, In r (rows batch_bad_month)
               /\ row_datetime (sample_world 0 batch_bad_month)
                               (cell_at (columns batch_bad_month) r "acq_date")
                               (cell_at (columns batch_bad_month) r "acq_time")
                  = NaN.
Proof.
  destruct (normaliser_fails_only_on_timestamps
              (sample_world 0 batch_bad_month) "" batch_bad_month
              (ValueError
                 "Data processing error: Error converting acquisition datetime")
              eq_refl eq_refl eq_refl) as [_ H].
  split; [reflexivity|exact H].
Defined.
(** ** Record normaliser: what it leaves alone *)

Ltac differs H :=
  match goal with
  | |- String.eqb ?c ?x = false =>
      destruct (String.eqb_spec c x) as [->|];
      [exfalso; apply H; simpl; tauto | reflexivity]
  end.

Lemma In_columns_rename_untouched (d : DataFrame)
      (mapping : list (string * string)) (c : string) :
  untouched mapping c = true ->
  In c (columns (rename d mapping)) <-> In c (columns d).
Proof.
  intros H. unfold rename. cbn [columns]. rewrite in_map_iff. split.
  - intros [c' [E Hin]].
    pose proof (renamed_untouched mapping c c' H) as R.
    rewrite E, String.eqb_refl in R. symmetry in R.
    apply String.eqb_eq in R. rewrite R. exact Hin.
  - intros Hin. exists c. split; [|exact Hin].
    pose proof (renamed_untouched mapping c c H) as R.
    rewrite String.eqb_refl in R. apply String.eqb_eq in R. now symmetry.
Qed.

Lemma In_columns_marked_input (data : DataFrame) (c : string) :
  String.eqb c "high_confidence" = false ->
  untouched modis_mapping c = true ->
  untouched viirs_mapping c = true ->
  In c (columns (mark_confidence (assign data "high_confidence"
                                         (fun _ => VBool false))))
  <-> In c (columns data).
Proof.
  intros Hc Hm Hv. apply String.eqb_neq in Hc. unfold mark_confidence.
  destruct (is_numeric_dtype _); [|destruct (is_string_dtype _)].
  - rewrite (In_columns_rename_untouched _ modis_mapping c Hm).
    rewrite In_columns_loc_set. tauto.
  - rewrite (In_columns_rename_untouched _ viirs_mapping c Hv).
    rewrite In_columns_loc_set. tauto.
  - rewrite In_columns_assign. tauto.
Qed.

(** X5: the normaliser leaves every column alone that it does not
    name: a column other than the flag, the four it rewrites or adds, and
    the six brightness labels has the same cells, row by row, before and
    after, and is a column of the result exactly when it was one of the
    batch. *)
Theorem normaliser_keeps_other_columns (w : World) (content : string)
        (data out : DataFrame) (c : string) :
  read_csv w content = Ok data ->
  process_csv_data w content = Ok out ->
  ~ In c ["high_confidence"; "acq_time"; "acq_datetime"; "days_ago";
          "satellite"; "confidence"; "brightness"; "bright_t31";
          "bright_ti4"; "bright_ti5"; "brightness_a"; "brightness_b"] ->
  column out c = column data c
  /\ (In c (columns out) <-> In c (columns data)).
Proof.
  intros Hread H Hc. unfold process_csv_data in H. rewrite Hread in H.
  unfold bind in H.
  destruct (normalize w data) as [out'|e] eqn:E; [|discriminate].
  injection H as <-. apply normalize_inv in E. cbv zeta in E.
  destruct E as (_ & _ & ->).
  assert (H1 : String.eqb c "high_confidence" = false) by differs Hc.
  assert (H2 : existsb (String.eqb c)
                       ["acq_time"; "acq_datetime"; "days_ago"; "satellite";
                        "confidence"] = false).
  { cbn [existsb].
    repeat (match goal with
            | |- (String.eqb ?a ?b || _)%bool = false =>
                replace (String.eqb a b) with false
                  by (symmetry; differs Hc);
                cbn [orb]
            end).
    reflexivity. }
  assert (H3 : untouched modis_mapping c = true).
  { unfold untouched, modis_mapping. cbn [forallb fst snd].
    replace (String.eqb c "brightness") with false by (symmetry; differs Hc).
    replace (String.eqb c "bright_t31") with false by (symmetry; differs Hc).
    replace (String.eqb c "brightness_a") with false by (symmetry; differs Hc).
    replace (String.eqb c "brightness_b") with false by (symmetry; differs Hc).
    reflexivity. }
  assert (H4 : untouched viirs_mapping c = true).
  { unfold untouched, viirs_mapping. cbn [forallb fst snd].
    replace (String.eqb c "bright_ti4") with false by (symmetry; differs Hc).
    replace (String.eqb c "bright_ti5") with false by (symmetry; differs Hc).
    replace (String.eqb c "brightness_a") with false by (symmetry; differs Hc).
    replace (String.eqb c "brightness_b") with false by (symmetry; differs Hc).
    reflexivity. }
  split.
  - rewrite column_later_stages by exact H2.
    now apply column_marked_input.
  - rewrite In_columns_later_stages.
    rewrite (In_columns_marked_input data c H1 H3 H4).
    split; [|tauto].
    intros [Hin|Hin]; [exact Hin|].
    exfalso. apply Hc. simpl in Hin. simpl. tauto.
Qed.

Lemma normaliser_keeps_other_columns_witness :
  exists out,
    process_csv_data (sample_world 0 batch_930) "" = Ok out
    /\ column out "latitude" = column batch_930 "latitude"
    /\ (In "latitude" (columns out) <-> In "latitude" (columns batch_930)).
Proof.
  destruct (process_csv_data (sample_world 0 batch_930) "") as [out|e] eqn:E;
    [|vm_compute in E; discriminate].
  exists out. split; [reflexivity|].
  apply (normaliser_keeps_other_columns
           (sample_world 0 batch_930) "" batch_930 out "latitude" eq_refl E).
  simpl. intuition discriminate.
Defined.
(** ** The expression of the format: what a match consumes *)

Lemma chars_app (a b : string) : chars (a ++ b) = (chars a ++ chars b)%list.
Proof.
  induction a as [|c a IH]; [reflexivity|].
  cbn [append]. unfold chars in *. cbn [list_ascii_of_string].
  now rewrite IH.
Qed.

Lemma match_classes_split (cs : list charclass) (s m r : list ascii) :
  match_classes cs s = Some (m, r) ->
  s = (m ++ r)%list /\ Forall2 (fun p c => p c = true) cs m.
Proof.
  revert s m r. induction cs as [|p cs IH]; intros s m r H.
  - injection H as <- <-. split; [reflexivity|constructor].
  - cbn [match_classes] in H. destruct s as [|c s]; [discriminate|].
    destruct (p c) eqn:Ep; [|discriminate].
    destruct (match_classes cs s) as [[m' r']|] eqn:E; [|discriminate].
    injection H as <- <-. destruct (IH _ _ _ E) as [-> HF].
    split; [reflexivity|now constructor].
Qed.

Lemma match_spaces_split (s m r : list ascii) :
  In (m, r) (match_spaces s) -> s = (m ++ r)%list.
Proof.
  revert m r. induction s as [|c s IH]; intros m r H; [contradiction|].
  cbn [match_spaces] in H. destruct (is_space c); [|contradiction].
  apply in_app_or in H. destruct H as [H|H].
  - apply in_map_iff in H. destruct H as [[m' r'] [E Hin]].
    injection E as <- <-. cbn [fst snd]. now rewrite (IH _ _ Hin).
  - destruct H as [H|[]]. now injection H as <- <-.
Qed.

Lemma token_matches_split (t : token) (s : list ascii) (cs : captures)
      (r : list ascii) :
  In (cs, r) (token_matches t s) -> exists m, s = (m ++ r)%list.
Proof.
  destruct t as [name| |c]; cbn [token_matches]; intros H.
  - apply in_flat_map in H. destruct H as [alt [_ H]].
    destruct (match_classes alt s) as [[m r']|] eqn:E; [|contradiction].
    destruct H as [H|[]]. injection H as _ <-.
    exists m. now apply match_classes_split in E.
  - apply in_map_iff in H. destruct H as [[m r'] [E Hin]].
    injection E as _ <-. exists m. now apply match_spaces_split.
  - destruct s as [|c' s]; [contradiction|].
    destruct (Ascii.eqb c c'); [|contradiction].
    destruct H as [H|[]]. injection H as _ <-. now exists [c'].
Qed.

(** A text matched to its end by an expression whose last token is the
    directive of the seconds ends in a digit. *)
Lemma seconds_end_in_digit (ts : list token) (s : list ascii)
      (cs : captures) :
  In (cs, []) (regex_matches (ts ++ [TDir "S"]) s) ->
  exists p c, s = (p ++ [c])%list /\ digit c = true.
Proof.
  revert s cs. induction ts as [|t ts IH]; intros s cs H.
  - cbn [app regex_matches] in H. apply in_flat_map in H.
    destruct H as [[cs1 r1] [H1 H2]]. cbn [fst snd] in H2.
    destruct H2 as [H2|[]]. injection H2 as _ ->.
    cbn [token_matches] in H1. apply in_flat_map in H1.
    destruct H1 as [alt [Halt H1]].
    destruct (match_classes alt s) as [[m r]|] eqn:E; [|contradiction].
    destruct H1 as [H1|[]]. injection H1 as _ ->.
    apply match_classes_split in E. destruct E as [-> HF].
    rewrite app_nil_r.
    assert (Hd : forall x, between 48 49 x = true \/ between 48 53 x = true
                           -> digit x = true).
    { intros x. unfold digit, between. intros [Hx|Hx];
        apply andb_true_iff in Hx; apply andb_true_iff; lia. }
    cbv [alternatives] in Halt.
    replace (Ascii.eqb "S" "Y") with false in Halt by reflexivity.
    replace (Ascii.eqb "S" "m") with false in Halt by reflexivity.
    replace (Ascii.eqb "S" "d") with false in Halt by reflexivity.
    replace (Ascii.eqb "S" "H") with false in Halt by reflexivity.
    replace (Ascii.eqb "S" "M") with false in Halt by reflexivity.
    replace (Ascii.eqb "S" "S") with true in Halt by reflexivity.
    destruct Halt as [<-|[<-|[<-|[]]]];
      repeat match goal with
             | H : Forall2 _ (_ :: _) _ |- _ => inversion H; subst; clear H
             | H : Forall2 _ [] _ |- _ => inversion H; subst; clear H
             end.
    + exists [y], y0. split; [reflexivity|]. apply Hd. now left.
    + exists [y], y0. split; [reflexivity|assumption].
    + exists [], y. split; [reflexivity|assumption].
  - cbn [app regex_matches] in H. apply in_flat_map in H.
    destruct H as [[cs1 r1] [H1 H2]]. cbn [fst snd] in H2.
    apply in_map_iff in H2. destruct H2 as [[cs2 r2] [E H2]].
    injection E as _ ->.
    destruct (IH _ _ H2) as [p [c [-> Hc]]].
    destruct (token_matches_split _ _ _ _ H1) as [m ->].
    exists (m ++ p)%list, c. split; [now rewrite app_assoc|exact Hc].
Qed.

(** A date and a time that parse are both strings: a missing date makes
    the sum missing, and a missing time is read as the text [nan]. *)
Lemma row_datetime_needs_text (w : World) (a b : cell) :
  row_datetime w a b <> NaN ->
  (exists s, a = VStr s) /\ (exists s, b = VStr s).
Proof.
  intros H.
  assert (Ha : exists s, a = VStr s).
  { destruct a; try (exfalso; apply H; reflexivity). now eexists. }
  split; [exact Ha|]. destruct Ha as [d ->].
  destruct b; try (now eexists); exfalso; apply H;
    unfold row_datetime, acq_text; cbn [str_pad astype_str];
    replace (str_zfill 4 (VStr "nan")) with (VStr "0nan") by reflexivity;
    cbn [str_add to_datetime_cell];
    (destruct (to_datetime DATETIME_FORMAT (Some ((d ++ " ") ++ "0nan")))
       as [stamp|] eqn:E; [|reflexivity]);
    exfalso; unfold to_datetime in E;
    (destruct (regex_matches (pattern (chars DATETIME_FORMAT))
                             (chars ((d ++ " ") ++ "0nan")))
       as [|[cs [|x0 rest0]] more0] eqn:Em; try discriminate);
    (assert (Hin : In (cs, [])
                      (regex_matches
                         ([TDir "Y"; TLit "-"; TDir "m"; TLit "-"; TDir "d";
                           TSpace; TDir "H"; TDir "M"] ++ [TDir "S"])
                         (chars ((d ++ " ") ++ "0nan"))))
      by (change ([TDir "Y"; TLit "-"; TDir "m"; TLit "-"; TDir "d";
                   TSpace; TDir "H"; TDir "M"] ++ [TDir "S"])%list
            with (pattern (chars DATETIME_FORMAT));
          rewrite Em; now left));
    apply seconds_end_in_digit in Hin; destruct Hin as [p [c [Hs Hc]]];
    rewrite chars_app in Hs;
    change (chars "0nan") with (["0"; "n"; "a"]%char ++ ["n"%char])%list in Hs;
    rewrite app_assoc in Hs; apply app_inj_tail in Hs;
    destruct Hs as [_ <-]; discriminate.
Qed.
(** ** Record normaliser: the columns of a normalised batch *)

Lemma length_text (l : list ascii) : String.length (text l) = List.length l.
Proof.
  induction l as [|c l IH]; [reflexivity|].
  unfold text in *. cbn. now rewrite IH.
Qed.

Lemma rjust_length (width : nat) (fillchar : ascii) (s : string) :
  (width <= String.length (rjust width fillchar s))%nat
  /\ (String.length s <= String.length (rjust width fillchar s))%nat.
Proof.
  unfold rjust. rewrite length_app_string, length_text, repeat_length. lia.
Qed.

Lemma normalize_rows_parse (w : World) (data out : DataFrame) :
  normalize w data = Ok out ->
  forall r, In r (rows data) ->
            row_datetime w (cell_at (columns data) r "acq_date")
                         (cell_at (columns data) r "acq_time") <> NaN.
Proof.
  intros H r Hr Hn. apply normalize_inv in H. cbv zeta in H.
  destruct H as (_ & Hnull & _). rewrite column_acq_datetime in Hnull.
  assert (Ht : existsb isnull
                 (map (fun r0 => row_datetime w
                                   (cell_at (columns data) r0 "acq_date")
                                   (cell_at (columns data) r0 "acq_time"))
                      (rows data)) = true).
  { apply existsb_exists. exists NaN. split; [|reflexivity].
    apply in_map_iff. exists r. now split. }
  congruence.
Qed.

Lemma normalize_fails_on_bad_row (w : World) (data : DataFrame)
      (r : list cell) :
  Forall (fun c => In c (columns data)) required_columns ->
  In r (rows data) ->
  row_datetime w (cell_at (columns data) r "acq_date")
               (cell_at (columns data) r "acq_time") = NaN ->
  normalize w data
  = Raise (ValueError "Error converting acquisition datetime").
Proof.
  intros Hreq Hr Hn. unfold normalize. cbv zeta.
  rewrite (required_columns_present data Hreq).
  rewrite column_acq_datetime.
  assert (E : existsb isnull
                (map (fun r0 => row_datetime w
                                  (cell_at (columns data) r0 "acq_date")
                                  (cell_at (columns data) r0 "acq_time"))
                     (rows data)) = true).
  { apply existsb_exists. exists NaN. split; [|reflexivity].
    apply in_map_iff. exists r. now split. }
  now rewrite E.
Qed.

Lemma normalize_acq_date (w : World) (data out : DataFrame) :
  normalize w data = Ok out ->
  column out "acq_date" = column data "acq_date".
Proof.
  intros H. apply normalize_inv in H. cbv zeta in H.
  destruct H as (_ & _ & ->).
  rewrite column_later_stages by reflexivity.
  now apply column_marked_input.
Qed.

Lemma normalize_acq_time (w : World) (data out : DataFrame) :
  normalize w data = Ok out ->
  column out "acq_time" = map (str_pad 4 "0") (column data "acq_time").
Proof.
  intros H. apply normalize_inv in H. cbv zeta in H.
  destruct H as (_ & _ & ->).
  unfold type_conversions, parse_acq_datetime.
  rewrite !column_assign_other by reflexivity.
  rewrite column_assign_same.
  rewrite <- (column_marked_input data "acq_time") by reflexivity.
  unfold column. now rewrite map_map.
Qed.

(** X6: a record whose date or whose time of acquisition is missing
    makes the whole batch fail with the conversion error: the missing
    time is not skipped but read as the text [0nan], which the format
    does not match. *)
Theorem missing_date_or_time_fails_batch (w : World) (content : string)
        (data : DataFrame) (r : list cell) :
  read_csv w content = Ok data ->
  Forall (fun c => In c (columns data)) required_columns ->
  In r (rows data) ->
  isnull (cell_at (columns data) r "acq_date") = true
  \/ isnull (cell_at (columns data) r "acq_time") = true ->
  process_csv_data w content
  = Raise (ValueError
             "Data processing error: Error converting acquisition datetime").
Proof.
  intros Hread Hreq Hr Hnull.
  unfold process_csv_data. rewrite Hread. unfold bind.
  rewrite (normalize_fails_on_bad_row w data r Hreq Hr); [reflexivity|].
  destruct (row_datetime w (cell_at (columns data) r "acq_date")
                         (cell_at (columns data) r "acq_time")) eqn:E;
    try reflexivity;
    (assert (Hne : row_datetime w (cell_at (columns data) r "acq_date")
                                (cell_at (columns data) r "acq_time") <> NaN)
      by (rewrite E; discriminate));
    apply row_datetime_needs_text in Hne;
    destruct Hne as [[s1 H1] [s2 H2]]; rewrite H1, H2 in Hnull;
    destruct Hnull; discriminate.
Qed.

Lemma missing_date_or_time_fails_batch_witness :
  process_csv_data
    (sample_world 0
       {| columns := modis_columns;
          rows := [modis_row 85;
                   [VFloat 1; VFloat 1; VFloat 300; VInt 1; VInt 1;
                    VStr "2024-01-01"; NaN; VStr "T"; VInt 90]] |}) ""
  = Raise (ValueError
             "Data processing error: Error converting acquisition datetime").
Proof.
  apply (missing_date_or_time_fails_batch
           (sample_world 0
              {| columns := modis_columns;
                 rows := [modis_row 85;
                          [VFloat 1; VFloat 1; VFloat 300; VInt 1; VInt 1;
                           VStr "2024-01-01"; NaN; VStr "T"; VInt 90]] |})
           "" _
           [VFloat 1; VFloat 1; VFloat 300; VInt 1; VInt 1;
            VStr "2024-01-01"; NaN; VStr "T"; VInt 90]
           eq_refl).
  - unfold required_columns.
    repeat (apply Forall_cons; [simpl; tauto|]). apply Forall_nil.
  - simpl. tauto.
  - right. reflexivity.
Defined.

(** X7: what every normalised batch holds: the seven columns the later
    stages read are there; the dates are the texts that were read; the
    times are those that were read, padded on the left with zeros to at
    least four characters; satellite and confidence are text; the flag is
    a boolean. *)
Theorem normalised_batch_columns (w : World) (content : string)
        (data out : DataFrame) :
  read_csv w content = Ok data ->
  process_csv_data w content = Ok out ->
  Forall (fun c => In c (columns out))
         ["high_confidence"; "confidence"; "acq_date"; "acq_time";
          "satellite"; "acq_datetime"; "days_ago"]
  /\ column out "acq_date" = column data "acq_date"
  /\ Forall (fun v => exists s, v = VStr s) (column out "acq_date")
  /\ Forall2 (fun v v' => exists s, v = VStr s
                                    /\ v' = VStr (rjust 4 "0" s)
                                    /\ (4 <= String.length (rjust 4 "0" s))%nat)
             (column data "acq_time") (column out "acq_time")
  /\ Forall (fun v => exists s, v = VStr s) (column out "satellite")
  /\ Forall (fun v => exists s, v = VStr s) (column out "confidence")
  /\ Forall (fun v => exists b, v = VBool b) (column out "high_confidence").
Proof.
  intros Hread H. unfold process_csv_data in H. rewrite Hread in H.
  unfold bind in H.
  destruct (normalize w data) as [out'|e] eqn:E; [|discriminate].
  injection H as ->.
  pose proof (normalize_rows_parse w data out E) as Hrows.
  pose proof (normalize_acq_date w data out E) as Hdate.
  pose proof (normalize_acq_time w data out E) as Htime.
  pose proof (normalize_classified w data out E) as Hclass.
  pose proof (normalize_inv w data out E) as Hinv. cbv zeta in Hinv.
  destruct Hinv as (Hmiss & _ & Hout).
  rewrite missing_after_flag in Hmiss.
  apply none_missing_all_present in Hmiss.
  repeat split.
  - assert (Hlater : forall c,
               In c ["acq_time"; "acq_datetime"; "days_ago"; "satellite";
                     "confidence"] -> In c (columns out)).
    { intros c Hc. rewrite Hout. apply In_columns_later_stages. now right. }
    assert (Hflag : In "high_confidence" (columns out)).
    { rewrite Hout. apply In_columns_later_stages. left.
      unfold mark_confidence.
      destruct (is_numeric_dtype _); [|destruct (is_string_dtype _)].
      - apply In_columns_rename_untouched; [reflexivity|].
        apply In_columns_loc_set. now right.
      - apply In_columns_rename_untouched; [reflexivity|].
        apply In_columns_loc_set. now right.
      - apply In_columns_assign. now right. }
    assert (Hd : In "acq_date" (columns out)).
    { rewrite Hout. apply In_columns_later_stages. left.
      apply In_columns_marked_input; try reflexivity.
      rewrite Forall_forall in Hmiss. apply Hmiss. simpl. tauto. }
    repeat (apply Forall_cons;
            [first [exact Hflag | exact Hd | apply Hlater; simpl; tauto]|]).
    apply Forall_nil.
  - exact Hdate.
  - rewrite Hdate. apply Forall_forall. intros v Hv.
    unfold column in Hv. apply in_map_iff in Hv. destruct Hv as [r [<- Hr]].
    exact (proj1 (row_datetime_needs_text w _ _ (Hrows r Hr))).
  - rewrite Htime. apply Forall2_map_r. intros v Hv.
    unfold column in Hv. apply in_map_iff in Hv. destruct Hv as [r [<- Hr]].
    destruct (proj2 (row_datetime_needs_text w _ _ (Hrows r Hr))) as [s Hs].
    exists s. rewrite Hs. repeat split. apply rjust_length.
  - rewrite Hout. unfold type_conversions.
    rewrite column_assign_other by reflexivity.
    rewrite column_assign_same. apply Forall_forall. intros v Hv.
    apply in_map_iff in Hv. destruct Hv as [r [<- _]]. now eexists.
  - rewrite Hout. unfold type_conversions.
    rewrite column_assign_same. apply Forall_forall. intros v Hv.
    apply in_map_iff in Hv. destruct Hv as [r [<- _]]. now eexists.
  - unfold classified in Hclass. cbv zeta in Hclass.
    destruct Hclass as (Hnum & Hstr & Hnone & _).
    destruct (is_numeric_dtype (column data "confidence")) eqn:En;
      [|destruct (is_string_dtype (column data "confidence")) eqn:Es].
    + destruct (Hnum eq_refl) as [-> _]. apply Forall_forall. intros v Hv.
      apply in_map_iff in Hv. destruct Hv as [x [<- _]]. now eexists.
    + destruct (Hstr eq_refl eq_refl) as [-> _]. apply Forall_forall.
      intros v Hv. apply in_map_iff in Hv. destruct Hv as [x [<- _]].
      now eexists.
    + destruct (Hnone eq_refl eq_refl) as [-> _]. apply Forall_forall.
      intros v Hv. apply in_map_iff in Hv. destruct Hv as [x [<- _]].
      now eexists.
Qed.

Lemma normalised_batch_columns_witness :
  exists out,
    process_csv_data (sample_world 0 batch_930) "" = Ok out
    /\ column out "acq_date" = column batch_930 "acq_date"
    /\ Forall (fun v => exists b, v = VBool b) (column out "high_confidence").
Proof.
  destruct (process_csv_data (sample_world 0 batch_930) "") as [out|e] eqn:E;
    [|vm_compute in E; discriminate].
  exists out. split; [reflexivity|].
  destruct (normalised_batch_columns (sample_world 0 batch_930) "" batch_930
                                     out eq_refl E)
    as (_ & Hd & _ & _ & _ & _ & Hf).
  split; [exact Hd|exact Hf].
Defined.
(** ** Recency rank: the order of dates *)

Lemma ascii_compare_lt_trans (a b c : ascii) :
  Ascii.compare a b = Lt -> Ascii.compare b c = Lt -> Ascii.compare a c = Lt.
Proof.
  unfold Ascii.compare. rewrite !N.compare_lt_iff. lia.
Qed.

Lemma ascii_compare_refl (a : ascii) : Ascii.compare a a = Eq.
Proof.
  unfold Ascii.compare. apply N.compare_refl.
Qed.

Lemma string_compare_refl (a : string) : String.compare a a = Eq.
Proof.
  induction a as [|x a IH]; [reflexivity|].
  cbn [String.compare]. now rewrite ascii_compare_refl.
Qed.

Lemma string_compare_lt_trans (a b c : string) :
  String.compare a b = Lt -> String.compare b c = Lt ->
  String.compare a c = Lt.
Proof.
  revert b c. induction a as [|x a IH]; intros [|y b] [|z c];
    cbn [String.compare]; try discriminate; try reflexivity.
  destruct (Ascii.compare x y) eqn:Exy; try discriminate;
    destruct (Ascii.compare y z) eqn:Eyz; try discriminate; intros H1 H2.
  - apply Ascii.compare_eq_iff in Exy, Eyz. subst.
    rewrite ascii_compare_refl. now apply (IH b c).
  - apply Ascii.compare_eq_iff in Exy. subst. now rewrite Eyz.
  - apply Ascii.compare_eq_iff in Eyz. subst. now rewrite Exy.
  - now rewrite (ascii_compare_lt_trans x y z Exy Eyz).
Qed.

Lemma string_ltb_trans (a b c : string) :
  String.ltb a b = true -> String.ltb b c = true -> String.ltb a c = true.
Proof.
  unfold String.ltb.
  destruct (String.compare a b) eqn:E1; try discriminate.
  destruct (String.compare b c) eqn:E2; try discriminate.
  now rewrite (string_compare_lt_trans a b c E1 E2).
Qed.

Lemma string_ltb_irrefl (a : string) : String.ltb a a = false.
Proof.
  unfold String.ltb.
  now rewrite string_compare_refl.
Qed.

Lemma VInt_inj (a b : Z) : VInt a = VInt b -> a = b.
Proof.
  intros H. now injection H.
Qed.

Lemma cell_eqb_str (v : cell) (s : string) :
  cell_eqb v (VStr s) = true -> v = VStr s.
Proof.
  destruct v; simpl; try discriminate.
  intros H. apply String.eqb_eq in H. now subst.
Qed.

Lemma In_distinct (vs : list cell) (s : string) :
  In (VStr s) (distinct vs) <-> In (VStr s) vs.
Proof.
  induction vs as [|v vs IH]; [reflexivity|].
  cbn [distinct]. split.
  - intros [->|H]; [now left|].
    apply filter_In in H. right. now apply IH.
  - intros [->|H]; [now left|].
    destruct (cell_eqb v (VStr s)) eqn:E.
    + left. now apply cell_eqb_str.
    + right. apply filter_In. split; [now apply IH|now rewrite E].
Qed.

Lemma filter_length_le_pointwise {A : Type} (p q : A -> bool) (l : list A) :
  (forall x, In x l -> p x = true -> q x = true) ->
  (List.length (filter p l) <= List.length (filter q l))%nat.
Proof.
  induction l as [|a l IH]; intros H; [reflexivity|].
  cbn [filter].
  assert (IH' := IH (fun x Hx => H x (or_intror Hx))).
  destruct (p a) eqn:Ep.
  - rewrite (H a (or_introl eq_refl) Ep). simpl. lia.
  - destruct (q a); simpl; lia.
Qed.

Lemma filter_length_lt_pointwise {A : Type} (p q : A -> bool) (l : list A)
      (a : A) :
  (forall x, In x l -> p x = true -> q x = true) ->
  In a l -> p a = false -> q a = true ->
  (List.length (filter p l) < List.length (filter q l))%nat.
Proof.
  induction l as [|b l IH]; intros H Hin Hp Hq; [contradiction|].
  cbn [filter].
  assert (Hle := filter_length_le_pointwise p q l
                   (fun x Hx => H x (or_intror Hx))).
  destruct Hin as [->|Hin].
  - rewrite Hp, Hq. simpl. lia.
  - assert (IH' := IH (fun x Hx => H x (or_intror Hx)) Hin Hp Hq).
    destruct (p b) eqn:Ep.
    + rewrite (H b (or_introl eq_refl) Ep). simpl. lia.
    + destruct (q b); simpl; lia.
Qed.

Lemma filter_length_lt_total {A : Type} (p : A -> bool) (l : list A) (a : A) :
  In a l -> p a = false -> (List.length (filter p l) < List.length l)%nat.
Proof.
  induction l as [|b l IH]; intros Hin Hp; [contradiction|].
  cbn [filter]. pose proof (filter_length_le p l) as Hle.
  destruct Hin as [->|Hin].
  - rewrite Hp. simpl. lia.
  - specialize (IH Hin Hp). destruct (p b); simpl; lia.
Qed.

(** The rank of a date of the column: between one and the number of
    distinct dates, one exactly for the latest date, and smaller for a
    later date. *)
Lemma rank_bounds (vs : list cell) (s : string) :
  In (VStr s) vs ->
  exists z, dense_rank_desc vs (VStr s) = VInt z
            /\ 1 <= z <= Z.of_nat (List.length (distinct vs)).
Proof.
  intros Hin. unfold dense_rank_desc. eexists. split; [reflexivity|].
  pose proof (filter_length_lt_total (str_ltb (VStr s)) (distinct vs)
                                     (VStr s)
                                     (proj2 (In_distinct vs s) Hin)
                                     (string_ltb_irrefl s)).
  lia.
Qed.

Lemma rank_one_iff (vs : list cell) (s : string) :
  dense_rank_desc vs (VStr s) = VInt 1
  <-> forall s', In (VStr s') vs -> String.ltb s s' = false.
Proof.
  unfold dense_rank_desc. split.
  - intros H s' Hin. apply VInt_inj in H.
    destruct (String.ltb s s') eqn:E; [|reflexivity]. exfalso.
    assert (Hf : In (VStr s') (filter (str_ltb (VStr s)) (distinct vs))).
    { apply filter_In. split; [now apply In_distinct|exact E]. }
    destruct (filter (str_ltb (VStr s)) (distinct vs));
      [contradiction|cbn [List.length] in H; lia].
  - intros H.
    assert (E : filter (str_ltb (VStr s)) (distinct vs) = []).
    { destruct (filter (str_ltb (VStr s)) (distinct vs)) as [|v l] eqn:E;
        [reflexivity|]. exfalso.
      assert (Hv : In v (filter (str_ltb (VStr s)) (distinct vs)))
        by (rewrite E; now left).
      apply filter_In in Hv. destruct Hv as [Hv Hlt].
      destruct v; try discriminate.
      apply (proj1 (In_distinct vs _)) in Hv. simpl in Hlt. rewrite (H _ Hv) in Hlt.
      discriminate. }
    now rewrite E.
Qed.

Lemma rank_antitone (vs : list cell) (a b : string) (za zb : Z) :
  In (VStr b) vs ->
  String.ltb a b = true ->
  dense_rank_desc vs (VStr a) = VInt za ->
  dense_rank_desc vs (VStr b) = VInt zb ->
  zb < za.
Proof.
  intros Hin Hlt Ha Hb. unfold dense_rank_desc in *.
  apply VInt_inj in Ha, Hb.
  pose proof (filter_length_lt_pointwise
                (str_ltb (VStr b)) (str_ltb (VStr a)) (distinct vs) (VStr b))
    as H.
  assert (H' : (List.length (filter (str_ltb (VStr b)) (distinct vs))
                < List.length (filter (str_ltb (VStr a)) (distinct vs)))%nat).
  { apply H.
    - intros x _ Hx. destruct x; try discriminate. simpl in *.
      now apply (string_ltb_trans a b s).
    - now apply In_distinct.
    - apply string_ltb_irrefl.
    - exact Hlt. }
  lia.
Qed.

Lemma In_rows_assign (d : DataFrame) (c : string)
      (f : (string -> cell) -> cell) (r' : list cell) :
  In r' (rows (assign d c f)) ->
  exists r, In r (rows d)
            /\ forall c', cell_at (columns (assign d c f)) r' c'
                          = if String.eqb c' c then f (cell_at (columns d) r)
                            else cell_at (columns d) r c'.
Proof.
  unfold assign. cbn [rows columns]. intros H.
  apply in_map_iff in H. destruct H as [r [<- Hr]].
  exists r. split; [exact Hr|]. intros c'. apply cell_at_assign.
Qed.

(** In a normalised batch the rank of a record is the rank of its own
    date among the dates of the batch. *)
Lemma normalize_row_rank (w : World) (data out : DataFrame) (r : list cell) :
  normalize w data = Ok out ->
  In r (rows out) ->
  cell_at (columns out) r "days_ago"
  = dense_rank_desc (column out "acq_date")
                    (cell_at (columns out) r "acq_date").
Proof.
  intros H Hr. rewrite (normalize_acq_date w data out H).
  pose proof (normalize_inv w data out H) as Hinv. cbv zeta in Hinv.
  destruct Hinv as (_ & _ & Hout).
  set (d3 := parse_acq_datetime
               (mark_confidence (assign data "high_confidence"
                                        (fun _ => VBool false))) w) in *.
  assert (Hd : column d3 "acq_date" = column data "acq_date").
  { unfold d3, parse_acq_datetime.
    rewrite !column_assign_other by reflexivity.
    now apply column_marked_input. }
  rewrite Hd in Hout. subst out. unfold type_conversions in *.
  apply In_rows_assign in Hr. destruct Hr as [r1 [Hr1 E1]].
  apply In_rows_assign in Hr1. destruct Hr1 as [r2 [Hr2 E2]].
  apply In_rows_assign in Hr2. destruct Hr2 as [r3 [Hr3 E3]].
  rewrite !E1. cbn [String.eqb Ascii.eqb Bool.eqb].
  rewrite !E2. cbn [String.eqb Ascii.eqb Bool.eqb].
  rewrite !E3. cbn [String.eqb Ascii.eqb Bool.eqb].
  reflexivity.
Qed.

(** X8: the recency rank orders the records of a normalised batch by
    date: every record has a text date and an integer rank between one
    and the number of distinct dates of the batch; the rank is one exactly
    for the records of the latest date; of two records the one with the
    later date has the strictly smaller rank, and records of the same date
    have the same rank. *)
Theorem days_ago_orders_dates (w : World) (content : string)
        (data out : DataFrame) (r : list cell) :
  read_csv w content = Ok data ->
  process_csv_data w content = Ok out ->
  In r (rows out) ->
  exists s z,
    cell_at (columns out) r "acq_date" = VStr s
    /\ cell_at (columns out) r "days_ago" = VInt z
    /\ 1 <= z <= Z.of_nat (List.length (distinct (column out "acq_date")))
    /\ (z = 1 <-> forall s', In (VStr s') (column out "acq_date") ->
                             String.ltb s s' = false)
    /\ forall r' s' z',
        In r' (rows out) ->
        cell_at (columns out) r' "acq_date" = VStr s' ->
        cell_at (columns out) r' "days_ago" = VInt z' ->
        (String.ltb s s' = true -> z' < z) /\ (s = s' -> z' = z).
Proof.
  intros Hread H Hr. unfold process_csv_data in H. rewrite Hread in H.
  unfold bind in H.
  destruct (normalize w data) as [out'|e] eqn:E; [|discriminate].
  injection H as ->.
  pose proof (normalize_rows_parse w data out E) as Hrows.
  pose proof (normalize_acq_date w data out E) as Hdate.
  assert (Hin : forall x, In x (rows out) ->
                          In (cell_at (columns out) x "acq_date")
                             (column out "acq_date")).
  { intros x Hx. unfold column. apply in_map_iff. now exists x. }
  assert (Htext : forall v, In v (column out "acq_date") ->
                            exists s, v = VStr s).
  { intros v Hv. rewrite Hdate in Hv. unfold column in Hv.
    apply in_map_iff in Hv. destruct Hv as [x [<- Hx]].
    exact (proj1 (row_datetime_needs_text w _ _ (Hrows x Hx))). }
  destruct (Htext _ (Hin r Hr)) as [s Hs].
  pose proof (normalize_row_rank w data out r E Hr) as Hrank.
  rewrite Hs in Hrank.
  assert (Hsin : In (VStr s) (column out "acq_date"))
    by (rewrite <- Hs; now apply Hin).
  destruct (rank_bounds _ s Hsin) as [z [Hz Hb]].
  exists s, z. split; [exact Hs|]. split; [congruence|].
  split; [exact Hb|]. split.
  - rewrite <- rank_one_iff. rewrite Hz. split; congruence.
  - intros r' s' z' Hr' Hs' Hz'.
    pose proof (normalize_row_rank w data out r' E Hr') as Hrank'.
    rewrite Hs', Hz' in Hrank'. split.
    + intros Hlt. apply (rank_antitone (column out "acq_date") s s' z z').
      * rewrite <- Hs'. now apply Hin.
      * exact Hlt.
      * exact Hz.
      * now symmetry.
    + intros <-. congruence.
Qed.

Lemma days_ago_orders_dates_witness :
  exists out r s z,
    process_csv_data (sample_world 0 batch_two_days) "" = Ok out
    /\ In r (rows out)
    /\ cell_at (columns out) r "acq_date" = VStr s
    /\ cell_at (columns out) r "days_ago" = VInt z
    /\ 1 <= z <= Z.of_nat (List.length (distinct (column out "acq_date"))).
Proof.
  destruct (process_csv_data (sample_world 0 batch_two_days) "")
    as [out|e] eqn:E; [|vm_compute in E; discriminate].
  destruct (rows out) as [|r l] eqn:Er;
    [vm_compute in E; injection E as <-; discriminate|].
  assert (Hr : In r (rows out)) by (rewrite Er; now left).
  destruct (days_ago_orders_dates (sample_world 0 batch_two_days) ""
                                  batch_two_days out r eq_refl E Hr)
    as (s & z & Hs & Hz & Hb & _).
  exists out, r, s, z. rewrite Er.
  split; [reflexivity|]. split; [now left|].
  split; [exact Hs|]. split; [exact Hz|exact Hb].
Defined.
(** ** Reading the feeds: requests and failures *)

Lemma read_firm_csv_log (w : World) (url : string) (rq : list string) :
  read_firm_csv w url rq
  = (fst (read_firm_csv w url []), (rq ++ [url])%list).
Proof.
  reflexivity.
Qed.

(** X9: reading one feed sends exactly one request, to the URL of the
    feed, whatever comes of it; it returns a batch exactly when the
    response came and was normalised; and whatever fails (the request, the
    parsing, a missing column, a date) the caller sees the same error,
    which names the URL and nothing of the cause. *)
Theorem read_firm_csv_one_request_one_error (w : World) (url : string)
        (rq : list string) :
  snd (read_firm_csv w url rq) = (rq ++ [url])%list
  /\ (forall df,
        fst (read_firm_csv w url rq) = Ok df
        <-> exists content,
              http_get w url = Ok content
              /\ process_csv_data w content = Ok df)
  /\ (forall e,
        fst (read_firm_csv w url rq) = Raise e ->
        e = ValueError ("Failed to read and process CSV from '" ++ url ++ "'")).
Proof.
  unfold read_firm_csv, fetch_firms_csv_content. cbn [fst snd].
  split; [reflexivity|]. split.
  - intros df. destruct (http_get w url) as [content|e].
    + cbn [bind]. destruct (process_csv_data w content) as [d|e] eqn:E.
      * split.
        -- intros H. injection H as <-. now exists content.
        -- intros [c [Hc Hd]]. injection Hc as <-. congruence.
      * split; [discriminate|].
        intros [c [Hc Hd]]. injection Hc as <-. congruence.
    + split; [destruct e; discriminate|]. intros [c [Hc _]]. discriminate.
  - intros e. destruct (bind _ _); [discriminate|].
    intros H. now injection H as <-.
Qed.

Lemma read_firm_csv_one_request_one_error_witness :
  snd (read_firm_csv (world_with_feed_down "viirs" batch_numeric) "viirs"
                     ["modis"])
  = ["modis"; "viirs"]
  /\ fst (read_firm_csv (world_with_feed_down "viirs" batch_numeric) "viirs"
                        ["modis"])
     = Raise (ValueError "Failed to read and process CSV from 'viirs'").
Proof.
  destruct (read_firm_csv_one_request_one_error
              (world_with_feed_down "viirs" batch_numeric) "viirs" ["modis"])
    as (Hlog & _ & Herr).
  split; [exact Hlog|].
  destruct (fst (read_firm_csv (world_with_feed_down "viirs" batch_numeric)
                               "viirs" ["modis"])) as [df|e] eqn:E;
    [vm_compute in E; discriminate|].
  now rewrite (Herr e eq_refl).
Defined.

Lemma read_firm_csv_error (w : World) (url : string) (e : exn) :
  fst (read_firm_csv w url []) = Raise e ->
  e = ValueError ("Failed to read and process CSV from '" ++ url ++ "'").
Proof.
  unfold read_firm_csv, fetch_firms_csv_content. cbn [fst].
  destruct (bind _ _); [discriminate|].
  intros H. now injection H as <-.
Qed.

Lemma read_all_log (w : World) (urls : list string) :
  forall (acc : list DataFrame) (rq : list string),
    read_all w urls acc rq
    = (fst (read_all w urls acc []),
       (rq ++ snd (read_all w urls acc []))%list).
Proof.
  induction urls as [|u urls IH]; intros acc rq.
  - cbn [read_all fst snd]. now rewrite app_nil_r.
  - cbn [read_all].
    pose proof (read_firm_csv_log w u rq) as E1.
    pose proof (read_firm_csv_log w u []) as E2.
    destruct (fst (read_firm_csv w u [])) as [df|e]; rewrite E1, E2.
    + rewrite (IH (acc ++ [df])%list (rq ++ [u])%list).
      rewrite (IH (acc ++ [df])%list ([] ++ [u])%list).
      cbn [fst snd app]. now rewrite <- app_assoc.
    + reflexivity.
Qed.

Lemma read_all_ok (w : World) (urls : list string) (dfs : list DataFrame) :
  Forall2 (fun u df => fst (read_firm_csv w u []) = Ok df) urls dfs ->
  forall acc rq,
    read_all w urls acc rq = (Ok (acc ++ dfs)%list, (rq ++ urls)%list).
Proof.
  induction 1 as [|u df urls dfs Hu _ IH]; intros acc rq.
  - cbn [read_all]. now rewrite !app_nil_r.
  - cbn [read_all]. rewrite (read_firm_csv_log w u rq), Hu. cbv beta iota.
    rewrite IH. now rewrite <- !app_assoc.
Qed.

Lemma read_all_fail (w : World) (pre : list string) (url : string)
      (post : list string) (e : exn) :
  Forall (fun u => exists df, fst (read_firm_csv w u []) = Ok df) pre ->
  fst (read_firm_csv w url []) = Raise e ->
  forall acc rq,
    read_all w (pre ++ url :: post) acc rq
    = (Raise e, (rq ++ pre ++ [url])%list).
Proof.
  intros Hpre Hurl. induction Hpre as [|u pre [df Hu] _ IH]; intros acc rq.
  - cbn [app read_all]. now rewrite (read_firm_csv_log w url rq), Hurl.
  - cbn [app read_all]. rewrite (read_firm_csv_log w u rq), Hu.
    cbv beta iota. rewrite IH. now rewrite <- !app_assoc.
Qed.

(** X10: the combiner stops at the first feed that cannot be read: the
    feeds before it were requested once each, in order, the failing feed
    was requested, the feeds after it are not requested at all, and the
    error is the one of the failing feed. *)
Theorem combiner_stops_at_first_failing_feed (w : World)
        (pre : list string) (url : string) (post rq : list string)
        (e : exn) :
  List.length (pre ++ url :: post) = 3%nat ->
  Forall (fun u => exists df, fst (read_firm_csv w u []) = Ok df) pre ->
  fst (read_firm_csv w url []) = Raise e ->
  convert_firms_urls_to_combined_gdf_wrapped w (pre ++ url :: post) rq
  = (Raise (ValueError
              ("Failed to read and process CSV from '" ++ url ++ "'")),
     (rq ++ pre ++ [url])%list).
Proof.
  intros Hlen Hpre Hurl.
  unfold convert_firms_urls_to_combined_gdf_wrapped.
  rewrite Hlen. cbn [Nat.eqb negb].
  rewrite (read_all_fail w pre url post e Hpre Hurl).
  now rewrite (read_firm_csv_error w url e Hurl).
Qed.

(** ** The combiner: its two column checks *)

Lemma feed_has_normalised_columns (w : World) (u : string) (df : DataFrame)
      (c : string) :
  fst (read_firm_csv w u []) = Ok df ->
  In c ["high_confidence"; "acq_datetime"; "confidence"] ->
  In c (columns df).
Proof.
  unfold read_firm_csv, fetch_firms_csv_content. cbn [fst].
  destruct (http_get w u) as [content|e]; [|destruct e; discriminate].
  cbn [bind]. unfold process_csv_data.
  destruct (read_csv w content) as [data|e]; [|discriminate]. cbn [bind].
  destruct (normalize w data) as [out|e] eqn:E; [|discriminate].
  intros H Hc. injection H as <-.
  apply normalize_inv in E. cbv zeta in E. destruct E as (_ & _ & ->).
  apply In_columns_later_stages.
  simpl in Hc. destruct Hc as [<-|[<-|[<-|[]]]].
  - left. unfold mark_confidence.
    destruct (is_numeric_dtype _); [|destruct (is_string_dtype _)].
    + apply In_columns_rename_untouched; [reflexivity|].
      apply In_columns_loc_set. now right.
    + apply In_columns_rename_untouched; [reflexivity|].
      apply In_columns_loc_set. now right.
    + apply In_columns_assign. now right.
  - right. simpl. tauto.
  - right. simpl. tauto.
Qed.

Lemma filter_none {A : Type} (p : A -> bool) (l : list A) :
  (forall x, In x l -> p x = false) -> filter p l = [].
Proof.
  induction l as [|a l IH]; intros H; [reflexivity|].
  cbn [filter]. rewrite (H a (or_introl eq_refl)).
  apply IH. intros x Hx. apply H. now right.
Qed.

Lemma has_column_concat (dfs : list DataFrame) (c : string) :
  has_column (concat_frames dfs) c = existsb (fun d => has_column d c) dfs.
Proof.
  apply eq_true_iff_eq. rewrite has_column_In, In_columns_concat.
  rewrite existsb_exists. split; intros [d [Hd Hc]]; exists d;
    (split; [exact Hd|]); now apply has_column_In.
Qed.

(** The frames of feeds that were read, none of which repeats a label,
    are concatenated after the empty frame. *)
Lemma wrapped_of_read_feeds (w : World) (urls rq : list string)
      (dfs : list DataFrame) :
  List.length urls = 3%nat ->
  Forall2 (fun u df => fst (read_firm_csv w u []) = Ok df) urls dfs ->
  Forall (fun d => NoDup (columns d)) dfs ->
  convert_firms_urls_to_combined_gdf_wrapped w urls rq
  = (export_gdf w (concat_frames (empty_frame :: dfs)), (rq ++ urls)%list).
Proof.
  intros Hlen Hfeeds Hlabels.
  unfold convert_firms_urls_to_combined_gdf_wrapped.
  rewrite Hlen. cbn [Nat.eqb negb].
  rewrite (read_all_ok w urls dfs Hfeeds). cbn [app].
  rewrite (concat_distinct_labels w (empty_frame :: dfs))
    by (constructor; [constructor|exact Hlabels]).
  reflexivity.
Qed.

(** Of the six columns the combiner requires, the concatenation of
    feeds that were read can only miss latitude, longitude and version. *)
Lemma missing_of_read_feeds (w : World) (urls : list string)
      (dfs : list DataFrame) :
  List.length urls = 3%nat ->
  Forall2 (fun u df => fst (read_firm_csv w u []) = Ok df) urls dfs ->
  filter (fun col => negb (has_column (concat_frames (empty_frame :: dfs))
                                      col))
         combined_required_columns
  = filter (fun col => negb (existsb (fun d => has_column d col) dfs))
           ["latitude"; "longitude"; "version"].
Proof.
  intros Hlen Hfeeds. unfold combined_required_columns.
  destruct Hfeeds as [|u df urls' dfs' Hu Hrest]; [discriminate|].
  assert (Hc : forall c, In c ["high_confidence"; "acq_datetime";
                               "confidence"] ->
                         has_column (concat_frames
                                       (empty_frame :: df :: dfs')) c
                         = true).
  { intros c Hc. apply has_column_In. apply In_columns_concat.
    exists df. split; [simpl; tauto|].
    now apply (feed_has_normalised_columns w u). }
  cbn [filter].
  rewrite (Hc "high_confidence"), (Hc "acq_datetime"), (Hc "confidence")
    by (simpl; tauto).
  cbn [negb].
  rewrite !has_column_concat. reflexivity.
Qed.

(** X11: when the three feeds were read, and none of their frames
    repeats a label, the first check of the combiner can only ever miss
    latitude, longitude or version, since every normalised batch has the
    flag, the timestamp and the confidence; when one of the three is in
    no feed, the combiner fails, after all three requests, with the error
    that lists the missing ones in that order. *)
Theorem combiner_misses_only_position_or_version (w : World)
        (urls rq : list string) (dfs : list DataFrame) :
  List.length urls = 3%nat ->
  Forall2 (fun u df => fst (read_firm_csv w u []) = Ok df) urls dfs ->
  Forall (fun d => NoDup (columns d)) dfs ->
  let missing :=
    filter (fun col => negb (existsb (fun d => has_column d col) dfs))
           ["latitude"; "longitude"; "version"] in
  missing <> [] ->
  convert_firms_urls_to_combined_gdf_wrapped w urls rq
  = (Raise (ValueError ("Missing required columns in the data: "
                        ++ repr_list missing)),
     (rq ++ urls)%list).
Proof.
  intros Hlen Hfeeds Hlabels missing Hne.
  rewrite (wrapped_of_read_feeds w urls rq dfs Hlen Hfeeds Hlabels).
  unfold export_gdf.
  rewrite (missing_of_read_feeds w urls dfs Hlen Hfeeds).
  fold missing. destruct missing as [|c l] eqn:E; [contradiction|].
  reflexivity.
Qed.

(** X12: the columns the combiner drops have to be there: when the
    feeds were read, none of their frames repeats a label, and they hold
    the six required columns between them, but one of the seven columns
    to drop is in no feed, the combiner does not return the other columns;
    it fails, after all three requests, with the [KeyError] of the drop,
    which lists the columns that are in no feed, and which is not the
    [ValueError] of its own checks. *)
Theorem combiner_needs_every_dropped_column (w : World)
        (urls rq : list string) (dfs : list DataFrame) :
  List.length urls = 3%nat ->
  Forall2 (fun u df => fst (read_firm_csv w u []) = Ok df) urls dfs ->
  Forall (fun d => NoDup (columns d)) dfs ->
  Forall (fun c => exists d, In d dfs /\ In c (columns d))
         ["latitude"; "longitude"; "version"] ->
  let absent :=
    filter (fun c => negb (existsb (fun d => has_column d c) dfs))
           drop_columns in
  absent <> [] ->
  convert_firms_urls_to_combined_gdf_wrapped w urls rq
  = (Raise (KeyError (repr_list absent ++ " not found in axis")),
     (rq ++ urls)%list).
Proof.
  intros Hlen Hfeeds Hlabels Hpos absent Habsent.
  rewrite (wrapped_of_read_feeds w urls rq dfs Hlen Hfeeds Hlabels).
  unfold export_gdf.
  rewrite (missing_of_read_feeds w urls dfs Hlen Hfeeds).
  assert (Hreq : filter (fun col => negb (existsb (fun d => has_column d col)
                                                  dfs))
                        ["latitude"; "longitude"; "version"] = []).
  { apply filter_none. intros c Hc. rewrite Forall_forall in Hpos.
    destruct (Hpos c Hc) as [d [Hd Hin]].
    apply negb_false_iff. apply existsb_exists. exists d.
    split; [exact Hd|now apply has_column_In]. }
  rewrite Hreq. unfold drop.
  assert (Heq : filter (fun c => negb (has_column
                                         (combined_export w
                                            (concat_frames
                                               (empty_frame :: dfs))) c))
                       drop_columns = absent).
  { unfold absent. apply filter_ext. intros c.
    unfold has_column at 1. rewrite combined_export_columns.
    fold (has_column (concat_frames (empty_frame :: dfs)) c).
    rewrite has_column_concat. reflexivity. }
  rewrite Heq. destruct absent as [|c l] eqn:E; [contradiction|].
  reflexivity.
Qed.

(** The two theorems and the one before at sample feeds. *)

Lemma combiner_stops_at_first_failing_feed_witness :
  convert_firms_urls_to_combined_gdf_wrapped
    (world_with_feed_down "viirs" batch_numeric) ["modis"; "viirs"; "snpp"] []
  = (Raise (ValueError "Failed to read and process CSV from 'viirs'"),
     ["modis"; "viirs"]).
Proof.
  apply (combiner_stops_at_first_failing_feed
           (world_with_feed_down "viirs" batch_numeric)
           ["modis"] "viirs" ["snpp"] []
           (ValueError "Failed to read and process CSV from 'viirs'")).
  - reflexivity.
  - constructor; [|constructor].
    destruct (fst (read_firm_csv (world_with_feed_down "viirs" batch_numeric)
                                 "modis" [])) as [df|e] eqn:E;
      [now exists df|vm_compute in E; discriminate].
  - vm_compute. reflexivity.
Defined.

Lemma combiner_misses_only_position_or_version_witness :
  convert_firms_urls_to_combined_gdf_wrapped
    (sample_world 0 batch_without_position) ["modis"; "viirs"; "snpp"] []
  = (Raise (ValueError
              "Missing required columns in the data: ['latitude', 'longitude', 'version']"),
     ["modis"; "viirs"; "snpp"]).
Proof.
  destruct (fst (read_firm_csv (sample_world 0 batch_without_position)
                               "modis" [])) as [d1|e] eqn:E1;
    [|vm_compute in E1; discriminate].
  destruct (fst (read_firm_csv (sample_world 0 batch_without_position)
                               "viirs" [])) as [d2|e] eqn:E2;
    [|vm_compute in E2; discriminate].
  destruct (fst (read_firm_csv (sample_world 0 batch_without_position)
                               "snpp" [])) as [d3|e] eqn:E3;
    [|vm_compute in E3; discriminate].
  pose proof (combiner_misses_only_position_or_version
                (sample_world 0 batch_without_position)
                ["modis"; "viirs"; "snpp"] [] [d1; d2; d3] eq_refl) as H.
  cbv zeta in H.
  assert (Hfeeds : Forall2
                     (fun u df =>
                        fst (read_firm_csv
                               (sample_world 0 batch_without_position) u [])
                        = Ok df)
                     ["modis"; "viirs"; "snpp"] [d1; d2; d3])
    by (repeat (constructor; [assumption|]); constructor).
  specialize (H Hfeeds).
  vm_compute in E1, E2, E3.
  injection E1 as <-. injection E2 as <-. injection E3 as <-.
  apply H.
  - repeat (constructor; [apply unique_labels_NoDup; reflexivity|]).
    constructor.
  - vm_compute. discriminate.
Defined.

Lemma combiner_needs_every_dropped_column_witness :
  convert_firms_urls_to_combined_gdf_wrapped
    (sample_world 0 batch_without_swath) ["modis"; "viirs"; "snpp"] []
  = (Raise (KeyError
              "['scan', 'track', 'brightness_a', 'brightness_b', 'daynight'] not found in axis"),
     ["modis"; "viirs"; "snpp"]).
Proof.
  destruct (fst (read_firm_csv (sample_world 0 batch_without_swath)
                               "modis" [])) as [d1|e] eqn:E1;
    [|vm_compute in E1; discriminate].
  destruct (fst (read_firm_csv (sample_world 0 batch_without_swath)
                               "viirs" [])) as [d2|e] eqn:E2;
    [|vm_compute in E2; discriminate].
  destruct (fst (read_firm_csv (sample_world 0 batch_without_swath)
                               "snpp" [])) as [d3|e] eqn:E3;
    [|vm_compute in E3; discriminate].
  pose proof (combiner_needs_every_dropped_column
                (sample_world 0 batch_without_swath)
                ["modis"; "viirs"; "snpp"] [] [d1; d2; d3] eq_refl) as H.
  cbv zeta in H.
  assert (Hfeeds : Forall2
                     (fun u df =>
                        fst (read_firm_csv
                               (sample_world 0 batch_without_swath) u [])
                        = Ok df)
                     ["modis"; "viirs"; "snpp"] [d1; d2; d3])
    by (repeat (constructor; [assumption|]); constructor).
  specialize (H Hfeeds).
  vm_compute in E1, E2, E3.
  injection E1 as <-. injection E2 as <-. injection E3 as <-.
  apply H.
  - repeat (constructor; [apply unique_labels_NoDup; reflexivity|]).
    constructor.
  - repeat (constructor; [eexists; split; [left; reflexivity|simpl; tauto]|]).
    constructor.
  - vm_compute. discriminate.
Defined.

(** ** The cache along a history of calls *)

Section LruHistory.
Context {K V : Type}.
Variable K_eq_dec : forall a b : K, {a = b} + {a <> b}.
Variable maxsize : nat.
Variable user_function : K -> io V.
Hypothesis maxsize_positive : (0 < maxsize)%nat.

(** What the function returns does not depend on the requests sent
    before. *)
Hypothesis result_of_key :
  forall k rq, fst (user_function k rq) = fst (user_function k []).

Lemma cache_get_In (k : K) (v : V) (cache : list (K * V)) :
  cache_get K_eq_dec k cache = Some v -> In (k, v) cache.
Proof.
  induction cache as [|[k' v'] cache IH]; simpl; [discriminate|].
  destruct (K_eq_dec k k') as [->|Hne].
  - intros H. injection H as ->. now left.
  - intros H. right. now apply IH.
Qed.

Lemma In_cache_remove (k : K) (x : K * V) (cache : list (K * V)) :
  In x (cache_remove K_eq_dec k cache) -> In x cache.
Proof.
  induction cache as [|[k' v'] cache IH]; simpl; [tauto|].
  destruct (K_eq_dec k k'); simpl; intuition.
Qed.

Lemma In_tl {A : Type} (x : A) (l : list A) : In x (tl l) -> In x l.
Proof.
  destruct l; simpl; tauto.
Qed.

Lemma call_keeps_order (k : K) (cache cache' : list (K * V))
      (rq rq' : list string) (r : result V) :
  cache_ok maxsize cache ->
  lru_call K_eq_dec maxsize user_function k cache rq = (r, cache', rq') ->
  cache_ok maxsize cache'.
Proof.
  intros Hok H. destruct r as [v|e].
  - exact (proj1 (call_Ok_holds K_eq_dec maxsize user_function k v []
                                cache cache' rq rq' maxsize_positive Hok H)).
  - unfold lru_call in H.
    destruct (cache_get K_eq_dec k cache); [discriminate|].
    destruct (user_function k rq) as [[v|e'] rq0]; [discriminate|].
    injection H as _ <- _. exact Hok.
Qed.

Lemma call_keeps_current (k : K) (cache cache' : list (K * V))
      (rq rq' : list string) (r : result V) :
  entries_current user_function cache ->
  lru_call K_eq_dec maxsize user_function k cache rq = (r, cache', rq') ->
  entries_current user_function cache'.
Proof.
  intros Hcur H. unfold lru_call in H.
  destruct (cache_get K_eq_dec k cache) as [v|] eqn:Eg.
  - injection H as _ <- _. intros k0 v0 Hin.
    apply in_app_or in Hin. destruct Hin as [Hin|[Hin|[]]].
    + apply Hcur. now apply In_cache_remove in Hin.
    + injection Hin as <- <-. apply Hcur. now apply cache_get_In.
  - pose proof (result_of_key k rq) as Hres.
    destruct (user_function k rq) as [[v|e] rq0]; cbn [fst] in Hres.
    + injection H as _ <- _. intros k0 v0 Hin.
      apply in_app_or in Hin. destruct Hin as [Hin|[Hin|[]]].
      * apply Hcur. destruct (maxsize <=? List.length cache)%nat;
          [now apply In_tl|exact Hin].
      * injection Hin as <- <-. now symmetry.
    + injection H as _ <- _. exact Hcur.
Qed.

Lemma history_invariant (ks : list K) :
  forall cache rq cache' rq',
    cache_ok maxsize cache -> entries_current user_function cache ->
    lru_calls K_eq_dec maxsize user_function ks cache rq = (cache', rq') ->
    cache_ok maxsize cache' /\ entries_current user_function cache'.
Proof.
  induction ks as [|k ks IH]; intros cache rq cache' rq' Hok Hcur H.
  - cbn [lru_calls] in H. injection H as <- _. now split.
  - cbn [lru_calls] in H.
    destruct (lru_call K_eq_dec maxsize user_function k cache rq)
      as [[r cache1] rq1] eqn:E.
    apply (IH cache1 rq1 cache' rq'); [| |exact H].
    + exact (call_keeps_order k cache cache1 rq rq1 r Hok E).
    + exact (call_keeps_current k cache cache1 rq rq1 r Hcur E).
Qed.

Lemma empty_cache_invariant :
  cache_ok maxsize (@nil (K * V)) /\ entries_current user_function [].
Proof.
  split; [split; [constructor|apply Nat.le_0_l]|]. intros k v [].
Qed.

(** After any calls, starting with nothing cached, a call returns what
    the function returns for the key. *)
Lemma call_after_history (ks : list K) (k : K) (rq0 rq : list string)
      (cache : list (K * V)) :
  lru_calls K_eq_dec maxsize user_function ks [] rq0 = (cache, rq) ->
  fst (fst (lru_call K_eq_dec maxsize user_function k cache rq))
  = fst (user_function k []).
Proof.
  intros H.
  destruct (history_invariant ks [] rq0 cache rq
              (proj1 empty_cache_invariant) (proj2 empty_cache_invariant) H)
    as [_ Hcur].
  unfold lru_call.
  destruct (cache_get K_eq_dec k cache) as [v|] eqn:Eg.
  - cbn [fst]. symmetry. apply Hcur. now apply cache_get_In.
  - pose proof (result_of_key k rq) as Hres.
    destruct (user_function k rq) as [[v|e] rq1]; cbn [fst] in *;
      now symmetry.
Qed.

(** After any calls, starting with nothing cached, a key for which the
    function raises is not in the cache: the function is run again. *)
Lemma failing_call_after_history (ks : list K) (k : K) (e : exn)
      (rq0 rq : list string) (cache : list (K * V)) :
  lru_calls K_eq_dec maxsize user_function ks [] rq0 = (cache, rq) ->
  fst (user_function k []) = Raise e ->
  lru_call K_eq_dec maxsize user_function k cache rq
  = (Raise e, cache, snd (user_function k rq)).
Proof.
  intros H He.
  destruct (history_invariant ks [] rq0 cache rq
              (proj1 empty_cache_invariant) (proj2 empty_cache_invariant) H)
    as [_ Hcur].
  unfold lru_call.
  destruct (cache_get K_eq_dec k cache) as [v|] eqn:Eg.
  - apply cache_get_In in Eg. apply Hcur in Eg. congruence.
  - pose proof (result_of_key k rq) as Hres. rewrite He in Hres.
    destruct (user_function k rq) as [[v|e'] rq1]; cbn [fst snd] in *;
      [discriminate|]. now injection Hres as ->.
Qed.

End LruHistory.

Lemma wrapped_log (w : World) (urls rq : list string) :
  convert_firms_urls_to_combined_gdf_wrapped w urls rq
  = (fst (convert_firms_urls_to_combined_gdf_wrapped w urls []),
     (rq ++ snd (convert_firms_urls_to_combined_gdf_wrapped w urls []))%list).
Proof.
  unfold convert_firms_urls_to_combined_gdf_wrapped.
  destruct (negb (Nat.eqb (List.length urls) 3)).
  - cbn [fst snd]. now rewrite app_nil_r.
  - rewrite (read_all_log w urls [empty_frame] rq).
    destruct (fst (read_all w urls [empty_frame] [])) as [l|e] eqn:E.
    + rewrite (surjective_pairing (read_all w urls [empty_frame] [])), E.
      reflexivity.
    + rewrite (surjective_pairing (read_all w urls [empty_frame] [])), E.
      reflexivity.
Qed.

Lemma wrapped_result_of_key (w : World) (urls rq : list string) :
  fst (convert_firms_urls_to_combined_gdf_wrapped w urls rq)
  = fst (convert_firms_urls_to_combined_gdf_wrapped w urls []).
Proof.
  now rewrite (wrapped_log w urls rq).
Qed.

(** X13: the cache never changes what a caller gets.  After any calls
    of the combiner, starting with nothing cached, a call returns what
    the function without the cache returns for the same URLs; the cache
    holds at most 128 entries and no key twice, and every entry is the
    result the function returns for its key. *)
Theorem cached_combiner_returns_what_combiner_returns (w : World)
        (history : list (list string)) (urls rq0 rq : list string)
        (cache : list (list string * GeoDataFrame)) :
  lru_calls urls_eq_dec 128 (convert_firms_urls_to_combined_gdf_wrapped w)
            history [] rq0 = (cache, rq) ->
  fst (fst (convert_firms_urls_to_combined_gdf w urls cache rq))
  = fst (convert_firms_urls_to_combined_gdf_wrapped w urls [])
  /\ cache_ok 128 cache
  /\ (forall k v, In (k, v) cache ->
                  List.length k = 3%nat
                  /\ fst (convert_firms_urls_to_combined_gdf_wrapped w k [])
                     = Ok v).
Proof.
  intros H.
  assert (Hpos : (0 < 128)%nat) by lia.
  split; [|split].
  - unfold convert_firms_urls_to_combined_gdf.
    exact (call_after_history urls_eq_dec 128 (convert_firms_urls_to_combined_gdf_wrapped w) Hpos
             (wrapped_result_of_key w) history urls rq0 rq cache H).
  - exact (proj1 (history_invariant urls_eq_dec 128 (convert_firms_urls_to_combined_gdf_wrapped w) Hpos
                    (wrapped_result_of_key w) history [] rq0 cache rq
                    (proj1 (empty_cache_invariant 128 (convert_firms_urls_to_combined_gdf_wrapped w)))
                    (proj2 (empty_cache_invariant 128 (convert_firms_urls_to_combined_gdf_wrapped w))) H)).
  - intros k v Hin.
    pose proof (proj2 (history_invariant urls_eq_dec 128 (convert_firms_urls_to_combined_gdf_wrapped w) Hpos
                         (wrapped_result_of_key w) history [] rq0 cache rq
                         (proj1 (empty_cache_invariant 128 (convert_firms_urls_to_combined_gdf_wrapped w)))
                         (proj2 (empty_cache_invariant 128 (convert_firms_urls_to_combined_gdf_wrapped w))) H) k v Hin)
      as Hk.
    split; [|exact Hk].
    unfold convert_firms_urls_to_combined_gdf_wrapped in Hk.
    destruct (Nat.eqb (List.length k) 3) eqn:E.
    + now apply Nat.eqb_eq.
    + cbn [negb fst] in Hk. discriminate.
Qed.

(** X14: a failure is never cached.  When the combiner fails for some
    URLs, every call with them, after any calls starting with nothing
    cached, runs the function again: it fails the same way, sends the same
    requests once more and leaves the cache as it was. *)
Theorem failed_combine_is_run_again (w : World)
        (history : list (list string)) (urls rq0 rq : list string)
        (cache : list (list string * GeoDataFrame)) (e : exn) :
  lru_calls urls_eq_dec 128 (convert_firms_urls_to_combined_gdf_wrapped w)
            history [] rq0 = (cache, rq) ->
  fst (convert_firms_urls_to_combined_gdf_wrapped w urls []) = Raise e ->
  convert_firms_urls_to_combined_gdf w urls cache rq
  = (Raise e, cache,
     (rq ++ snd (convert_firms_urls_to_combined_gdf_wrapped w urls []))%list).
Proof.
  intros H He.
  assert (Hpos : (0 < 128)%nat) by lia.
  unfold convert_firms_urls_to_combined_gdf.
  rewrite (failing_call_after_history urls_eq_dec 128 (convert_firms_urls_to_combined_gdf_wrapped w) Hpos
             (wrapped_result_of_key w) history urls e rq0 rq cache H He).
  now rewrite (wrapped_log w urls rq).
Qed.

(** X15: a tuple of any length but three is refused on every call,
    after any calls starting with nothing cached, before anything is
    requested and without a trace in the cache. *)
Theorem wrong_number_of_urls_always_refused (w : World)
        (history : list (list string)) (urls rq0 rq : list string)
        (cache : list (list string * GeoDataFrame)) :
  lru_calls urls_eq_dec 128 (convert_firms_urls_to_combined_gdf_wrapped w)
            history [] rq0 = (cache, rq) ->
  List.length urls <> 3%nat ->
  convert_firms_urls_to_combined_gdf w urls cache rq
  = (Raise (ValueError "firms_urls must be a tuple of three strings"),
     cache, rq).
Proof.
  intros H Hlen.
  assert (Hpos : (0 < 128)%nat) by lia.
  assert (He : convert_firms_urls_to_combined_gdf_wrapped w urls rq
               = (Raise (ValueError
                           "firms_urls must be a tuple of three strings"),
                  rq)).
  { unfold convert_firms_urls_to_combined_gdf_wrapped.
    apply Nat.eqb_neq in Hlen. now rewrite Hlen. }
  unfold convert_firms_urls_to_combined_gdf.
  rewrite (failing_call_after_history urls_eq_dec 128 (convert_firms_urls_to_combined_gdf_wrapped w) Hpos
             (wrapped_result_of_key w) history urls
             (ValueError "firms_urls must be a tuple of three strings")
             rq0 rq cache H).
  - now rewrite He.
  - rewrite <- (wrapped_result_of_key w urls rq). now rewrite He.
Qed.

(** The three theorems on the cache at sample feeds. *)

Lemma cached_combiner_returns_what_combiner_returns_witness :
  exists cache rq,
    lru_calls urls_eq_dec 128
              (convert_firms_urls_to_combined_gdf_wrapped
                 (sample_world 0 batch_numeric))
              [numbered_key 0; numbered_key 1; numbered_key 0] [] []
    = (cache, rq)
    /\ fst (fst (convert_firms_urls_to_combined_gdf
                   (sample_world 0 batch_numeric) (numbered_key 1) cache rq))
       = fst (convert_firms_urls_to_combined_gdf_wrapped
                (sample_world 0 batch_numeric) (numbered_key 1) [])
    /\ cache_ok 128 cache.
Proof.
  destruct (lru_calls urls_eq_dec 128
                      (convert_firms_urls_to_combined_gdf_wrapped
                         (sample_world 0 batch_numeric))
                      [numbered_key 0; numbered_key 1; numbered_key 0] [] [])
    as [cache rq] eqn:H.
  exists cache, rq. split; [reflexivity|].
  destruct (cached_combiner_returns_what_combiner_returns
              (sample_world 0 batch_numeric)
              [numbered_key 0; numbered_key 1; numbered_key 0]
              (numbered_key 1) [] rq cache H) as (Hres & Hok & _).
  split; assumption.
Defined.

Lemma failed_combine_is_run_again_witness :
  exists cache rq,
    lru_calls urls_eq_dec 128
              (convert_firms_urls_to_combined_gdf_wrapped
                 (world_with_feed_down "viirs" batch_numeric))
              [["modis"; "viirs"; "snpp"]] [] []
    = (cache, rq)
    /\ convert_firms_urls_to_combined_gdf
         (world_with_feed_down "viirs" batch_numeric)
         ["modis"; "viirs"; "snpp"] cache rq
       = (Raise (ValueError "Failed to read and process CSV from 'viirs'"),
          cache,
          (rq ++ snd (convert_firms_urls_to_combined_gdf_wrapped
                        (world_with_feed_down "viirs" batch_numeric)
                        ["modis"; "viirs"; "snpp"] []))%list).
Proof.
  destruct (lru_calls urls_eq_dec 128
                      (convert_firms_urls_to_combined_gdf_wrapped
                         (world_with_feed_down "viirs" batch_numeric))
                      [["modis"; "viirs"; "snpp"]] [] [])
    as [cache rq] eqn:H.
  exists cache, rq. split; [reflexivity|].
  apply (failed_combine_is_run_again
           (world_with_feed_down "viirs" batch_numeric)
           [["modis"; "viirs"; "snpp"]] ["modis"; "viirs"; "snpp"] [] rq
           cache
           (ValueError "Failed to read and process CSV from 'viirs'") H).
  vm_compute. reflexivity.
Defined.

Lemma wrong_number_of_urls_always_refused_witness :
  exists cache rq,
    lru_calls urls_eq_dec 128
              (convert_firms_urls_to_combined_gdf_wrapped
                 (sample_world 0 batch_numeric))
              [numbered_key 0; ["modis"; "viirs"]] [] []
    = (cache, rq)
    /\ convert_firms_urls_to_combined_gdf
         (sample_world 0 batch_numeric) ["modis"; "viirs"] cache rq
       = (Raise (ValueError "firms_urls must be a tuple of three strings"),
          cache, rq).
Proof.
  destruct (lru_calls urls_eq_dec 128
                      (convert_firms_urls_to_combined_gdf_wrapped
                         (sample_world 0 batch_numeric))
                      [numbered_key 0; ["modis"; "viirs"]] [] [])
    as [cache rq] eqn:H.
  exists cache, rq. split; [reflexivity|].
  apply (wrong_number_of_urls_always_refused
           (sample_world 0 batch_numeric)
           [numbered_key 0; ["modis"; "viirs"]] ["modis"; "viirs"] [] rq
           cache H).
  simpl. lia.
Defined.
(** ** Geospatial filter: failures of the test, repetition, more polygons *)

Lemma sequence_within_area_total (w : World) (polygons vs : list cell) :
  Forall (fun v => exists g, v = VGeom g) vs ->
  sequence (map (within_area w polygons) vs)
  = Ok (map (inside_some w polygons) vs).
Proof.
  induction 1 as [|v vs [g ->] _ IH]; [reflexivity|].
  cbn [map sequence]. rewrite IH. reflexivity.
Qed.

Lemma sequence_within_area_fails (w : World) (polygons vs : list cell) :
  ~ Forall (fun v => exists g, v = VGeom g) vs ->
  sequence (map (within_area w polygons) vs)
  = Raise (AttributeError "'NoneType' object has no attribute 'within'").
Proof.
  induction vs as [|v vs IH]; intros H.
  - exfalso. apply H. constructor.
  - cbn [map sequence].
    destruct v; try reflexivity.
    cbn [within_area bind]. rewrite IH; [reflexivity|].
    intros HF. apply H. constructor; [now eexists|exact HF].
Qed.

(** X16: with two frames that pass the checks and share a reference
    system, the filter returns a result exactly when every record has a
    geometry; one record without a geometry makes the filter fail for all
    of them, with the error of the containment test. *)
Theorem filter_needs_every_geometry (w : World) (f c : GeoDataFrame) :
  has_column (frame f) geometry_column = true ->
  has_column (frame c) geometry_column = true ->
  empty (frame f) = false -> empty (frame c) = false ->
  crs_differ w (crs f) (crs c) = false ->
  (Forall (fun v => exists g, v = VGeom g) (column (frame f) geometry_column)
   -> exists out,
       filter_firms_points_within_country_area
         w (AGeoDataFrame f) (AGeoDataFrame c) = Ok out)
  /\ (~ Forall (fun v => exists g, v = VGeom g)
               (column (frame f) geometry_column)
      -> filter_firms_points_within_country_area
           w (AGeoDataFrame f) (AGeoDataFrame c)
         = Raise (ValueError
                    "Error in filtering points within country area: 'NoneType' object has no attribute 'within'")).
Proof.
  intros Hf Hc Ef Ec Hcrs.
  unfold filter_firms_points_within_country_area.
  rewrite Hf, Hc, Ef, Ec, Hcrs. cbn [negb orb]. split; intros H.
  - rewrite (sequence_within_area_total _ _ _ H). eexists. reflexivity.
  - rewrite (sequence_within_area_fails _ _ _ H). reflexivity.
Qed.

Lemma filter_all_true {A : Type} (p : A -> bool) (l : list A) :
  (forall x, In x l -> p x = true) -> filter p l = l.
Proof.
  induction l as [|a l IH]; intros H; [reflexivity|].
  cbn [filter]. rewrite (H a (or_introl eq_refl)).
  rewrite IH; [reflexivity|]. intros x Hx. apply H. now right.
Qed.

(** X17: filtering a result again changes nothing: when the filter
    returned a result that is not empty, and a reference system counts as
    equal to itself, the filter applied to that result and the same
    boundaries returns it as it is. *)
Theorem filter_is_idempotent (w : World) (f c out : GeoDataFrame) :
  (forall s, crs_eq w s s = true) ->
  filter_firms_points_within_country_area w (AGeoDataFrame f) (AGeoDataFrame c)
  = Ok out ->
  rows (frame out) <> [] ->
  filter_firms_points_within_country_area
    w (AGeoDataFrame out) (AGeoDataFrame c) = Ok out.
Proof.
  intros Hrefl H Hrows.
  pose proof (filter_inv w f c out H)
    as (Hf & Hc & Ef & Ec & src & Hsrc & Hcols & Hcrs & Hout).
  assert (Hgeo : In geometry_column (columns (frame f)))
    by now apply has_column_In.
  assert (Hsrc_cols : columns (frame src) = columns (frame f)
                      /\ crs_differ w (crs src) (crs c) = false).
  { destruct (crs_differ w (crs f) (crs c)) eqn:Ed.
    - destruct (to_crs_inv w f src (crs c) Hgeo Hsrc)
        as (s & d & _ & Hd & Hs & Hcs & _).
      split; [exact Hcs|]. rewrite Hs, Hd. cbn [crs_differ].
      now rewrite Hrefl.
    - injection Hsrc as <-. now split. }
  destruct Hsrc_cols as [Hsc Hsd].
  assert (Hgo : has_column (frame out) geometry_column = true).
  { unfold has_column. rewrite Hcols, Hsc. exact Hf. }
  assert (Eo : empty (frame out) = false).
  { unfold empty. destruct (rows (frame out)); [contradiction|].
    apply has_column_In in Hgo. destruct (columns (frame out));
      [contradiction|reflexivity]. }
  assert (Hin : forall r, In r (rows (frame out)) ->
                          inside_some w (column (frame c) geometry_column)
                                      (cell_at (columns (frame out)) r
                                               geometry_column) = true).
  { intros r Hr. rewrite Hout in Hr. apply filter_In in Hr.
    rewrite Hcols. exact (proj2 Hr). }
  unfold filter_firms_points_within_country_area.
  rewrite Hgo, Hc, Eo, Ec, Hcrs, Hsd. cbn [negb orb].
  rewrite sequence_within_area_total.
  - change (column (frame out) geometry_column)
      with (map (fun r => cell_at (columns (frame out)) r geometry_column)
                (rows (frame out))).
    rewrite map_map.
    rewrite (mask_rows_filter
               (fun r => inside_some
                           w (column (frame c) geometry_column)
                           (cell_at (columns (frame out)) r geometry_column))).
    rewrite (filter_all_true _ _ Hin).
    destruct out as [[cols rs] ocrs]. reflexivity.
  - apply Forall_forall. intros v Hv. unfold column in Hv.
    apply in_map_iff in Hv. destruct Hv as [r [<- Hr]].
    specialize (Hin r Hr).
    destruct (cell_at (columns (frame out)) r geometry_column);
      try discriminate. now eexists.
Qed.

(** X18: more polygons never lose a record: when the filter returns
    a result for the same records against two sets of boundaries in the
    same reference system, and every boundary of the first set is one of
    the second, every record kept with the first set is kept with the
    second. *)
Theorem filter_grows_with_boundaries (w : World)
        (f c c' out out' : GeoDataFrame) :
  crs c = crs c' ->
  incl (column (frame c) geometry_column)
       (column (frame c') geometry_column) ->
  filter_firms_points_within_country_area w (AGeoDataFrame f) (AGeoDataFrame c)
  = Ok out ->
  filter_firms_points_within_country_area w (AGeoDataFrame f)
                                          (AGeoDataFrame c')
  = Ok out' ->
  incl (rows (frame out)) (rows (frame out')).
Proof.
  intros Hcrs Hincl H H'.
  pose proof (filter_inv w f c out H)
    as (_ & _ & _ & _ & src & Hsrc & _ & _ & Hout).
  pose proof (filter_inv w f c' out' H')
    as (_ & _ & _ & _ & src' & Hsrc' & _ & _ & Hout').
  rewrite <- Hcrs in Hsrc'. rewrite Hsrc in Hsrc'. injection Hsrc' as <-.
  intros r Hr. rewrite Hout in Hr. rewrite Hout'.
  apply filter_In in Hr. destruct Hr as [Hr Hin].
  apply filter_In. split; [exact Hr|].
  apply inside_some_spec in Hin. destruct Hin as (p & a & Hp & Ha & Hw).
  apply inside_some_spec. exists p, a. split; [exact Hp|].
  split; [now apply Hincl|exact Hw].
Qed.

(** The three theorems on the filter at the sample square. *)

Lemma filter_needs_every_geometry_witness :
  (exists out,
      filter_firms_points_within_country_area
        (sample_world 0 batch_930) (AGeoDataFrame three_points)
        (AGeoDataFrame square_country) = Ok out)
  /\ filter_firms_points_within_country_area
       (sample_world 0 batch_930) (AGeoDataFrame points_with_gap)
       (AGeoDataFrame square_country)
     = Raise (ValueError
                "Error in filtering points within country area: 'NoneType' object has no attribute 'within'").
Proof.
  split.
  - apply (proj1 (filter_needs_every_geometry
                    (sample_world 0 batch_930) three_points square_country
                    eq_refl eq_refl eq_refl eq_refl eq_refl)).
    repeat (constructor; [eexists; reflexivity|]). constructor.
  - apply (proj2 (filter_needs_every_geometry
                    (sample_world 0 batch_930) points_with_gap square_country
                    eq_refl eq_refl eq_refl eq_refl eq_refl)).
    intros HF. inversion HF as [|v l _ HF' Ev]. subst.
    inversion HF' as [|v l [g Hg] _ Ev]. discriminate.
Defined.

Lemma filter_is_idempotent_witness :
  exists out,
    filter_firms_points_within_country_area
      (sample_world 0 batch_930) (AGeoDataFrame three_points)
      (AGeoDataFrame square_country) = Ok out
    /\ filter_firms_points_within_country_area
         (sample_world 0 batch_930) (AGeoDataFrame out)
         (AGeoDataFrame square_country) = Ok out.
Proof.
  destruct (filter_firms_points_within_country_area
              (sample_world 0 batch_930) (AGeoDataFrame three_points)
              (AGeoDataFrame square_country)) as [out|e] eqn:E;
    [|vm_compute in E; discriminate].
  exists out. split; [reflexivity|].
  apply (filter_is_idempotent (sample_world 0 batch_930) three_points
                              square_country out).
  - intros s. apply String.eqb_refl.
  - exact E.
  - vm_compute in E. injection E as <-. discriminate.
Defined.

Lemma filter_grows_with_boundaries_witness :
  exists out out',
    filter_firms_points_within_country_area
      (sample_world 0 batch_930) (AGeoDataFrame three_points)
      (AGeoDataFrame square_country) = Ok out
    /\ filter_firms_points_within_country_area
         (sample_world 0 batch_930) (AGeoDataFrame three_points)
         (AGeoDataFrame two_squares) = Ok out'
    /\ incl (rows (frame out)) (rows (frame out')).
Proof.
  destruct (filter_firms_points_within_country_area
              (sample_world 0 batch_930) (AGeoDataFrame three_points)
              (AGeoDataFrame square_country)) as [out|e] eqn:E;
    [|vm_compute in E; discriminate].
  destruct (filter_firms_points_within_country_area
              (sample_world 0 batch_930) (AGeoDataFrame three_points)
              (AGeoDataFrame two_squares)) as [out'|e] eqn:E';
    [|vm_compute in E'; discriminate].
  exists out, out'. split; [reflexivity|]. split; [reflexivity|].
  apply (filter_grows_with_boundaries (sample_world 0 batch_930) three_points
                                      square_country two_squares out out'
                                      eq_refl).
  - intros v Hv. simpl in Hv. destruct Hv as [<-|[]]. simpl. tauto.
  - exact E.
  - exact E'.
Defined.
(** ** Map display *)

Lemma normalize_row_days_ago (w : World) (data out : DataFrame)
      (r : list cell) :
  normalize w data = Ok out ->
  In r (rows out) ->
  exists z, cell_at (columns out) r "days_ago" = VInt z /\ 1 <= z.
Proof.
  intros E Hr.
  pose proof (normalize_rows_parse w data out E) as Hrows.
  pose proof (normalize_acq_date w data out E) as Hdate.
  assert (Hin : In (cell_at (columns out) r "acq_date")
                   (column out "acq_date")).
  { unfold column. apply in_map_iff. now exists r. }
  assert (Hs : exists s, cell_at (columns out) r "acq_date" = VStr s).
  { revert Hin. generalize (cell_at (columns out) r "acq_date"). intros v Hv.
    rewrite Hdate in Hv. unfold column in Hv.
    apply in_map_iff in Hv. destruct Hv as [x [<- Hx]].
    exact (proj1 (row_datetime_needs_text w _ _ (Hrows x Hx))). }
  destruct Hs as [s Hs]. rewrite Hs in Hin.
  destruct (rank_bounds _ s Hin) as [z [Hz Hb]].
  exists z. split; [|lia].
  rewrite (normalize_row_rank w data out r E Hr), Hs. exact Hz.
Qed.

Lemma marker_color_of_rank (z : Z) :
  1 <= z ->
  marker_color (VInt z) <> Found "darkred"
  /\ (z <= 9 -> exists color,
                  nth_error colors (Z.to_nat z) = Some color
                  /\ marker_color (VInt z) = Found color)
  /\ (10 <= z -> marker_color (VInt z) = IndexError).
Proof.
  intros Hz. unfold marker_color, list_item.
  change (Z.of_nat (List.length colors)) with 10.
  destruct (Z_lt_le_dec z 10) as [Hlt|Hge].
  - assert (Hcase : z = 1 \/ z = 2 \/ z = 3 \/ z = 4 \/ z = 5 \/ z = 6
                    \/ z = 7 \/ z = 8 \/ z = 9) by lia.
    repeat destruct Hcase as [->|Hcase]; try subst z;
      (split; [discriminate|]);
      (split; [intros _; eexists; split; reflexivity|intros H; lia]).
  - replace ((0 <=? z) && (z <? 10))%bool with false
      by (symmetry; apply andb_false_iff; right; apply Z.ltb_ge; lia).
    replace ((- (10) <=? z) && (z <? 0))%bool with false
      by (symmetry; apply andb_false_iff; right; apply Z.ltb_ge; lia).
    split; [discriminate|]. split; [intros H; lia|reflexivity].
Qed.

(** X19: the colour of a record on the map.  The ranks of a normalised
    batch start at one, so no record is ever drawn in the first colour of
    the list, dark red; a rank up to nine picks the colour at its position;
    and a record of rank ten or more, in a batch that spans ten dates, has
    no colour: the style function raises [IndexError]. *)
Theorem marker_color_of_normalised_record (w : World) (content : string)
        (data out : DataFrame) (r : list cell) :
  read_csv w content = Ok data ->
  process_csv_data w content = Ok out ->
  In r (rows out) ->
  exists z,
    cell_at (columns out) r "days_ago" = VInt z
    /\ 1 <= z
    /\ marker_color (VInt z) <> Found "darkred"
    /\ (z <= 9 -> exists color,
                    nth_error colors (Z.to_nat z) = Some color
                    /\ marker_color (VInt z) = Found color)
    /\ (10 <= z -> marker_color (VInt z) = IndexError).
Proof.
  intros Hread H Hr. unfold process_csv_data in H. rewrite Hread in H.
  unfold bind in H.
  destruct (normalize w data) as [out'|e] eqn:E; [|discriminate].
  injection H as ->.
  destruct (normalize_row_days_ago w data out r E Hr) as [z [Hz Hge]].
  exists z. split; [exact Hz|]. split; [exact Hge|].
  now apply marker_color_of_rank.
Qed.

Lemma marker_color_of_normalised_record_witness :
  exists out r z,
    process_csv_data (sample_world 0 batch_two_days) "" = Ok out
    /\ In r (rows out)
    /\ cell_at (columns out) r "days_ago" = VInt z
    /\ marker_color (VInt z) <> Found "darkred".
Proof.
  destruct (process_csv_data (sample_world 0 batch_two_days) "")
    as [out|e] eqn:E; [|vm_compute in E; discriminate].
  destruct (rows out) as [|r l] eqn:Er;
    [vm_compute in E; injection E as <-; discriminate|].
  assert (Hr : In r (rows out)) by (rewrite Er; now left).
  destruct (marker_color_of_normalised_record
              (sample_world 0 batch_two_days) "" batch_two_days out r
              eq_refl E Hr) as (z & Hz & _ & Hc & _).
  exists out, r, z. rewrite Er.
  split; [reflexivity|]. split; [now left|]. split; assumption.
Defined.

(** X20: what the filter returns, the display accepts.  When the
    filter returned a result, the result is not empty (which the page
    checks before it draws) and the centre is a list of two coordinates,
    none of the four checks of the display function fails: the map is
    drawn, and only a failure of the drawing itself is reported. *)
Theorem display_accepts_filtered_result {A : Type}
        (render : GeoDataFrame -> GeoDataFrame -> list cell -> rendered A)
        (w : World) (f c out : GeoDataFrame) (latitude longitude : cell) :
  filter_firms_points_within_country_area w (AGeoDataFrame f) (AGeoDataFrame c)
  = Ok out ->
  empty (frame out) = false ->
  display_firms_points_within_country_boundary
    render (AGeoDataFrame out) (AGeoDataFrame c)
    (PyList [latitude; longitude])
  = match render out c [latitude; longitude] with
    | Drawn st_map => Ok st_map
    | Failed message =>
        Raise (ValueError ("Error in displaying map: " ++ message))
    end.
Proof.
  intros H Hout.
  pose proof (filter_inv w f c out H) as (_ & _ & _ & Ec & _).
  unfold display_firms_points_within_country_boundary.
  now rewrite Hout, Ec.
Qed.

Lemma display_accepts_filtered_result_witness :
  exists out,
    filter_firms_points_within_country_area
      (sample_world 0 batch_930) (AGeoDataFrame three_points)
      (AGeoDataFrame square_country) = Ok out
    /\ display_firms_points_within_country_boundary
         (fun firms country centre =>
            Drawn (List.length (rows (frame firms))))
         (AGeoDataFrame out) (AGeoDataFrame square_country)
         (PyList [VFloat (1 # 2); VFloat (1 # 2)])
       = Ok (List.length (rows (frame out))).
Proof.
  destruct (filter_firms_points_within_country_area
              (sample_world 0 batch_930) (AGeoDataFrame three_points)
              (AGeoDataFrame square_country)) as [out|e] eqn:E;
    [|vm_compute in E; discriminate].
  exists out. split; [reflexivity|].
  apply (display_accepts_filtered_result
           (fun firms country centre =>
              Drawn (List.length (rows (frame firms))))
           (sample_world 0 batch_930) three_points square_country out
           (VFloat (1 # 2)) (VFloat (1 # 2)) E).
  vm_compute in E. injection E as <-. reflexivity.
Defined.

(** ** The combiner returns *)

Lemma sequence_total {A : Type} (l : list (result A)) :
  Forall (fun r => exists a, r = Ok a) l -> exists v, sequence l = Ok v.
Proof.
  induction 1 as [|r l [a ->] _ [v IH]]; [now exists []|].
  exists (a :: v). cbn [sequence bind]. now rewrite IH.
Qed.

Lemma point_from_xy_total (w : World) (x y : cell) :
  (exists q, coordinate w x = Ok q) -> (exists q, coordinate w y = Ok q) ->
  exists p, point_from_xy w x y = Ok p.
Proof.
  intros [qx Hx] [qy Hy]. unfold point_from_xy. rewrite Hx, Hy.
  cbn [bind]. destruct qx, qy; eexists; reflexivity.
Qed.

(** X21: the combiner returns a result for complete feeds.  When the
    three feeds were read, none of their frames repeats a label (no feed
    has brightness next to brightness_a, say), they hold latitude,
    longitude, version and the seven columns to drop between them, and
    every coordinate converts to a float or is missing, the combiner
    returns a frame, having requested each feed once, in order. *)
Theorem combiner_returns_for_complete_feeds (w : World)
        (urls rq : list string) (dfs : list DataFrame) :
  List.length urls = 3%nat ->
  Forall2 (fun u df => fst (read_firm_csv w u []) = Ok df) urls dfs ->
  Forall (fun d => NoDup (columns d)) dfs ->
  Forall (fun c => exists d, In d dfs /\ In c (columns d))
         (["latitude"; "longitude"; "version"] ++ drop_columns)%list ->
  Forall (fun d => Forall (fun v => exists q, coordinate w v = Ok q)
                          (column d "longitude" ++ column d "latitude")%list)
         dfs ->
  exists gdf,
    convert_firms_urls_to_combined_gdf_wrapped w urls rq
    = (Ok gdf, (rq ++ urls)%list).
Proof.
  intros Hlen Hfeeds Hlabels Hcols Hcoord.
  rewrite Forall_forall in Hcols.
  rewrite (wrapped_of_read_feeds w urls rq dfs Hlen Hfeeds Hlabels).
  set (combined := concat_frames (empty_frame :: dfs)).
  assert (Hin : forall c,
             In c (["latitude"; "longitude"; "version"] ++ drop_columns)%list
             -> In c (columns combined)).
  { intros c Hc. apply In_columns_concat.
    destruct (Hcols c Hc) as [d [Hd Hcd]]. exists d. split; [now right|].
    exact Hcd. }
  assert (Hnorm : forall c,
             In c ["high_confidence"; "acq_datetime"; "confidence"] ->
             In c (columns combined)).
  { intros c Hc. apply In_columns_concat.
    destruct Hfeeds as [|u df urls' dfs' Hu Hrest]; [discriminate|].
    exists df. split; [simpl; tauto|].
    now apply (feed_has_normalised_columns w u). }
  assert (Hreq : filter (fun col => negb (has_column combined col))
                        combined_required_columns = []).
  { unfold combined_required_columns. cbn [filter].
    rewrite (proj2 (has_column_In combined "high_confidence"))
      by (apply Hnorm; simpl; tauto).
    rewrite (proj2 (has_column_In combined "latitude"))
      by (apply Hin; simpl; tauto).
    rewrite (proj2 (has_column_In combined "longitude"))
      by (apply Hin; simpl; tauto).
    rewrite (proj2 (has_column_In combined "acq_datetime"))
      by (apply Hnorm; simpl; tauto).
    rewrite (proj2 (has_column_In combined "confidence"))
      by (apply Hnorm; simpl; tauto).
    rewrite (proj2 (has_column_In combined "version"))
      by (apply Hin; simpl; tauto).
    reflexivity. }
  unfold export_gdf. rewrite Hreq.
  assert (Hdrop : filter (fun c => negb (has_column
                                           (combined_export w combined) c))
                         drop_columns = []).
  { apply filter_none. intros c Hc.
    unfold has_column. rewrite combined_export_columns.
    fold (has_column combined c).
    rewrite (proj2 (has_column_In combined c)); [reflexivity|].
    apply Hin. apply in_or_app. now right. }
  unfold drop. rewrite Hdrop. cbn [bind].
  set (cols_d := filter (fun c => negb (existsb (String.eqb c) drop_columns))
                        (columns (combined_export w combined))).
  set (dropped := {| columns := cols_d;
                     rows := map (reindex (columns (combined_export w combined))
                                          cols_d)
                                 (rows (combined_export w combined)) |}).
  assert (Hcell : forall c, c = "longitude" \/ c = "latitude" ->
                            forall r, In r (rows dropped) ->
                                      exists q,
                                        coordinate w
                                                   (cell_at (columns dropped)
                                                            r c) = Ok q).
  { intros c Hc r Hr. unfold dropped in Hr |- *. cbn [rows columns] in *.
    apply in_map_iff in Hr. destruct Hr as [k [<- Hk]].
    rewrite cell_at_reindex.
    destruct (existsb (String.eqb c) cols_d); [|now exists None].
    rewrite combined_export_columns.
    apply (Permutation_in _ (combined_export_rows w combined)) in Hk.
    apply keep_last_In in Hk. apply filter_In in Hk. destruct Hk as [Hk _].
    assert (F : Forall (fun v => exists q, coordinate w v = Ok q)
                       (column combined c)).
    { apply concat_cells.
      - apply Hin. destruct Hc as [-> | ->]; simpl; tauto.
      - intros v [q Hq]. destruct v; now exists q.
      - intros d [<-|Hd]; [constructor|].
        rewrite Forall_forall in Hcoord. specialize (Hcoord d Hd).
        apply Forall_app in Hcoord.
        destruct Hc as [-> | ->]; tauto. }
    rewrite Forall_forall in F. apply F. unfold column.
    apply in_map_iff. now exists k. }
  assert (Hseq : exists ps,
             sequence (map (fun r => point_from_xy w
                                       (cell_at (columns dropped) r
                                                "longitude")
                                       (cell_at (columns dropped) r
                                                "latitude"))
                           (rows dropped)) = Ok ps).
  { apply sequence_total. apply Forall_forall. intros res Hres.
    apply in_map_iff in Hres. destruct Hres as [r [<- Hr]].
    apply point_from_xy_total; apply Hcell; auto. }
  destruct Hseq as [ps Hps].
  unfold with_points. rewrite Hps. cbn [bind]. eexists. reflexivity.
Qed.

Lemma combiner_returns_for_complete_feeds_witness :
  exists gdf,
    convert_firms_urls_to_combined_gdf_wrapped
      (sample_world 0 batch_numeric) ["modis"; "viirs"; "snpp"] []
    = (Ok gdf, ["modis"; "viirs"; "snpp"]).
Proof.
  destruct (fst (read_firm_csv (sample_world 0 batch_numeric) "modis" []))
    as [d1|e] eqn:E1; [|vm_compute in E1; discriminate].
  destruct (fst (read_firm_csv (sample_world 0 batch_numeric) "viirs" []))
    as [d2|e] eqn:E2; [|vm_compute in E2; discriminate].
  destruct (fst (read_firm_csv (sample_world 0 batch_numeric) "snpp" []))
    as [d3|e] eqn:E3; [|vm_compute in E3; discriminate].
  apply (combiner_returns_for_complete_feeds
           (sample_world 0 batch_numeric)
           ["modis"; "viirs"; "snpp"] [] [d1; d2; d3] eq_refl).
  - repeat (constructor; [assumption|]). constructor.
  - vm_compute in E1, E2, E3.
    injection E1 as <-. injection E2 as <-. injection E3 as <-.
    repeat (constructor; [apply unique_labels_NoDup; reflexivity|]).
    constructor.
  - vm_compute in E1. injection E1 as <-.
    repeat (constructor; [eexists; split; [left; reflexivity|simpl; tauto]|]).
    constructor.
  - vm_compute in E1, E2, E3.
    injection E1 as <-. injection E2 as <-. injection E3 as <-.
    repeat (constructor;
            [repeat (constructor; [eexists; reflexivity|]); constructor|]).
    constructor.
Defined.

(** ** From the combiner to the filter *)

Lemma wrapped_geometry (w : World) (urls rq rq' : list string)
      (gdf : GeoDataFrame) :
  convert_firms_urls_to_combined_gdf_wrapped w urls rq = (Ok gdf, rq') ->
  crs gdf = Some "EPSG:4326"
  /\ In geometry_column (columns (frame gdf))
  /\ Forall (fun v => exists g, v = VGeom g)
            (column (frame gdf) geometry_column).
Proof.
  unfold convert_firms_urls_to_combined_gdf_wrapped. intros H.
  destruct (negb (Nat.eqb (List.length urls) 3)); [discriminate|].
  destruct (read_all w urls [empty_frame] rq) as [[l|e] rq1];
    [|discriminate].
  injection H as H _.
  destruct (concat w l) as [combined|e]; [|discriminate].
  cbn [bind] in H. unfold export_gdf in H.
  destruct (filter _ combined_required_columns); [|discriminate].
  unfold bind in H.
  destruct (drop (combined_export w combined) drop_columns) as [dropped|e];
    [|discriminate].
  destruct (with_points w dropped "longitude" "latitude" "EPSG:4326")
    as [g1|e] eqn:Hpts; [|discriminate].
  injection H as <-. cbn [frame crs].
  apply with_points_inv in Hpts. destruct Hpts as (Hcrs & Hframe & Hok).
  split; [exact Hcrs|]. split.
  - apply In_columns_assign. left. rewrite Hframe.
    apply In_columns_assign. now right.
  - unfold geometry_column.
    rewrite column_assign_other by reflexivity.
    rewrite Hframe, column_assign_same.
    apply Forall_forall. intros v Hv. apply in_map_iff in Hv.
    destruct Hv as [r [<- Hr]]. destruct (Hok r Hr) as [p ->].
    now exists p.
Qed.

(** X22: what the combiner returns, the filter can test.  A result of
    the combiner has a geometry in every record and the reference system
    EPSG:4326; so against a boundary frame in that reference system that
    has a geometry column and is not empty, the filter returns a result
    whenever the combined records are not empty: none of its checks fails,
    nothing is reprojected, and the containment test raises nothing.  The
    result holds the records whose geometry is within a geometry of the
    boundary frame; when the boundary geometries are areas, a record with
    a point is among them exactly when the point is in the interior of
    one of the polygons. *)
Theorem filter_accepts_combined_result (w : World)
        (urls rq rq' : list string) (gdf c : GeoDataFrame) :
  convert_firms_urls_to_combined_gdf_wrapped w urls rq = (Ok gdf, rq') ->
  rows (frame gdf) <> [] ->
  has_column (frame c) geometry_column = true ->
  empty (frame c) = false ->
  crs c = Some "EPSG:4326" ->
  crs_eq w "EPSG:4326" "EPSG:4326" = true ->
  let polygons := column (frame c) geometry_column in
  let kept := fun r => inside_some w polygons
                                   (cell_at (columns (frame gdf)) r
                                            geometry_column) in
  filter_firms_points_within_country_area w (AGeoDataFrame gdf)
                                          (AGeoDataFrame c)
  = Ok {| frame := {| columns := columns (frame gdf);
                      rows := filter kept (rows (frame gdf)) |};
          crs := Some "EPSG:4326" |}
  /\ (Forall (fun v => exists a, v = VGeom a /\ area a) polygons ->
      forall r x y,
        cell_at (columns (frame gdf)) r geometry_column
        = VGeom (Point x y) ->
        (kept r = true
         <-> exists a part,
               In (VGeom a) polygons /\ In part (parts_of a)
               /\ locate_in_polygon (x, y) (fst part) (snd part)
                  = Interior)).
Proof.
  intros H Hrows Hc Ec Hcrs Hrefl polygons kept. split;
    [|intros Hareas r x y Hg; unfold kept; rewrite Hg;
      now apply inside_some_point_area].
  destruct (wrapped_geometry w urls rq rq' gdf H) as (Hg & Hin & Hall).
  assert (Hf : has_column (frame gdf) geometry_column = true)
    by now apply has_column_In.
  assert (Ef : empty (frame gdf) = false).
  { unfold empty. destruct (rows (frame gdf)); [contradiction|].
    destruct (columns (frame gdf)); [contradiction|reflexivity]. }
  unfold filter_firms_points_within_country_area.
  rewrite Hf, Hc, Ef, Ec, Hg, Hcrs. cbn [negb orb crs_differ].
  rewrite Hrefl. cbn [negb].
  rewrite (sequence_within_area_total _ _ _ Hall).
  change (column (frame gdf) geometry_column)
    with (map (fun r => cell_at (columns (frame gdf)) r geometry_column)
              (rows (frame gdf))).
  rewrite map_map.
  rewrite (mask_rows_filter
             (fun r => inside_some w (column (frame c) geometry_column)
                                   (cell_at (columns (frame gdf)) r
                                            geometry_column))).
  rewrite Hg. reflexivity.
Qed.

Lemma filter_accepts_combined_result_witness :
  exists gdf out,
    convert_firms_urls_to_combined_gdf_wrapped
      (sample_world 0 batch_numeric) ["modis"; "viirs"; "snpp"] []
    = (Ok gdf, ["modis"; "viirs"; "snpp"])
    /\ filter_firms_points_within_country_area
         (sample_world 0 batch_numeric) (AGeoDataFrame gdf)
         (AGeoDataFrame square_country) = Ok out
    /\ column (frame out) geometry_column
       = [VGeom (Point (1 # 2) (1 # 2))].
Proof.
  destruct (convert_firms_urls_to_combined_gdf_wrapped
              (sample_world 0 batch_numeric) ["modis"; "viirs"; "snpp"] [])
    as [[gdf|e] rq'] eqn:E; [|vm_compute in E; discriminate].
  assert (Hrq : rq' = ["modis"; "viirs"; "snpp"])
    by (vm_compute in E; now injection E as _ <-).
  subst rq'.
  assert (Hne : rows (frame gdf) <> []).
  { pose proof E as E'. vm_compute in E'. injection E' as <-. discriminate. }
  exists gdf. eexists. split; [reflexivity|].
  split;
    [exact (proj1 (filter_accepts_combined_result
                     (sample_world 0 batch_numeric)
                     ["modis"; "viirs"; "snpp"] []
                     ["modis"; "viirs"; "snpp"] gdf square_country E Hne
                     eq_refl eq_refl eq_refl eq_refl))
    |].
  vm_compute in E. injection E as <-. reflexivity.
Defined.


